(** * FreshMart grocery bot (bot.py): pricing, carts, order tracking, admin actions

    A shallow embedding of the order/session core of [bot.py].  The module
    globals ([user_carts], [user_sessions], [order_tracking], [sheet],
    [ADMIN_CHAT_ID]) become one [state] record that every handler threads;
    Python's nested dicts are kept as objects in two stores, so that the
    aliasing created by [cart.copy()] is visible; money is binary64
    arithmetic, as in Python, through the Standard Library's [SpecFloat]. *)

From Stdlib Require Import ZArith SpecFloat.
From stdpp Require Import gmap strings list pretty.

Open Scope Z_scope.

(** ** Python numbers *)

Module Py.

(** Python's [float] is IEEE binary64. *)
Definition prec : Z := 53.
Definition emax : Z := 1024.
Abbreviation float := spec_float.

Definition fadd : float -> float -> float := SFadd prec emax.
Definition fsub : float -> float -> float := SFsub prec emax.
Definition fmul : float -> float -> float := SFmul prec emax.
Definition fdiv : float -> float -> float := SFdiv prec emax.

(** The binary64 nearest to an integer (ties to even), overflowing to an
    infinity. *)
Definition float_of_Z (z : Z) : float := binary_normalize prec emax z 0 false.

(** The coercion of an [int] operand in mixed arithmetic: it raises
    OverflowError (here [None]) when the integer is too large. *)
Definition float_of_int (z : Z) : option float :=
  match float_of_Z z with
  | S754_infinity _ => None
  | f => Some f
  end.

(** A decimal literal with two decimals, such as [3.99]: the binary64
    nearest to [cents/100].  Both operands are exact, and the division
    rounds correctly, which is what the literal denotes. *)
Definition literal (cents : Z) : float := fdiv (float_of_Z cents) (float_of_Z 100).

(** A value of the numeric tower: the prices are floats, the quantities,
    the delivery fee and the start value of [sum] are ints. *)
Inductive num :=
| Int (z : Z)
| Float (f : float).

Definition add (a b : num) : option num :=
  match a, b with
  | Int x, Int y => Some (Int (x + y))
  | Int x, Float y => fx ← float_of_int x; Some (Float (fadd fx y))
  | Float x, Int y => fy ← float_of_int y; Some (Float (fadd x fy))
  | Float x, Float y => Some (Float (fadd x y))
  end.

Definition sub (a b : num) : option num :=
  match a, b with
  | Int x, Int y => Some (Int (x - y))
  | Int x, Float y => fx ← float_of_int x; Some (Float (fsub fx y))
  | Float x, Int y => fy ← float_of_int y; Some (Float (fsub x fy))
  | Float x, Float y => Some (Float (fsub x y))
  end.

Definition mul (a b : num) : option num :=
  match a, b with
  | Int x, Int y => Some (Int (x * y))
  | Int x, Float y => fx ← float_of_int x; Some (Float (fmul fx y))
  | Float x, Int y => fy ← float_of_int y; Some (Float (fmul x fy))
  | Float x, Float y => Some (Float (fmul x y))
  end.

(** The order of [a] and an int [n].  Python compares a float with an
    int by value, without rounding the int; a NaN is unordered. *)
Definition compare_int (a : num) (n : Z) : option comparison :=
  match a with
  | Int x => Some (x ?= n)
  | Float (S754_zero _) => Some (0 ?= n)
  | Float (S754_infinity s) => Some (if s then Lt else Gt)
  | Float S754_nan => None
  | Float (S754_finite s m e) =>
      Some match e with
           | Zneg p => cond_Zopp s (Zpos m) ?= n * 2 ^ Zpos p
           | _ => cond_Zopp s (Zpos m) * 2 ^ e ?= n
           end
  end.

(** [a >= n], [a < n] and [a == n]: all false on a NaN. *)
Definition ge_int (a : num) (n : Z) : bool :=
  match compare_int a n with
  | Some (Gt | Eq) => true
  | _ => false
  end.

Definition lt_int (a : num) (n : Z) : bool :=
  match compare_int a n with
  | Some Lt => true
  | _ => false
  end.

Definition eq_int (a : num) (n : Z) : bool :=
  match compare_int a n with
  | Some Eq => true
  | _ => false
  end.

(** [int(x)]: truncation towards zero; OverflowError on an infinity and
    ValueError on a NaN. *)
Definition int_of_float (x : float) : option Z :=
  match x with
  | S754_zero _ => Some 0
  | S754_finite s m e =>
      Some (cond_Zopp s match e with
                        | Zneg p => Zpos m / 2 ^ Zpos p
                        | _ => Zpos m * 2 ^ e
                        end)
  | S754_infinity _ | S754_nan => None
  end.

(** [str(z)] of an int. *)
Definition str (z : Z) : string := pretty z.

(** The format specification [:.2f]: the exact value of the float,
    rounded to a whole number of hundredths, ties to even. *)
Definition round_half_even (n d : Z) : Z :=
  let q := n / d in
  match 2 * (n mod d) ?= d with
  | Lt => q
  | Gt => q + 1
  | Eq => if Z.even q then q else q + 1
  end.

Definition hundredths (m : positive) (e : Z) : Z :=
  match e with
  | Zneg p => round_half_even (Zpos m * 100) (2 ^ Zpos p)
  | _ => Zpos m * 100 * 2 ^ e
  end.

Definition sign_text (s : bool) : string := if s then "-" else "".

Definition two_digits (n : Z) : string :=
  if n <? 10 then "0" +:+ pretty n else pretty n.

Definition format_2f_float (x : float) : string :=
  match x with
  | S754_nan => "nan"
  | S754_infinity s => sign_text s +:+ "inf"
  | S754_zero s => sign_text s +:+ "0.00"
  | S754_finite s m e =>
      let c := hundredths m e in
      sign_text s +:+ pretty (c / 100) +:+ "." +:+ two_digits (c mod 100)
  end.

(** An int is formatted through its float value. *)
Definition format_2f (a : num) : option string :=
  match a with
  | Int z => format_2f_float <$> float_of_int z
  | Float x => Some (format_2f_float x)
  end.

(** [sum(f(x) for x in xs)]: the items are computed one by one and added
    to the start value [0], from left to right, as the library reference
    words it and as CPython up to 3.11 does it.  CPython 3.12 and later add
    floats with a compensated algorithm, [sum_compensated] below, whose
    result may differ from this one in the last bit. *)
Fixpoint sum_from {A} (f : A -> option num) (acc : num) (xs : list A) : option num :=
  match xs with
  | [] => Some acc
  | x :: xs' => v ← f x; acc' ← add acc v; sum_from f acc' xs'
  end.

Definition sum {A} (f : A -> option num) (xs : list A) : option num :=
  sum_from f (Int 0) xs.

(** [fabs(a) >= fabs(b)]: false on a NaN. *)
Definition fabs_ge (a b : float) : bool :=
  match SFcompare (SFabs a) (SFabs b) with
  | Some (Gt | Eq) => true
  | _ => false
  end.

(** One step of the float loop of [sum] in CPython 3.12 and later
    (Neumaier's summation): [t = f_result + x], and the rounding error of
    that addition, taken from the larger operand, goes to [c]. *)
Definition compensated_step (f_result c x : float) : float * float :=
  let t := fadd f_result x in
  (t, if fabs_ge f_result x then fadd c (fadd (fsub f_result t) x)
      else fadd c (fadd (fsub x t) f_result)).

(** The end of that loop: [if (c && isfinite(c)) f_result += c]. *)
Definition add_compensation (f_result c : float) : float :=
  match c with
  | S754_finite _ _ _ => fadd f_result c
  | _ => f_result
  end.

Fixpoint sum_compensated_from {A} (f : A -> option float) (f_result c : float)
    (xs : list A) : option float :=
  match xs with
  | [] => Some (add_compensation f_result c)
  | x :: xs' =>
      v ← f x;
      let tc := compensated_step f_result c v in
      sum_compensated_from f tc.1 tc.2 xs'
  end.

(** [sum(f(x) for x in xs)] in CPython 3.12 and later, for items that are
    floats: without items the result is the start value [0]; else the first
    item is added to [0] as before, and the float loop adds the others with
    the compensation, which starts at [0.0]. *)
Definition sum_compensated {A} (f : A -> option float) (xs : list A) : option num :=
  match xs with
  | [] => Some (Int 0)
  | x :: xs' =>
      v ← f x;
      Float <$> sum_compensated_from f (fadd (float_of_Z 0) v) (S754_zero false) xs'
  end.

End Py.

(** ** Data model *)

(** The catalog: [grocery_categories], a dict of dicts in source order. *)
Record item := Item { item_price : Py.float; item_unit : string }.

Definition grocery_categories : list (string * list (string * item)) :=
  [ ("🥦 Fresh Produce",
      [ ("🍎 Apples", Item (Py.literal 399) "kg");
        ("🍌 Bananas", Item (Py.literal 199) "kg");
        ("🥕 Carrots", Item (Py.literal 249) "kg");
        ("🥬 Spinach", Item (Py.literal 499) "bunch");
        ("🍅 Tomatoes", Item (Py.literal 349) "kg") ]);
    ("🥩 Meat & Poultry",
      [ ("🍗 Chicken Breast", Item (Py.literal 1299) "kg");
        ("🥩 Beef Steak", Item (Py.literal 2499) "kg");
        ("🐟 Salmon Fillet", Item (Py.literal 1899) "kg");
        ("🥓 Bacon", Item (Py.literal 899) "pack") ]);
    ("🥛 Dairy & Eggs",
      [ ("🥛 Milk", Item (Py.literal 299) "liter");
        ("🧀 Cheese", Item (Py.literal 699) "block");
        ("🍳 Eggs", Item (Py.literal 499) "dozen");
        ("🧈 Butter", Item (Py.literal 399) "block") ]) ].

(** A cart line, the dict [{'price': .., 'unit': .., 'quantity': ..}].  Line
    dicts are mutable objects: a cart holds references to them. *)
Record line := Line { price : Py.float; unit_ : string; quantity : Z }.

(** A location in a store of objects. *)
Abbreviation loc := nat.

(** A cart dict, item name to line object, in insertion order. *)
Abbreviation cart_dict := (list (string * loc)).

(** [user_sessions[chat_id]]: the dict with its ['step'] and the fields
    accumulated so far. *)
Inductive session :=
| main_menu
| browsing_category (current_category : string)
| awaiting_name
| awaiting_phone (customer_name : string)
| awaiting_address (customer_name phone : string)
| awaiting_instructions (customer_name phone address : string)
| awaiting_cancel_reason (order_id : string).

(** An entry of [order_tracking].  [cart] is the dict object made by
    [cart.copy()]. *)
Record order := Order {
  chat_id : Z;
  customer_name : string;
  phone : string;
  address : string;
  cart : loc;
  total : Py.num;
  status : string;
  created_at : string;
  updated_at : string
}.

(** A row of the spreadsheet, kept as the values written into its cells
    (the three amounts are written through [:.2f] after a dollar sign). *)
Record sheet_row := SheetRow {
  row_order_date : string;
  row_chat_id : string;
  row_customer_name : string;
  row_phone : string;
  row_address : string;
  row_items : list string;
  row_quantities : list (Z * string);
  row_subtotal : Py.num;
  row_delivery_fee : Py.num;
  row_total : Py.num;
  row_status : string;
  row_special_instructions : string;
  row_payment_method : string;
  row_source : string;
  row_order_id : string
}.

(** ** Messages and log records

    A text sent or logged is kept as its template and the values formatted
    into it; the wording of the templates is in [bot.py]. *)

(** The first argument of [send_message]: a chat id from an update (an
    int) or [ADMIN_CHAT_ID] (a string from the environment). *)
Inductive chat :=
| chat_int (id : Z)
| chat_str (id : string).

(** [create_enhanced_order_summary]'s text: the customer details, a row per
    line (name, line, [item_total]), the three amounts, the amount missing
    for free delivery ([None] once [delivery_fee == 0]), the instructions
    and the order time. *)
Record order_summary := OrderSummary {
  s_customer_name : string;
  s_phone : string;
  s_address : string;
  s_items : list (string * line * Py.num);
  s_subtotal : Py.num;
  s_delivery_fee : Py.num;
  s_missing : option Py.num;
  s_total : Py.num;
  s_special_instructions : string;
  s_order_time : string
}.

(** [create_admin_order_summary]'s text. *)
Record admin_summary := AdminSummary {
  a_customer_name : string;
  a_phone : string;
  a_address : string;
  a_items : list (string * Z * string);
  a_total : Py.num
}.

Inductive message :=
(* notify_customer_order_update *)
| msg_order_shipped (customer_name order_id : string) (total : Py.num) (admin_note : string)
| msg_order_cancelled (customer_name order_id admin_note : string)
| msg_order_delivered (customer_name order_id : string)
(* send_admin_order_notification, with the callback data of its four buttons *)
| msg_admin_new_order (order_id : string) (summary : admin_summary)
    (created_at status : string) (inline_keyboard : list (list string))
(* handle_admin_callback *)
| msg_unauthorized
| msg_marked_shipped (order_id : string)
| msg_order_not_found (order_id : string)
| msg_cancel_reason_prompt (order_id : string)
| msg_marked_delivered (order_id : string)
| msg_order_details (order_id customer_name phone address status : string)
    (total : Py.num) (created_at updated_at : string)
| msg_admin_error
(* process_cash_on_delivery *)
| msg_order_confirmed (customer_name : string) (summary : order_summary)
    (order_id : string) (total : Py.num)
| msg_order_error
(* show_categories, handle_add_to_cart, show_cart *)
| msg_categories
| msg_item_not_found
| msg_added_to_cart (item_name : string) (price : Py.float) (unit_ : string)
| msg_cart_empty
| msg_cart_view (rows : list (string * line * Py.num))
    (subtotal delivery_fee final_total : Py.num) (missing : option Py.num)
(* handle_start *)
| msg_welcome
(* show_category_items, with the callback data of its buttons *)
| msg_category_not_found
| msg_category_items (category : string) (items : list (string * item))
    (inline_keyboard : list (list string))
(* handle_checkout *)
| msg_checkout_cart_empty
| msg_ask_name
(* handle_message; [msg_your_orders] has a block per order listed: the id,
   the status, the total and the date *)
| msg_your_orders (track_text : list (string * string * Py.num * string))
| msg_no_orders
| msg_cart_cleared
| msg_ask_phone (customer_name : string)
| msg_ask_address
| msg_ask_instructions
| msg_cancel_done (order_id : string)
| msg_cancel_failed (order_id : string)
| msg_contact
| msg_store_info (sheet_connected : bool)
| msg_error.

Inductive level := INFO | WARNING | ERROR.

Inductive log_event :=
(* send_message *)
| log_telegram_api_error (status_code : Z)
| log_send_error
(* save_order_to_sheet *)
| log_order_received (customer_name : string) (subtotal : Py.num)
| log_sheet_saved
| log_sheet_save_failed
| log_sheet_error_details
| log_sheet_not_connected
(* process_cash_on_delivery *)
| log_sheets_failed_order_saved_locally
| log_admin_notification_failed
| log_cod_completed (customer_name order_id : string)
| log_cod_critical_error
| log_cod_error_details
(* update_order_status *)
| log_sheet_status_updated (order_id new_status : string)
| log_sheet_status_failed
| log_status_updated (order_id old_status new_status : string)
(* handle_admin_callback *)
| log_admin_callback_error
(* handle_message *)
| log_handle_message_error
(* get_updates *)
| log_get_updates_conflict
| log_get_updates_conflict_solution
| log_get_updates_api_error (status_code : Z)
| log_get_updates_error
(* main *)
| log_message_from (chat_id : Z) (text : string)
| log_callback_from (chat_id : Z) (callback_data : string)
| log_main_loop_error.

(** What the transport answers to a [sendMessage] request. *)
Inductive send_result :=
| http_ok
| http_error (status_code : Z)
| request_failed.

(** ** The state of the module *)

(** The globals of [bot.py], the two stores of dict objects, and what the
    process has sent and logged.  [transport] is the environment: its answer
    to the n-th [sendMessage] request.  [sheet] is [None] when the
    spreadsheet is not connected, else the rows below the header.  A Python
    dict keeps its keys in the order of their insertion: [order_ids] has
    the keys of [order_tracking] in that order, for the one place that
    iterates over the tracker. *)
Record state := State {
  ADMIN_CHAT_ID : option string;
  transport : nat -> send_result;
  sheet : option (list sheet_row);
  lines : list line;
  dicts : list cart_dict;
  user_carts : gmap Z loc;
  user_sessions : gmap Z session;
  order_tracking : gmap string order;
  order_ids : list string;
  outbox : list (chat * message);
  log : list (level * log_event)
}.

Definition set_sheet (v : option (list sheet_row)) (st : state) : state :=
  State (ADMIN_CHAT_ID st) (transport st) v (lines st) (dicts st) (user_carts st)
        (user_sessions st) (order_tracking st) (order_ids st) (outbox st) (log st).
Definition set_lines (v : list line) (st : state) : state :=
  State (ADMIN_CHAT_ID st) (transport st) (sheet st) v (dicts st) (user_carts st)
        (user_sessions st) (order_tracking st) (order_ids st) (outbox st) (log st).
Definition set_dicts (v : list cart_dict) (st : state) : state :=
  State (ADMIN_CHAT_ID st) (transport st) (sheet st) (lines st) v (user_carts st)
        (user_sessions st) (order_tracking st) (order_ids st) (outbox st) (log st).
Definition set_user_carts (v : gmap Z loc) (st : state) : state :=
  State (ADMIN_CHAT_ID st) (transport st) (sheet st) (lines st) (dicts st) v
        (user_sessions st) (order_tracking st) (order_ids st) (outbox st) (log st).
Definition set_user_sessions (v : gmap Z session) (st : state) : state :=
  State (ADMIN_CHAT_ID st) (transport st) (sheet st) (lines st) (dicts st) (user_carts st)
        v (order_tracking st) (order_ids st) (outbox st) (log st).
Definition set_order_tracking (v : gmap string order) (st : state) : state :=
  State (ADMIN_CHAT_ID st) (transport st) (sheet st) (lines st) (dicts st) (user_carts st)
        (user_sessions st) v (order_ids st) (outbox st) (log st).
Definition set_order_ids (v : list string) (st : state) : state :=
  State (ADMIN_CHAT_ID st) (transport st) (sheet st) (lines st) (dicts st) (user_carts st)
        (user_sessions st) (order_tracking st) v (outbox st) (log st).
Definition set_outbox (v : list (chat * message)) (st : state) : state :=
  State (ADMIN_CHAT_ID st) (transport st) (sheet st) (lines st) (dicts st) (user_carts st)
        (user_sessions st) (order_tracking st) (order_ids st) v (log st).
Definition set_log (v : list (level * log_event)) (st : state) : state :=
  State (ADMIN_CHAT_ID st) (transport st) (sheet st) (lines st) (dicts st) (user_carts st)
        (user_sessions st) (order_tracking st) (order_ids st) (outbox st) v.

(** A location held by the program always denotes an allocated object;
    reading any other location gives an empty dict or a blank line, so that
    the functions below are total. *)
Definition dict_at (st : state) (d : loc) : cart_dict := default [] (dicts st !! d).

Definition blank_line : line := Line (S754_zero false) "" 0.

Definition line_at (st : state) (l : loc) : line := default blank_line (lines st !! l).

(** [cart.items()] and [cart.values()] of the dict object [d]. *)
Definition cart_items (st : state) (d : loc) : list (string * line) :=
  (fun kv => (kv.1, line_at st kv.2)) <$> dict_at st d.

Definition cart_values (st : state) (d : loc) : list line :=
  (fun kv => line_at st kv.2) <$> dict_at st d.

(** ** Computations: state and exceptions

    A function of [bot.py] either returns a value or raises, and in both
    cases leaves a state behind.  Every handler of the source catches
    [Exception], so one kind of exception is enough. *)
Inductive result (A : Type) :=
| Return (a : A) (st : state)
| Raise (st : state).
Arguments Return {A} a st.
Arguments Raise {A} st.

Definition M (A : Type) : Type := state -> result A.

Definition ret {A} (a : A) : M A := fun st => Return a st.

Definition raise {A} : M A := fun st => Raise st.

Definition bind {A B} (m : M A) (k : A -> M B) : M B :=
  fun st => match m st with
            | Return a st' => k a st'
            | Raise st' => Raise st'
            end.

#[export] Instance M_ret : MRet M := @ret.
#[export] Instance M_bind : MBind M := fun A B k m => bind m k.

(** [try: m except Exception: handler]. *)
Definition try_except {A} (m : M A) (handler : M A) : M A :=
  fun st => match m st with
            | Return a st' => Return a st'
            | Raise st' => handler st'
            end.

Definition get : M state := fun st => Return st st.

Definition modify (f : state -> state) : M unit := fun st => Return tt (f st).

(** An expression that raises when it has no value. *)
Definition eval {A} (o : option A) : M A :=
  match o with
  | Some a => ret a
  | None => raise
  end.

Definition when (b : bool) (m : M unit) : M unit := if b then m else ret tt.

Definition logger (lv : level) (e : log_event) : M unit :=
  modify (fun st => set_log (log st ++ [(lv, e)]) st).

(** ** The notifier *)

(** [send_message(chat_id, text, ...)].  The process only starts with
    [TELEGRAM_TOKEN] set, so the request is always made; [outbox] records
    it.  A status other than 200 and an exception of [requests] are logged
    and turned into [False]. *)
Definition send_message (chat_id : chat) (text : message) : M bool :=
  st ← get;
  modify (set_outbox (outbox st ++ [(chat_id, text)]));;
  match transport st (length (outbox st)) with
  | http_ok => ret true
  | http_error status_code =>
      logger ERROR (log_telegram_api_error status_code);; ret false
  | request_failed =>
      logger ERROR log_send_error;; ret false
  end.

(** The state after a request, in closed form. *)
Definition send_ok (r : send_result) : bool :=
  match r with
  | http_ok => true
  | _ => false
  end.

Definition send_log (r : send_result) : list (level * log_event) :=
  match r with
  | http_ok => []
  | http_error status_code => [(ERROR, log_telegram_api_error status_code)]
  | request_failed => [(ERROR, log_send_error)]
  end.

Definition sent (chat_id : chat) (text : message) (st : state) : state :=
  set_log (log st ++ send_log (transport st (length (outbox st))))
    (set_outbox (outbox st ++ [(chat_id, text)]) st).

(** ** Order tracking *)

(** [generate_order_id()], at the reading [now] of [time.time()]. *)
Definition generate_order_id (now : Py.float) : M string :=
  seconds ← eval (Py.int_of_float now);
  ret ("ORD" +:+ Py.str seconds).

(** A new dict object and a new line object. *)
Definition alloc_dict (v : cart_dict) : M loc :=
  st ← get;
  modify (set_dicts (dicts st ++ [v]));;
  ret (length (dicts st)).

Definition alloc_line (v : line) : M loc :=
  st ← get;
  modify (set_lines (lines st ++ [v]));;
  ret (length (lines st)).

(** The keys of a dict after [d[k] = v]: a new key goes to the end, a key
    that is there keeps its place. *)
Definition assign_key (k : string) (keys : list string) : list string :=
  if bool_decide (k ∈ keys) then keys else keys ++ [k].

(** [save_order_tracking(...)]; [now1] and [now2] are the two readings of
    [datetime.now()].  [cart.copy()] is a new dict object with the entries
    of [cart]: the same line objects. *)
Definition save_order_tracking (order_id : string) (chat_id : Z)
    (customer_name phone address : string) (cart : loc) (total : Py.num)
    (status : string) (now1 now2 : string) : M string :=
  st ← get;
  copy ← alloc_dict (dict_at st cart);
  modify (fun st => set_order_ids (assign_key order_id (order_ids st))
    (set_order_tracking
       (<[order_id := Order chat_id customer_name phone address copy total status now1 now2]>
          (order_tracking st)) st));;
  ret order_id.

(** The entry of [status_messages] for [new_status], if any. *)
Definition status_message (order_id : string) (o : order) (new_status admin_note : string)
    : option message :=
  if decide (new_status = "Shipped") then
    Some (msg_order_shipped (customer_name o) order_id (total o) admin_note)
  else if decide (new_status = "Cancelled") then
    Some (msg_order_cancelled (customer_name o) order_id admin_note)
  else if decide (new_status = "Delivered") then
    Some (msg_order_delivered (customer_name o) order_id)
  else None.

(** [notify_customer_order_update(order_id, new_status, admin_note)].  The
    dict [status_messages] is built before the status is looked up in it:
    its three texts are formatted whatever [new_status] is, and the one for
    Shipped formats [order['total']] with [:.2f], which raises
    OverflowError for an int too large for a float. *)
Definition notify_customer_order_update (order_id new_status admin_note : string) : M unit :=
  st ← get;
  match order_tracking st !! order_id with
  | None => ret tt
  | Some o =>
      eval (Py.format_2f (total o));;
      match status_message order_id o new_status admin_note with
      | Some message => send_message (chat_int (chat_id o)) message;; ret tt
      | None => ret tt
      end
  end.

(** The scan of [sheet.get_all_records()]: the status cell of the first
    row with this order id is rewritten; [None] when there is no such row. *)
Fixpoint update_first_status (order_id new_status : string) (rows : list sheet_row)
    : option (list sheet_row) :=
  match rows with
  | [] => None
  | r :: rows' =>
      if decide (row_order_id r = order_id) then
        Some (SheetRow (row_order_date r) (row_chat_id r) (row_customer_name r)
                (row_phone r) (row_address r) (row_items r) (row_quantities r)
                (row_subtotal r) (row_delivery_fee r) (row_total r) new_status
                (row_special_instructions r) (row_payment_method r) (row_source r)
                (row_order_id r) :: rows')
      else (r ::.) <$> update_first_status order_id new_status rows'
  end.

(** [update_order_status(order_id, new_status, admin_note)].  [now] is the
    reading of [datetime.now()]; [sheet_answers] tells whether the requests
    to the spreadsheet go through (they raise otherwise). *)
Definition update_order_status (order_id new_status admin_note : string)
    (now : string) (sheet_answers : bool) : M bool :=
  st ← get;
  match order_tracking st !! order_id with
  | None => ret false
  | Some o =>
      let old_status := status o in
      modify (set_order_tracking
        (<[order_id := Order (chat_id o) (customer_name o) (phone o) (address o) (cart o)
                         (total o) new_status (created_at o) now]> (order_tracking st)));;
      match sheet st with
      | Some rows =>
          try_except
            (if sheet_answers then
               match update_first_status order_id new_status rows with
               | Some rows' =>
                   modify (set_sheet (Some rows'));;
                   logger INFO (log_sheet_status_updated order_id new_status)
               | None => ret tt
               end
             else raise)
            (logger ERROR log_sheet_status_failed)
      | None => ret tt
      end;;
      notify_customer_order_update order_id new_status admin_note;;
      logger INFO (log_status_updated order_id old_status new_status);;
      ret true
  end.

(** ** Admin order management *)

(** [create_admin_order_summary(order_id, order_data)]. *)
Definition create_admin_order_summary (st : state) (order_id : string) (order_data : order)
    : admin_summary :=
  AdminSummary (customer_name order_data) (phone order_data) (address order_data)
    ((fun kv => (kv.1, quantity kv.2, unit_ kv.2)) <$> cart_items st (cart order_data))
    (total order_data).

(** A string is true when it is not empty. *)
Definition truthy (s : option string) : bool :=
  match s with
  | Some s => negb (bool_decide (s = ""))
  | None => false
  end.

(** [send_admin_order_notification(order_id, order_data)]. *)
Definition send_admin_order_notification (order_id : string) (order_data : order) : M unit :=
  st ← get;
  if negb (truthy (ADMIN_CHAT_ID st)) then ret tt
  else
    let order_summary := create_admin_order_summary st order_id order_data in
    send_message (chat_str (default "" (ADMIN_CHAT_ID st)))
      (msg_admin_new_order order_id order_summary (created_at order_data)
         (status order_data)
         [ ["ship_" +:+ order_id; "cancel_" +:+ order_id];
           ["deliver_" +:+ order_id; "details_" +:+ order_id] ]);;
    ret tt.

(** [s[n:]] for a string. *)
Fixpoint drop_chars (n : nat) (s : string) : string :=
  match n, s with
  | O, _ => s
  | S n', String _ s' => drop_chars n' s'
  | S _, EmptyString => EmptyString
  end.

(** [not ADMIN_CHAT_ID or str(chat_id) != ADMIN_CHAT_ID]. *)
Definition not_admin (st : state) (chat_id : Z) : bool :=
  negb (truthy (ADMIN_CHAT_ID st))
  || negb (bool_decide (Some (Py.str chat_id) = ADMIN_CHAT_ID st)).

(** [handle_admin_callback(chat_id, callback_data)]; [now] and
    [sheet_answers] are for [update_order_status].  In the details branch
    the text is built first, with the total formatted by [:.2f]; then the
    loop variable [details] rebinds the text to a line dict, so the first
    [details += ...] raises TypeError: only an order with an empty cart
    gets its details sent. *)
Definition handle_admin_callback (chat_id : Z) (callback_data : string)
    (now : string) (sheet_answers : bool) : M unit :=
  st ← get;
  if not_admin st chat_id then
    send_message (chat_int chat_id) msg_unauthorized;; ret tt
  else
    try_except
      (if String.prefix "ship_" callback_data then
         let order_id := drop_chars 5 callback_data in
         ok ← update_order_status order_id "Shipped" "Your order is on the way!"
                now sheet_answers;
         (if ok : bool then send_message (chat_int chat_id) (msg_marked_shipped order_id)
          else send_message (chat_int chat_id) (msg_order_not_found order_id));;
         ret tt
       else if String.prefix "cancel_" callback_data then
         let order_id := drop_chars 7 callback_data in
         modify (fun st => set_user_sessions
           (<[chat_id := awaiting_cancel_reason order_id]> (user_sessions st)) st);;
         send_message (chat_int chat_id) (msg_cancel_reason_prompt order_id);;
         ret tt
       else if String.prefix "deliver_" callback_data then
         let order_id := drop_chars 8 callback_data in
         ok ← update_order_status order_id "Delivered" "" now sheet_answers;
         (if ok : bool then send_message (chat_int chat_id) (msg_marked_delivered order_id)
          else send_message (chat_int chat_id) (msg_order_not_found order_id));;
         ret tt
       else if String.prefix "details_" callback_data then
         let order_id := drop_chars 8 callback_data in
         st ← get;
         match order_tracking st !! order_id with
         | Some o =>
             eval (Py.format_2f (total o));;
             match dict_at st (cart o) with
             | [] =>
                 send_message (chat_int chat_id)
                   (msg_order_details order_id (customer_name o) (phone o) (address o)
                      (status o) (total o) (created_at o) (updated_at o));;
                 ret tt
             | _ :: _ => raise
             end
         | None =>
             send_message (chat_int chat_id) (msg_order_not_found order_id);; ret tt
         end
       else ret tt)
      (logger ERROR log_admin_callback_error;;
       send_message (chat_int chat_id) msg_admin_error;;
       ret tt).

(** ** Order summary, spreadsheet row, checkout *)

(** [details['price'] * details['quantity']]: a float times an int. *)
Definition item_total (details : line) : option Py.num :=
  Py.mul (Py.Float (price details)) (Py.Int (quantity details)).

(** A row of [items_text]: the name, the line and its [item_total]. *)
Definition summary_row (kv : string * line) : option (string * line * Py.num) :=
  t ← item_total kv.2; Some (kv.1, kv.2, t).

(** [create_enhanced_order_summary(customer_name, phone, address, cart,
    special_instructions)], at the reading [now] of [datetime.now()].  It
    returns [(summary, total)]. *)
Definition create_enhanced_order_summary (customer_name phone address : string)
    (cart : loc) (special_instructions : string) (now : string)
    : M (order_summary * Py.num) :=
  st ← get;
  subtotal ← eval (Py.sum item_total (cart_values st cart));
  let delivery_fee := if Py.ge_int subtotal 50 then Py.Int 0 else Py.Int 5 in
  total ← eval (Py.add subtotal delivery_fee);
  items_text ← eval (mapM summary_row (cart_items st cart));
  missing ← (if Py.eq_int delivery_fee 0 then ret None
             else m ← eval (Py.sub (Py.Int 50) subtotal); ret (Some m));
  ret (OrderSummary customer_name phone address items_text subtotal delivery_fee
         missing total special_instructions now, total).

(** [save_order_to_sheet(chat_id, customer_name, phone, address, cart,
    special_instructions, order_id)].  [now] is the reading of
    [datetime.now()]; [append_row_ok] tells whether [sheet.append_row]
    goes through (it raises otherwise). *)
Definition save_order_to_sheet (chat_id : Z) (customer_name phone address : string)
    (cart : loc) (special_instructions order_id : string)
    (now : string) (append_row_ok : bool) : M bool :=
  st ← get;
  received ← eval (Py.sum item_total (cart_values st cart));
  logger INFO (log_order_received customer_name received);;
  match sheet st with
  | Some rows =>
      try_except
        (subtotal ← eval (Py.sum item_total (cart_values st cart));
         let delivery_fee := if Py.ge_int subtotal 50 then Py.Int 0 else Py.Int 5 in
         total ← eval (Py.add subtotal delivery_fee);
         let items_list := (fun kv => kv.1) <$> cart_items st cart in
         let quantities_list :=
           (fun kv => (quantity kv.2, unit_ kv.2)) <$> cart_items st cart in
         let order_data :=
           SheetRow now (Py.str chat_id) customer_name phone address items_list
             quantities_list subtotal delivery_fee total "Pending"
             special_instructions "Cash on Delivery" "Telegram Bot" order_id in
         (if append_row_ok then modify (set_sheet (Some (rows ++ [order_data])))
          else raise);;
         logger INFO log_sheet_saved;;
         ret true)
        (logger ERROR log_sheet_save_failed;;
         logger ERROR log_sheet_error_details;;
         ret false)
  | None =>
      logger INFO log_sheet_not_connected;;
      ret true
  end.

(** The two algorithms of [sum].  The repository names no interpreter:
    CPython up to 3.11 adds the items from left to right, CPython 3.12 and
    later add floats with a compensation.  The two functions above are
    written with the first; the two below are the same functions with the
    algorithm as a parameter, for the comparison of the pricing sites. *)
Inductive sum_algorithm := left_to_right | compensated.

(** [details['price'] * details['quantity']], as the float that it is. *)
Definition item_total_float (details : line) : option Py.float :=
  fy ← Py.float_of_int (quantity details); Some (Py.fmul (price details) fy).

(** [sum(details['price'] * details['quantity'] for details in
    cart.values())]. *)
Definition sum_item_totals_by (alg : sum_algorithm) (ls : list line) : option Py.num :=
  match alg with
  | left_to_right => Py.sum item_total ls
  | compensated => Py.sum_compensated item_total_float ls
  end.

(** [create_enhanced_order_summary], with the algorithm of [sum]. *)
Definition create_enhanced_order_summary_by (alg : sum_algorithm)
    (customer_name phone address : string) (cart : loc) (special_instructions : string)
    (now : string) : M (order_summary * Py.num) :=
  st ← get;
  subtotal ← eval (sum_item_totals_by alg (cart_values st cart));
  let delivery_fee := if Py.ge_int subtotal 50 then Py.Int 0 else Py.Int 5 in
  total ← eval (Py.add subtotal delivery_fee);
  items_text ← eval (mapM summary_row (cart_items st cart));
  missing ← (if Py.eq_int delivery_fee 0 then ret None
             else m ← eval (Py.sub (Py.Int 50) subtotal); ret (Some m));
  ret (OrderSummary customer_name phone address items_text subtotal delivery_fee
         missing total special_instructions now, total).

(** [save_order_to_sheet], with the algorithm of [sum]. *)
Definition save_order_to_sheet_by (alg : sum_algorithm) (chat_id : Z)
    (customer_name phone address : string) (cart : loc)
    (special_instructions order_id : string) (now : string) (append_row_ok : bool)
    : M bool :=
  st ← get;
  received ← eval (sum_item_totals_by alg (cart_values st cart));
  logger INFO (log_order_received customer_name received);;
  match sheet st with
  | Some rows =>
      try_except
        (subtotal ← eval (sum_item_totals_by alg (cart_values st cart));
         let delivery_fee := if Py.ge_int subtotal 50 then Py.Int 0 else Py.Int 5 in
         total ← eval (Py.add subtotal delivery_fee);
         let items_list := (fun kv => kv.1) <$> cart_items st cart in
         let quantities_list :=
           (fun kv => (quantity kv.2, unit_ kv.2)) <$> cart_items st cart in
         let order_data :=
           SheetRow now (Py.str chat_id) customer_name phone address items_list
             quantities_list subtotal delivery_fee total "Pending"
             special_instructions "Cash on Delivery" "Telegram Bot" order_id in
         (if append_row_ok then modify (set_sheet (Some (rows ++ [order_data])))
          else raise);;
         logger INFO log_sheet_saved;;
         ret true)
        (logger ERROR log_sheet_save_failed;;
         logger ERROR log_sheet_error_details;;
         ret false)
  | None =>
      logger INFO log_sheet_not_connected;;
      ret true
  end.

(** What [process_cash_on_delivery] reads from its environment: the clock
    readings, in the order of the calls, and the fate of the append. *)
Record checkout_env := CheckoutEnv {
  summary_time : string;
  time_time : Py.float;
  created_now : string;
  updated_now : string;
  row_time : string;
  append_row_ok : bool
}.

(** [process_cash_on_delivery(chat_id, customer_name, phone, address, cart,
    special_instructions)]. *)
Definition process_cash_on_delivery (chat_id : Z) (customer_name phone address : string)
    (cart : loc) (special_instructions : string) (env : checkout_env) : M bool :=
  try_except
    (summary_total ← create_enhanced_order_summary customer_name phone address cart
                       special_instructions (summary_time env);
     let order_summary := summary_total.1 in
     let total := summary_total.2 in
     order_id ← generate_order_id (time_time env);
     save_order_tracking order_id chat_id customer_name phone address cart total
       "Pending" (created_now env) (updated_now env);;
     sheets_success ← save_order_to_sheet chat_id customer_name phone address cart
                        special_instructions order_id (row_time env) (append_row_ok env);
     when (negb sheets_success) (logger WARNING log_sheets_failed_order_saved_locally);;
     send_message (chat_int chat_id)
       (msg_order_confirmed customer_name order_summary order_id total);;
     try_except
       (st ← get;
        order_data ← eval (order_tracking st !! order_id);
        send_admin_order_notification order_id order_data)
       (logger WARNING log_admin_notification_failed);;
     st ← get;
     when (bool_decide (is_Some (user_carts st !! chat_id)))
       (empty ← alloc_dict [];
        modify (fun st => set_user_carts (<[chat_id := empty]> (user_carts st)) st));;
     modify (fun st => set_user_sessions (<[chat_id := main_menu]> (user_sessions st)) st);;
     logger INFO (log_cod_completed customer_name order_id);;
     ret true)
    (logger ERROR log_cod_critical_error;;
     logger ERROR log_cod_error_details;;
     send_message (chat_int chat_id) msg_order_error;;
     ret false).

(** ** Browsing and the cart *)

(** [show_categories(chat_id)]. *)
Definition show_categories (chat_id : Z) : M unit :=
  send_message (chat_int chat_id) msg_categories;; ret tt.

(** [d.get(k)] on a dict kept as its items. *)
Fixpoint dict_get {A} (k : string) (d : list (string * A)) : option A :=
  match d with
  | [] => None
  | kv :: d' => if decide (kv.1 = k) then Some kv.2 else dict_get k d'
  end.

(** The search loop of [handle_add_to_cart]: the entry of the first
    category that has the item. *)
Fixpoint find_item (categories : list (string * list (string * item))) (item_name : string)
    : option item :=
  match categories with
  | [] => None
  | category :: categories' =>
      match dict_get item_name category.2 with
      | Some item_details => Some item_details
      | None => find_item categories' item_name
      end
  end.

(** The line that a first addition creates. *)
Definition new_line (item_details : item) : line :=
  Line (item_price item_details) (item_unit item_details) 1.

Definition increment (details : line) : line :=
  Line (price details) (unit_ details) (quantity details + 1).

(** [handle_add_to_cart(chat_id, item_name)]. *)
Definition handle_add_to_cart (chat_id : Z) (item_name : string) : M unit :=
  match find_item grocery_categories item_name with
  | None => send_message (chat_int chat_id) msg_item_not_found;; ret tt
  | Some item_details =>
      st ← get;
      cart ← match user_carts st !! chat_id with
             | Some d => ret d
             | None =>
                 d ← alloc_dict [];
                 modify (fun st => set_user_carts (<[chat_id := d]> (user_carts st)) st);;
                 ret d
             end;
      st ← get;
      match dict_get item_name (dict_at st cart) with
      | Some l => modify (set_lines (alter increment l (lines st)))
      | None =>
          l ← alloc_line (new_line item_details);
          modify (fun st => set_dicts (alter (fun d => d ++ [(item_name, l)]) cart (dicts st)) st)
      end;;
      send_message (chat_int chat_id)
        (msg_added_to_cart item_name (item_price item_details) (item_unit item_details));;
      ret tt
  end.

(** The loop of [show_cart]: [total] and the rows of [cart_text]. *)
Fixpoint show_cart_loop (items : list (string * line)) (total : Py.num)
    (cart_text : list (string * line * Py.num))
    : option (Py.num * list (string * line * Py.num)) :=
  match items with
  | [] => Some (total, cart_text)
  | kv :: items' =>
      t ← item_total kv.2;
      total' ← Py.add total t;
      show_cart_loop items' total' (cart_text ++ [(kv.1, kv.2, t)])
  end.

(** [show_cart(chat_id)]. *)
Definition show_cart (chat_id : Z) : M unit :=
  st ← get;
  match user_carts st !! chat_id with
  | None => send_message (chat_int chat_id) msg_cart_empty;; ret tt
  | Some cart =>
      match cart_items st cart with
      | [] => send_message (chat_int chat_id) msg_cart_empty;; ret tt
      | items =>
          looped ← eval (show_cart_loop items (Py.Int 0) []);
          let total := looped.1 in
          let delivery_fee := if Py.ge_int total 50 then Py.Int 0 else Py.Int 5 in
          final_total ← eval (Py.add total delivery_fee);
          missing ← (if Py.lt_int total 50
                     then m ← eval (Py.sub (Py.Int 50) total); ret (Some m)
                     else ret None);
          send_message (chat_int chat_id)
            (msg_cart_view looped.2 total delivery_fee final_total missing);;
          ret tt
      end
  end.

Definition admin_prefixed (callback_data : string) : bool :=
  String.prefix "ship_" callback_data || String.prefix "cancel_" callback_data
  || String.prefix "deliver_" callback_data || String.prefix "details_" callback_data.

(** [handle_callback_query(chat_id, callback_data)]. *)
Definition handle_callback_query (chat_id : Z) (callback_data : string)
    (now : string) (sheet_answers : bool) : M unit :=
  if String.prefix "add_" callback_data then
    handle_add_to_cart chat_id (drop_chars 4 callback_data)
  else if bool_decide (callback_data = "back_categories") then show_categories chat_id
  else if bool_decide (callback_data = "view_cart") then show_cart chat_id
  else if admin_prefixed callback_data then
    handle_admin_callback chat_id callback_data now sheet_answers
  else ret tt.

(** ** The dialogue *)

(** [handle_start(chat_id)]. *)
Definition handle_start (chat_id : Z) : M unit :=
  send_message (chat_int chat_id) msg_welcome;;
  modify (fun st => set_user_sessions (<[chat_id := main_menu]> (user_sessions st)) st).

(** [show_category_items(chat_id, category)]: a button per item, with the
    token [add_<item name>], and a last row of two buttons. *)
Definition show_category_items (chat_id : Z) (category : string) : M unit :=
  match dict_get category grocery_categories with
  | None => send_message (chat_int chat_id) msg_category_not_found;; ret tt
  | Some items =>
      let inline_keyboard :=
        ((fun kv : string * item => ["add_" +:+ kv.1]) <$> items)
        ++ [["back_categories"; "view_cart"]] in
      send_message (chat_int chat_id) (msg_category_items category items inline_keyboard);;
      modify (fun st => set_user_sessions
        (<[chat_id := browsing_category category]> (user_sessions st)) st)
  end.

(** [handle_checkout(chat_id)]. *)
Definition handle_checkout (chat_id : Z) : M unit :=
  st ← get;
  match user_carts st !! chat_id with
  | None =>
      send_message (chat_int chat_id) msg_checkout_cart_empty;;
      show_categories chat_id
  | Some cart =>
      match dict_at st cart with
      | [] =>
          send_message (chat_int chat_id) msg_checkout_cart_empty;;
          show_categories chat_id
      | _ :: _ =>
          send_message (chat_int chat_id) msg_ask_name;;
          modify (fun st => set_user_sessions
            (<[chat_id := awaiting_name]> (user_sessions st)) st)
      end
  end.

(** [order_tracking.items()]: the keys in the order of their insertion,
    each with its record. *)
Definition order_items (st : state) : list (string * order) :=
  omap (fun order_id => (fun o => (order_id, o)) <$> order_tracking st !! order_id)
    (order_ids st).

(** The first loop of the Track Order branch: the orders of this chat, in
    the order of the tracker. *)
Definition orders_of (c : Z) (entries : list (string * order)) : list (string * order) :=
  filter (fun entry => chat_id entry.2 = c) entries.

(** [l[-5:]]. *)
Definition last_five {A} (l : list A) : list A := drop (length l - 5) l.

(** A block of [track_text]: the id, the status, the total, formatted with
    [:.2f], and the date of an order. *)
Definition track_row (entry : string * order)
    : option (string * string * Py.num * string) :=
  _ ← Py.format_2f (total entry.2);
  Some (entry.1, status entry.2, total entry.2, created_at entry.2).

(** [s.lower()], as far as the comparison with ['none'] goes: the letters
    A to Z are lowered; no character outside ASCII lowers to a letter of
    ['none'], and the bytes of its UTF-8 form are kept. *)
Definition lower_ascii (c : Ascii.ascii) : Ascii.ascii :=
  let n := Ascii.nat_of_ascii c in
  if ((65 <=? n) && (n <=? 90))%nat then Ascii.ascii_of_nat (n + 32) else c.

Fixpoint lower (s : string) : string :=
  match s with
  | EmptyString => EmptyString
  | String c s' => String (lower_ascii c) (lower s')
  end.

(** The texts of the reply keyboards. *)
Definition SHOP_GROCERIES : string := "🛍️ Shop Groceries".
Definition MY_CART : string := "🛒 My Cart".
Definition TRACK_ORDER : string := "📦 Track Order".
Definition MAIN_MENU : string := "🔙 Main Menu".
Definition CONTINUE_SHOPPING : string := "📋 Continue Shopping".
Definition ADD_MORE_ITEMS : string := "➕ Add More Items".
Definition CLEAR_CART : string := "🗑️ Clear Cart".
Definition CHECKOUT_NOW : string := "🚚 Checkout Now".
Definition CHECKOUT : string := "🚚 Checkout".
Definition CONTACT_STORE : string := "📞 Contact Store".
Definition STORE_INFO : string := "ℹ️ Store Info".

(** [handle_message(chat_id, text)].  [env] is what a checkout reads from
    its environment; [now] and [sheet_answers] are for
    [update_order_status]. *)
Definition handle_message (chat_id : Z) (text : string) (env : checkout_env)
    (now : string) (sheet_answers : bool) : M unit :=
  try_except
    (if bool_decide (text = "/start") then handle_start chat_id
     else if bool_decide (text = SHOP_GROCERIES) then show_categories chat_id
     else if bool_decide (text = MY_CART) then show_cart chat_id
     else if bool_decide (text = TRACK_ORDER) then
       st ← get;
       let user_orders := orders_of chat_id (order_items st) in
       match user_orders with
       | [] => send_message (chat_int chat_id) msg_no_orders;; ret tt
       | _ :: _ =>
           track_text ← eval (mapM track_row (last_five user_orders));
           send_message (chat_int chat_id) (msg_your_orders track_text);; ret tt
       end
     else if bool_decide (text = MAIN_MENU) then handle_start chat_id
     else if bool_decide (text = CONTINUE_SHOPPING) then show_categories chat_id
     else if bool_decide (text = ADD_MORE_ITEMS) then show_categories chat_id
     else if bool_decide (text = CLEAR_CART) then
       st ← get;
       when (bool_decide (is_Some (user_carts st !! chat_id)))
         (empty ← alloc_dict [];
          modify (fun st => set_user_carts (<[chat_id := empty]> (user_carts st)) st));;
       send_message (chat_int chat_id) msg_cart_cleared;;
       show_categories chat_id
     else if bool_decide (text = CHECKOUT_NOW) || bool_decide (text = CHECKOUT) then
       handle_checkout chat_id
     else if bool_decide (is_Some (dict_get text grocery_categories)) then
       show_category_items chat_id text
     else
       st ← get;
       match user_sessions st !! chat_id with
       | Some awaiting_name =>
           let customer_name := text in
           modify (fun st => set_user_sessions
             (<[chat_id := awaiting_phone customer_name]> (user_sessions st)) st);;
           send_message (chat_int chat_id) (msg_ask_phone customer_name);;
           ret tt
       | Some (awaiting_phone customer_name) =>
           let user_phone := text in
           modify (fun st => set_user_sessions
             (<[chat_id := awaiting_address customer_name user_phone]>
                (user_sessions st)) st);;
           send_message (chat_int chat_id) msg_ask_address;;
           ret tt
       | Some (awaiting_address customer_name user_phone) =>
           let user_address := text in
           modify (fun st => set_user_sessions
             (<[chat_id := awaiting_instructions customer_name user_phone user_address]>
                (user_sessions st)) st);;
           send_message (chat_int chat_id) msg_ask_instructions;;
           ret tt
       | Some (awaiting_instructions customer_name user_phone user_address) =>
           let special_instructions :=
             if bool_decide (lower text = "none") then EmptyString else text in
           cart ← eval (user_carts st !! chat_id);
           process_cash_on_delivery chat_id customer_name user_phone user_address cart
             special_instructions env;;
           ret tt
       | Some (awaiting_cancel_reason order_id) =>
           cancelled ← (if truthy (Some order_id)
                        then update_order_status order_id "Cancelled" text now sheet_answers
                        else ret false);
           (if cancelled : bool
            then send_message (chat_int chat_id) (msg_cancel_done order_id)
            else send_message (chat_int chat_id) (msg_cancel_failed order_id));;
           modify (fun st => set_user_sessions
             (<[chat_id := main_menu]> (user_sessions st)) st)
       | _ =>
           if bool_decide (text = CONTACT_STORE) then
             send_message (chat_int chat_id) msg_contact;; ret tt
           else if bool_decide (text = STORE_INFO) then
             send_message (chat_int chat_id)
               (msg_store_info (bool_decide (is_Some (sheet st))));;
             ret tt
           else handle_start chat_id
       end)
    (logger ERROR log_handle_message_error;;
     send_message (chat_int chat_id) msg_error;;
     handle_start chat_id).

(** ** The polling loop *)

(** An element of [data['result']], as far as [main] looks at it: a message
    with a text, a callback query, a callback query that lacks its message
    or its data (the lookups of [main] then raise KeyError), or anything
    else. *)
Inductive update :=
| upd_text (chat_id : Z) (text : string)
| upd_callback (chat_id : Z) (callback_data : string)
| upd_callback_incomplete
| upd_other.

(** What [requests.get] does: it raises, or it answers with a status code
    and a body; the body is [None] when [response.json()] raises, else the
    values of ['ok'] and ['result'], each update with its ['update_id']. *)
Inductive get_response :=
| get_raised
| get_answered (status_code : Z) (body : option (bool * list (Z * update))).

(** [max(update['update_id'] for update in updates)], for the non-empty
    list [u :: updates]. *)
Definition max_update_id (u : Z * update) (updates : list (Z * update)) : Z :=
  fold_left Z.max updates.*1 u.1.

(** [offset or last_update_id + 1]. *)
Definition offset_param (offset : option Z) (last_update_id : Z) : Z :=
  match offset with
  | Some o => if o =? 0 then last_update_id + 1 else o
  | None => last_update_id + 1
  end.

(** [get_updates(offset)].  The global [last_update_id] is passed in and
    returned with the result; [requests_get] is the transport, from the
    offset asked for to the response.  The process only runs with
    [TELEGRAM_TOKEN] set, so the request is always made. *)
Definition get_updates (offset : option Z) (last_update_id : Z)
    (requests_get : Z -> get_response) : M (Z * option (list (Z * update))) :=
  match requests_get (offset_param offset last_update_id) with
  | get_raised => logger ERROR log_get_updates_error;; ret (last_update_id, None)
  | get_answered status_code body =>
      if status_code =? 200 then
        match body with
        | None => logger ERROR log_get_updates_error;; ret (last_update_id, None)
        | Some (true, u :: updates) =>
            ret (max_update_id u updates, Some (u :: updates))
        | Some _ => ret (last_update_id, None)
        end
      else if status_code =? 409 then
        logger ERROR log_get_updates_conflict;;
        logger ERROR log_get_updates_conflict_solution;;
        ret (last_update_id, None)
      else
        logger ERROR (log_get_updates_api_error status_code);;
        ret (last_update_id, None)
  end.

(** What the handlers of one update read from their environment. *)
Record event_env := EventEnv {
  checkout_readings : checkout_env;
  status_now : string;
  sheet_answers : bool
}.

(** The body of the loop over the updates in [main]. *)
Definition handle_update (u : update) (env : event_env) : M unit :=
  match u with
  | upd_text chat_id text =>
      logger INFO (log_message_from chat_id text);;
      handle_message chat_id text (checkout_readings env) (status_now env)
        (sheet_answers env)
  | upd_callback chat_id callback_data =>
      logger INFO (log_callback_from chat_id callback_data);;
      handle_callback_query chat_id callback_data (status_now env) (sheet_answers env)
  | upd_callback_incomplete => raise
  | upd_other => ret tt
  end.

(** [for update in updates['result']: ...]; [env] gives the environment of
    the update with a given id. *)
Fixpoint handle_updates (updates : list (Z * update)) (env : Z -> event_env) : M unit :=
  match updates with
  | [] => ret tt
  | u :: updates' => handle_update u.2 (env u.1);; handle_updates updates' env
  end.

(** One turn of the loop of [main]: it returns the new [last_update_id].
    [get_updates] catches every exception itself, so the [try] of [main]
    only guards the loop over the updates. *)
Definition main_turn (last_update_id : Z) (requests_get : Z -> get_response)
    (env : Z -> event_env) : M Z :=
  polled ← get_updates None last_update_id requests_get;
  try_except
    (match polled.2 with
     | Some updates => handle_updates updates env
     | None => ret tt
     end)
    (logger ERROR log_main_loop_error);;
  ret polled.1.

(** ** The pricing rule and the checkout guarantees, as the specification words them *)

(** The state a computation leaves behind, whether it returned or raised. *)
Definition final_state {A} (r : result A) : state :=
  match r with
  | Return _ st => st
  | Raise st => st
  end.

(** [Σ line.unitPrice × line.quantity]: the products, added from left to
    right in binary64; the empty sum is the int [0]. *)
Definition line_amount (l : line) : Py.float :=
  Py.fmul (price l) (Py.float_of_Z (quantity l)).

Definition sum_of_lines (ls : list line) : Py.num :=
  match ls with
  | [] => Py.Int 0
  | _ :: _ => Py.Float (fold_left (fun acc l => Py.fadd acc (line_amount l)) ls (S754_zero false))
  end.

(** [deliveryFee = 0 if subtotal ≥ 50 else 5]. *)
Definition delivery_fee_for (subtotal : Py.num) : Py.num :=
  if Py.ge_int subtotal 50 then Py.Int 0 else Py.Int 5.

(** A quantity that mixed arithmetic can turn into a float. *)
Definition convertible (l : line) : Prop := is_Some (Py.float_of_int (quantity l)).

#[export] Instance convertible_dec (l : line) : Decision (convertible l) :=
  is_Some_dec (Py.float_of_int (quantity l)).

(** An amount that [:.2f] formats: a float, or an int that converts to a
    float. *)
Definition formattable (a : Py.num) : Prop := is_Some (Py.format_2f a).

#[export] Instance formattable_dec (a : Py.num) : Decision (formattable a) :=
  is_Some_dec (Py.format_2f a).

(** The cart of the specification's scenario. *)
Definition scenario_cart : list (string * line) :=
  [ ("🍎 Apples", Line (Py.literal 399) "kg" 2);
    ("🥛 Milk", Line (Py.literal 299) "liter" 1) ].

(** The same environment with another fate for the append. *)
Definition with_append_row (b : bool) (env : checkout_env) : checkout_env :=
  CheckoutEnv (summary_time env) (time_time env) (created_now env) (updated_now env)
    (row_time env) b.

(** A failed append is surfaced to the chats when the requests made after
    it differ from those made after a successful one. *)
Definition ledger_failure_surfaced (chat_id : Z) (customer_name phone address : string)
    (cart : loc) (special_instructions : string) (env : checkout_env) (st : state) : Prop :=
  outbox (final_state (process_cash_on_delivery chat_id customer_name phone address cart
                         special_instructions (with_append_row false env) st))
  <> outbox (final_state (process_cash_on_delivery chat_id customer_name phone address cart
                            special_instructions (with_append_row true env) st)).

(** The order that a checkout stores. *)
Definition pending_order (chat_id : Z) (customer_name phone address : string)
    (copy : loc) (total : Py.num) (env : checkout_env) : order :=
  Order chat_id customer_name phone address copy total "Pending"
    (created_now env) (updated_now env).

(** The row that a checkout appends to the spreadsheet. *)
Definition ledger_row (chat_id : Z) (customer_name phone address : string)
    (items : list (string * line)) (special_instructions order_id now : string)
    (subtotal total : Py.num) : sheet_row :=
  SheetRow now (Py.str chat_id) customer_name phone address ((fun kv => kv.1) <$> items)
    ((fun kv => (quantity kv.2, unit_ kv.2)) <$> items) subtotal (delivery_fee_for subtotal)
    total "Pending" special_instructions "Cash on Delivery" "Telegram Bot" order_id.

(** The alert that a checkout sends to the admin chat, when one is
    configured. *)
Definition admin_alert (st : state) (order_id : string) (o : order)
    (items : list (string * line)) : list (chat * message) :=
  if truthy (ADMIN_CHAT_ID st) then
    [ (chat_str (default "" (ADMIN_CHAT_ID st)),
       msg_admin_new_order order_id
         (AdminSummary (customer_name o) (phone o) (address o)
            ((fun kv => (kv.1, quantity kv.2, unit_ kv.2)) <$> items) (total o))
         (created_at o) (status o)
         [ ["ship_" +:+ order_id; "cancel_" +:+ order_id];
           ["deliver_" +:+ order_id; "details_" +:+ order_id] ]) ]
  else [].

(** The lines an order shows: the items of its stored cart. *)
Definition order_lines (st : state) (order_id : string) : option (list (string * line)) :=
  (fun o => cart_items st (cart o)) <$> order_tracking st !! order_id.

(** The stores are well formed when every location that the program holds
    denotes an object: the carts and the orders' carts are allocated dicts,
    and their entries are allocated lines. *)
Definition wf (st : state) : Prop :=
  (forall c d, user_carts st !! c = Some d -> (d < length (dicts st))%nat)
  /\ (forall id o, order_tracking st !! id = Some o -> (cart o < length (dicts st))%nat)
  /\ Forall (Forall (fun kv : string * loc => (kv.2 < length (lines st))%nat)) (dicts st).

(** States for the examples: a fresh process with an admin and a connected,
    empty spreadsheet, and the same after three additions to the cart of
    customer 7. *)
Definition fresh_state : state :=
  State (Some "999") (fun _ => http_ok) (Some []) [] [] ∅ ∅ ∅ [] [] [].

Definition shopping_state : state :=
  final_state (handle_add_to_cart 7 "🥛 Milk"
    (final_state (handle_add_to_cart 7 "🍎 Apples"
      (final_state (handle_add_to_cart 7 "🍎 Apples" fresh_state))))).

(** The same with a second customer, 8, who has Bananas in their own cart. *)
Definition two_shoppers_state : state :=
  final_state (handle_add_to_cart 8 "🍌 Bananas" shopping_state).

(** 1700000000.25 and 1700000000.75: two readings of [time.time()] in one
    second. *)
Definition quarter_past : Py.float := Py.fdiv (Py.float_of_Z 170000000025) (Py.float_of_Z 100).
Definition quarter_to : Py.float := Py.fdiv (Py.float_of_Z 170000000075) (Py.float_of_Z 100).

Definition example_env (now : Py.float) (ok : bool) : checkout_env :=
  CheckoutEnv "2023-11-14 22:13:20" now "2023-11-14 22:13:20" "2023-11-14 22:13:20"
    "2023-11-14 22:13:20" ok.

(** The same after customer 7 has checked out at 1700000000.25. *)
Definition ordered_state : state :=
  final_state (process_cash_on_delivery 7 "Ann" "555-0100" "1 Main St" 0%nat ""
                 (example_env quarter_past true) shopping_state).

(** A cart above the threshold: two Beef Steaks and Bananas. *)
Definition free_delivery_cart : list (string * line) :=
  [ ("🥩 Beef Steak", Line (Py.literal 2499) "kg" 2);
    ("🍌 Bananas", Line (Py.literal 199) "kg" 1) ].

(** ** Invariants of the event loop *)

(** The module as it is loaded: no cart, no session, no order, no object. *)
Definition initial (st : state) : Prop :=
  lines st = [] /\ dicts st = [] /\ user_carts st = ∅ /\ user_sessions st = ∅
  /\ order_tracking st = ∅ /\ order_ids st = [].

(** The states that the loop of [main] can reach, whatever the updates and
    the environment. *)
Inductive reachable : state -> Prop :=
| reachable_initial st : initial st -> reachable st
| reachable_update st u env :
    reachable st -> reachable (final_state (handle_update u env st)).

(** The line objects that the dict object [d] refers to. *)
Definition locs_of (st : state) (d : loc) : list loc := (dict_at st d).*2.

(** Carts do not share objects: two customers have different dict objects,
    with different line objects, and no stored order refers to a customer's
    dict object or to one of its line objects. *)
Definition separated (st : state) : Prop :=
  (forall c c' d, user_carts st !! c = Some d -> user_carts st !! c' = Some d -> c = c')
  /\ (forall c d id o,
        user_carts st !! c = Some d -> order_tracking st !! id = Some o -> cart o <> d)
  /\ (forall c c' d d',
        c <> c' -> user_carts st !! c = Some d -> user_carts st !! c' = Some d' ->
        locs_of st d ## locs_of st d')
  /\ (forall c d id o,
        user_carts st !! c = Some d -> order_tracking st !! id = Some o ->
        locs_of st d ## locs_of st (cart o)).

(** Only the admin's chat waits for a cancellation reason. *)
Definition cancel_only_admin (st : state) : Prop :=
  forall c order_id,
    user_sessions st !! c = Some (awaiting_cancel_reason order_id) ->
    not_admin st c = false.

(** A text that is none of the ten labels that [handle_message] looks for
    first, and no category name. *)
Definition free_text (text : string) : bool :=
  negb (bool_decide (text = "/start"))
  && negb (bool_decide (text = SHOP_GROCERIES))
  && negb (bool_decide (text = MY_CART))
  && negb (bool_decide (text = TRACK_ORDER))
  && negb (bool_decide (text = MAIN_MENU))
  && negb (bool_decide (text = CONTINUE_SHOPPING))
  && negb (bool_decide (text = ADD_MORE_ITEMS))
  && negb (bool_decide (text = CLEAR_CART))
  && negb (bool_decide (text = CHECKOUT_NOW))
  && negb (bool_decide (text = CHECKOUT))
  && negb (bool_decide (is_Some (dict_get text grocery_categories))).

(** The chat that an update handled by [main] comes from. *)
Definition sender (u : update) : option Z :=
  match u with
  | upd_text c _ => Some c
  | upd_callback c _ => Some c
  | _ => None
  end.

(** The state after a list of updates, each handled as in [main]. *)
Definition run_updates (updates : list update) (env : event_env) (st : state) : state :=
  fold_left (fun st u => final_state (handle_update u env st)) updates st.

(** The state after the additions [adds] to carts, each the chat and the
    item name of a call of [handle_add_to_cart], in this order. *)
Definition add_all (adds : list (Z * string)) (st : state) : state :=
  fold_left (fun st a => final_state (handle_add_to_cart a.1 a.2 st)) adds st.

(** ** What a handler leaves as it was

    Relations between the state before a handler and the state after it. *)

(** No session starts to wait for a cancellation reason. *)
Definition no_new_cancel (st st' : state) : Prop :=
  forall c order_id,
    user_sessions st' !! c = Some (awaiting_cancel_reason order_id) ->
    user_sessions st !! c = Some (awaiting_cancel_reason order_id).

(** Only the outbox, the log and the sessions may differ. *)
Definition frame (st st' : state) : Prop :=
  ADMIN_CHAT_ID st' = ADMIN_CHAT_ID st /\ transport st' = transport st
  /\ sheet st' = sheet st /\ lines st' = lines st /\ dicts st' = dicts st
  /\ user_carts st' = user_carts st /\ order_tracking st' = order_tracking st
  /\ order_ids st' = order_ids st /\ no_new_cancel st st'.

(** The carts and the objects are the same, every order still refers to
    the same dict, and only the chats in [who] may start to wait for a
    cancellation reason. *)
Definition same_data (who : Z -> Prop) (st st' : state) : Prop :=
  ADMIN_CHAT_ID st' = ADMIN_CHAT_ID st /\ lines st' = lines st /\ dicts st' = dicts st
  /\ user_carts st' = user_carts st
  /\ (forall id, cart <$> order_tracking st' !! id = cart <$> order_tracking st !! id)
  /\ (forall c order_id,
        user_sessions st' !! c = Some (awaiting_cancel_reason order_id) ->
        user_sessions st !! c = Some (awaiting_cancel_reason order_id) \/ who c).

Definition same_admin (st st' : state) : Prop :=
  ADMIN_CHAT_ID st' = ADMIN_CHAT_ID st.

(** What an addition to a cart leaves as it was. *)
Definition cart_only (st st' : state) : Prop :=
  ADMIN_CHAT_ID st' = ADMIN_CHAT_ID st /\ sheet st' = sheet st
  /\ user_sessions st' = user_sessions st /\ order_tracking st' = order_tracking st.

(** The relation [R] holds across the computation [m], whether it returns
    or raises. *)
Definition keeps {A} (R : state -> state -> Prop) (m : M A) : Prop :=
  forall st, R st (final_state (m st)).

(** The state after [user_carts[c] = {}]. *)
Definition cleared (c : Z) (st : state) : state :=
  set_user_carts (<[c := length (dicts st)]> (user_carts st))
    (set_dicts (dicts st ++ [[]]) st).

(** The dict of every stored order has the same items, with the same
    lines. *)
Definition stable (st st' : state) : Prop :=
  forall id o, order_tracking st !! id = Some o ->
    cart_items st' (cart o) = cart_items st (cart o).

(** The cart of every chat other than [c] is the same dict object, with
    the same lines. *)
Definition other_carts_kept (c : Z) (st st' : state) : Prop :=
  forall c' d', c' <> c -> user_carts st !! c' = Some d' ->
    user_carts st' !! c' = Some d' /\ cart_items st' d' = cart_items st d'.

(** The id that a checkout gives its order at the clock reading of [env],
    if that reading has a whole part. *)
Definition order_id_at (env : checkout_env) : option string :=
  (fun seconds => "ORD" +:+ Py.str seconds) <$> Py.int_of_float (time_time env).

(** The tracker is as it was at every id, except possibly at the id of the
    clock reading of [env], where there is then a Pending order of the
    chat [c]. *)
Definition orders_kept_or_placed (c : Z) (env : checkout_env) (st st' : state) : Prop :=
  forall id,
    order_tracking st' !! id = order_tracking st !! id
    \/ (order_id_at env = Some id
        /\ exists o', order_tracking st' !! id = Some o'
                      /\ chat_id o' = c /\ status o' = "Pending").

(** The state after [user_sessions[c] = s]. *)
Definition with_session (c : Z) (s : session) (st : state) : state :=
  set_user_sessions (<[c := s]> (user_sessions st)) st.

(** The record after [order['status'] = new_status] and the assignment of
    [updated_at]. *)
Definition with_status (o : order) (new_status now : string) : order :=
  Order (chat_id o) (customer_name o) (phone o) (address o) (cart o) (total o)
    new_status (created_at o) now.

(** A row with another status cell. *)
Definition with_row_status (r : sheet_row) (new_status : string) : sheet_row :=
  SheetRow (row_order_date r) (row_chat_id r) (row_customer_name r) (row_phone r)
    (row_address r) (row_items r) (row_quantities r) (row_subtotal r) (row_delivery_fee r)
    (row_total r) new_status (row_special_instructions r) (row_payment_method r)
    (row_source r) (row_order_id r).

(** The total of every stored order formats. *)
Definition totals_format (st : state) : Prop :=
  forall id o, order_tracking st !! id = Some o -> formattable (total o).

(** The totals still format after the handler, when they did before. *)
Definition totals_kept (st st' : state) : Prop :=
  totals_format st -> totals_format st'.

(** [order_ids] lists each key of the tracker once. *)
Definition keys_ok (st : state) : Prop :=
  NoDup (order_ids st)
  /\ forall order_id, order_id ∈ order_ids st <-> is_Some (order_tracking st !! order_id).

(** The keys are still in step after the handler, when they were before. *)
Definition keys_kept (st st' : state) : Prop := keys_ok st -> keys_ok st'.

(** What a block of the Track Order listing shows of an order. *)
Definition track_block (entry : string * order) : string * string * Py.num * string :=
  (entry.1, status entry.2, total entry.2, created_at entry.2).

(** No step of the checkout or of a cancellation is pending for the chat. *)
Definition no_step_pending (st : state) (c : Z) : Prop :=
  match user_sessions st !! c with
  | None | Some main_menu | Some (browsing_category _) => True
  | Some _ => False
  end.

(** ** States and environments for the examples of the dialogue *)

Definition example_event_env : event_env :=
  EventEnv (example_env quarter_past true) "2023-11-15 09:00:00" true.

(** Customer 7, with Apples and Milk in the cart, has pressed Checkout. *)
Definition checkout_started_state : state :=
  final_state (handle_message 7 CHECKOUT (example_env quarter_past true)
                 "2023-11-15 09:00:00" true shopping_state).

(** Customer 7 has answered the three questions; the checkout waits for the
    instructions. *)
Definition instructions_asked_state : state :=
  final_state (handle_message 7 "1 Main St" (example_env quarter_past true)
                 "2023-11-15 09:00:00" true
    (final_state (handle_message 7 "555-0100" (example_env quarter_past true)
                    "2023-11-15 09:00:00" true
      (final_state (handle_message 7 "Ann" (example_env quarter_past true)
                      "2023-11-15 09:00:00" true checkout_started_state))))).

(** The admin, chat 999, has pressed Cancel Order on the order of
    customer 7. *)
Definition cancel_asked_state : state :=
  final_state (handle_callback_query 999 "cancel_ORD1700000000" "2023-11-15 09:00:00" true
                 ordered_state).

(** Customers 7 and 8 have both checked out within the second
    1700000000: the tracker holds the order of customer 8 under the id, the
    sheet has a row for each of the two orders. *)
Definition overwritten_state : state :=
  final_state (process_cash_on_delivery 8 "Bob" "555-0101" "2 Side St" 1%nat ""
                 (example_env quarter_to true)
    (final_state (process_cash_on_delivery 7 "Ann" "555-0100" "1 Main St" 0%nat ""
                    (example_env quarter_past true) two_shoppers_state))).

(** A fresh process in which customer 7 has added Apples and gone through
    the checkout dialogue. *)
Definition served_state : state :=
  run_updates
    [ upd_callback 7 "add_🍎 Apples"; upd_text 7 CHECKOUT; upd_text 7 "Ann";
      upd_text 7 "555-0100"; upd_text 7 "1 Main St"; upd_text 7 "None" ]
    example_event_env fresh_state.

(** The same process before the last answer: the checkout of customer 7
    waits for the instructions. *)
Definition instructions_pending_state : state :=
  run_updates
    [ upd_callback 7 "add_🍎 Apples"; upd_text 7 CHECKOUT; upd_text 7 "Ann";
      upd_text 7 "555-0100"; upd_text 7 "1 Main St" ]
    example_event_env fresh_state.

(** The same after the admin has pressed Cancel Order on that order. *)
Definition cancel_pressed_state : state :=
  run_updates [ upd_callback 999 "cancel_ORD1700000000" ] example_event_env served_state.

(** A fresh process in which customer 7 has added Apples once, Bananas
    three times and Carrots once. *)
Definition three_lines_state : state :=
  run_updates
    [ upd_callback 7 "add_🍎 Apples"; upd_callback 7 "add_🍌 Bananas";
      upd_callback 7 "add_🍌 Bananas"; upd_callback 7 "add_🍌 Bananas";
      upd_callback 7 "add_🥕 Carrots" ]
    example_event_env fresh_state.

(** Customer 7 adds Apples and goes through the checkout dialogue, in the
    second [1700000000 + n]. *)
Definition order_round (n : Z) (st : state) : state :=
  run_updates
    [ upd_callback 7 "add_🍎 Apples"; upd_text 7 CHECKOUT; upd_text 7 "Ann";
      upd_text 7 "555-0100"; upd_text 7 "1 Main St"; upd_text 7 "None" ]
    (EventEnv (example_env (Py.float_of_Z (1700000000 + n)) true) "2023-11-15 09:00:00"
       true)
    st.

(** A fresh process in which customer 7 has placed six orders, in six
    seconds. *)
Definition six_orders_state : state :=
  order_round 5 (order_round 4 (order_round 3 (order_round 2 (order_round 1
    (order_round 0 fresh_state))))).

(** A fresh process in which customers 7 and 8 have each added an item. *)
Definition two_customers_state : state :=
  run_updates [ upd_callback 7 "add_🍎 Apples"; upd_callback 8 "add_🍌 Bananas" ]
    example_event_env fresh_state.

(** One second after [quarter_past]. *)
Definition next_second : Py.float := Py.float_of_Z 1700000001.

(** A transport that answers every poll with the same three updates. *)
Definition example_requests_get (offset : Z) : get_response :=
  get_answered 200
    (Some (true, [ (1, upd_text 7 "/start"); (2, upd_callback_incomplete);
                   (3, upd_text 7 SHOP_GROCERIES) ])).

(** * Proofs *)

Ltac simpl_m :=
  cbv beta iota delta
    [mbind M_bind bind get ret modify raise eval try_except when logger].

Ltac simpl_m_in H :=
  cbv beta iota delta
    [mbind M_bind bind get ret modify raise eval try_except when logger] in H.

(** The fee expression of the three pricing sites is the rule's. *)
Ltac fold_fee :=
  repeat match goal with
         | |- context [if Py.ge_int ?s 50 then Py.Int 0 else Py.Int 5] =>
             change (if Py.ge_int s 50 then Py.Int 0 else Py.Int 5)
               with (delivery_fee_for s)
         end.

(** Case analysis on an innermost scrutinee of the goal. *)
Ltac case_inner :=
  match goal with
  | |- context [match ?x with _ => _ end] =>
      lazymatch x with
      | context [match _ with _ => _ end] => fail
      | _ => destruct x eqn:?
      end
  end.

(** *** Numbers *)

Lemma float_of_int_0 : Py.float_of_int 0 = Some (S754_zero false).
Proof. reflexivity. Qed.

(** An integer of 53 binary digits is a float as it is. *)
Lemma round_aux_exact (m : positive) (e : Z) :
  Zpos (digits2_pos m) = 53 -> -1074 <= e <= 971 ->
  binary_round_aux Py.prec Py.emax false (Zpos m) e loc_Exact = S754_finite false m e.
Proof.
  intros Hd He.
  assert (Hshr : shr_fexp Py.prec Py.emax (Zpos m) e loc_Exact
                 = ({| shr_m := Zpos m; shr_r := false; shr_s := false |}, e)).
  { unfold shr_fexp, fexp, emin, Zdigits2, Py.prec, Py.emax. rewrite Hd.
    replace (Z.max (53 + e - 53) (3 - 1024 - 53) - e) with 0 by lia.
    reflexivity. }
  unfold binary_round_aux. rewrite Hshr. cbn [shr_m loc_of_shr_record round_nearest_even].
  rewrite Hshr. cbn [shr_m].
  unfold Py.prec, Py.emax.
  replace (e <=? 1024 - 53) with true by (symmetry; apply Z.leb_le; lia).
  reflexivity.
Qed.

Lemma digits2_pos_iter_xO (m p : positive) :
  Zpos (digits2_pos (Pos.iter xO m p)) = Zpos (digits2_pos m) + Zpos p.
Proof.
  induction p as [|p IH] using Pos.peano_ind.
  - cbn. lia.
  - rewrite Pos.iter_succ. cbn [digits2_pos]. lia.
Qed.

Lemma digits2_pos_lower (m : positive) : 2 ^ (Zpos (digits2_pos m) - 1) <= Zpos m.
Proof.
  induction m as [m IH|m IH|]; cbn [digits2_pos]; [| |cbn; lia].
  all: rewrite Pos2Z.inj_succ.
  all: replace (Z.succ (Zpos (digits2_pos m)) - 1)
         with (Z.succ (Zpos (digits2_pos m) - 1)) by lia.
  all: rewrite Z.pow_succ_r by lia; lia.
Qed.

(** Integers below 2^53 convert to a float: no OverflowError. *)
Lemma float_of_int_small (q : Z) : 0 <= q < 2 ^ 53 -> is_Some (Py.float_of_int q).
Proof.
  intros Hq. unfold Py.float_of_int, Py.float_of_Z.
  destruct q as [|m|m]; [cbn; eauto | | lia].
  assert (Hd : 1 <= Zpos (digits2_pos m) <= 53).
  { split; [lia|].
    destruct (Z.le_gt_cases (Zpos (digits2_pos m)) 53) as [H|H]; [exact H|].
    pose proof (digits2_pos_lower m) as Hlow.
    assert (2 ^ 53 <= 2 ^ (Zpos (digits2_pos m) - 1)) by (apply Z.pow_le_mono_r; lia).
    lia. }
  cbn [binary_normalize]. unfold binary_round.
  unfold fexp, emin. unfold Py.prec at 1 2, Py.emax at 1.
  replace (Z.max (Zpos (digits2_pos m) + 0 - 53) (3 - 1024 - 53))
    with (Zpos (digits2_pos m) - 53) by lia.
  unfold shl_align.
  destruct (Zpos (digits2_pos m) - 53 - 0) as [|p|p] eqn:Hp; try lia.
  - rewrite (round_aux_exact m 0) by lia. eauto.
  - rewrite round_aux_exact; [eauto | rewrite digits2_pos_iter_xO; lia | lia].
Qed.

Lemma add_fee_defined (subtotal : Py.num) :
  is_Some (Py.add subtotal (delivery_fee_for subtotal)).
Proof.
  unfold delivery_fee_for.
  destruct subtotal as [z|f], (Py.ge_int _ 50); cbn; eauto.
Qed.

Lemma sub_from_50_defined (subtotal : Py.num) : is_Some (Py.sub (Py.Int 50) subtotal).
Proof. destruct subtotal; cbn; eauto. Qed.

Lemma item_total_convertible (l : line) :
  convertible l -> item_total l = Some (Py.Float (line_amount l)).
Proof.
  unfold convertible, item_total, line_amount, Py.mul, Py.float_of_int.
  intros [f Hf]. destruct (Py.float_of_Z (quantity l)); cbn in *; congruence.
Qed.

Lemma item_total_is_Some (l : line) : is_Some (item_total l) <-> convertible l.
Proof.
  split; [|intros H; rewrite item_total_convertible; eauto].
  unfold convertible, item_total, Py.mul. intros [t Ht].
  destruct (Py.float_of_int (quantity l)); cbn in *; eauto. discriminate.
Qed.

Lemma sum_from_cons {A} (f : A -> option Py.num) (acc : Py.num) (x : A) (xs : list A) :
  Py.sum_from f acc (x :: xs) = v ← f x; acc' ← Py.add acc v; Py.sum_from f acc' xs.
Proof. reflexivity. Qed.

Lemma small_quantity_convertible (l : line) :
  0 <= quantity l < 2 ^ 53 -> convertible l.
Proof. apply float_of_int_small. Qed.

(** Once the accumulator is a float, the sum is a left fold of binary64
    additions. *)
Lemma sum_from_float (ls : list line) (acc : Py.float) :
  Forall convertible ls ->
  Py.sum_from item_total (Py.Float acc) ls
  = Some (Py.Float (fold_left (fun acc l => Py.fadd acc (line_amount l)) ls acc)).
Proof.
  intros Hls. revert acc.
  induction Hls as [|l ls Hl _ IH]; intros acc; [reflexivity|].
  rewrite sum_from_cons, (item_total_convertible l Hl). cbn. apply IH.
Qed.

Lemma sum_item_totals (ls : list line) :
  Forall convertible ls -> Py.sum item_total ls = Some (sum_of_lines ls).
Proof.
  intros Hls. destruct Hls as [|l ls Hl Hls]; [reflexivity|].
  unfold Py.sum. rewrite sum_from_cons, (item_total_convertible l Hl).
  cbn [mbind option_bind Py.add]. rewrite float_of_int_0. cbn [mbind option_bind].
  rewrite sum_from_float by exact Hls. reflexivity.
Qed.

(** The sum raises exactly when some quantity is not convertible. *)
Lemma sum_from_is_Some (ls : list line) (acc : Py.num) (r : Py.num) :
  Py.sum_from item_total acc ls = Some r -> Forall convertible ls.
Proof.
  revert acc. induction ls as [|l ls IH]; intros acc H; [constructor|].
  rewrite sum_from_cons in H. destruct (item_total l) as [t|] eqn:Ht; [|discriminate].
  cbn in H. destruct (Py.add acc t) as [acc'|]; [|discriminate].
  constructor; [apply item_total_is_Some; eauto | eapply IH, H].
Qed.

Lemma cart_values_items (st : state) (d : loc) :
  cart_values st d = (cart_items st d).*2.
Proof.
  unfold cart_values, cart_items. rewrite <- list_fmap_compose. reflexivity.
Qed.

Lemma items_text_defined (items : list (string * line)) :
  Forall convertible items.*2 ->
  is_Some (mapM summary_row items).
Proof.
  intros H. apply mapM_is_Some. rewrite Forall_fmap in H.
  eapply Forall_impl; [exact H|]. intros [k l] Hl. unfold compose, summary_row in *. cbn [fst snd] in *.
  rewrite (item_total_convertible l Hl). cbn. eauto.
Qed.

(** *** The order summary *)

(** The summary reads the state and leaves it as it is. *)
Lemma create_enhanced_order_summary_state customer_name phone address cart
    special_instructions now st :
  final_state (create_enhanced_order_summary customer_name phone address cart
                 special_instructions now st) = st.
Proof.
  unfold create_enhanced_order_summary. simpl_m.
  repeat (case_inner; cbn [final_state]; try reflexivity).
Qed.

(** With convertible quantities the summary returns, and its amounts follow
    the pricing rule. *)
Lemma create_enhanced_order_summary_returns customer_name phone address cart
    special_instructions now st :
  Forall convertible (cart_values st cart) ->
  exists items_text missing total,
    create_enhanced_order_summary customer_name phone address cart
      special_instructions now st
    = Return (OrderSummary customer_name phone address items_text
                (sum_of_lines (cart_values st cart))
                (delivery_fee_for (sum_of_lines (cart_values st cart)))
                missing total special_instructions now, total) st
    /\ Py.add (sum_of_lines (cart_values st cart))
              (delivery_fee_for (sum_of_lines (cart_values st cart))) = Some total.
Proof.
  intros Hconv. unfold create_enhanced_order_summary. simpl_m.
  rewrite (sum_item_totals _ Hconv). cbv beta iota. fold_fee.
  destruct (add_fee_defined (sum_of_lines (cart_values st cart))) as [total Htotal].
  rewrite Htotal.
  rewrite cart_values_items in Hconv.
  destruct (items_text_defined _ Hconv) as [items_text Hitems]. rewrite Hitems.
  destruct (sub_from_50_defined (sum_of_lines (cart_values st cart))) as [m Hm].
  rewrite Hm.
  destruct (Py.eq_int _ 0); eauto.
Qed.

(** Conversely, a summary that returns has found every quantity
    convertible. *)
Lemma create_enhanced_order_summary_inv customer_name phone address cart
    special_instructions now st r st' :
  create_enhanced_order_summary customer_name phone address cart
    special_instructions now st = Return r st' ->
  Forall convertible (cart_values st cart).
Proof.
  unfold create_enhanced_order_summary. simpl_m.
  destruct (Py.sum item_total (cart_values st cart)) as [subtotal|] eqn:Hsum;
    [|discriminate].
  intros _. eapply sum_from_is_Some, Hsum.
Qed.

(** With a quantity that does not convert, the summary raises (and the
    checkout reports the error). *)
Lemma create_enhanced_order_summary_raises customer_name phone address cart
    special_instructions now st :
  ~ Forall convertible (cart_values st cart) ->
  create_enhanced_order_summary customer_name phone address cart
    special_instructions now st = Raise st.
Proof.
  intros Hnot.
  pose proof (create_enhanced_order_summary_state customer_name phone address cart
                special_instructions now st) as Hstate.
  destruct (create_enhanced_order_summary customer_name phone address cart
              special_instructions now st) as [r st'|st'] eqn:Hrun.
  - exfalso. apply Hnot. eapply create_enhanced_order_summary_inv, Hrun.
  - cbn in Hstate. rewrite Hstate. reflexivity.
Qed.

(** Above the threshold the delivery is free: two Beef Steaks and Bananas
    come to 51.97, fee 0, and no amount is missing. *)
Lemma free_delivery_scenario st customer_name phone address cart special_instructions now :
  cart_items st cart = free_delivery_cart ->
  exists summary total,
    create_enhanced_order_summary customer_name phone address cart
      special_instructions now st = Return (summary, total) st
    /\ Py.format_2f (s_subtotal summary) = Some "51.97"
    /\ s_delivery_fee summary = Py.Int 0
    /\ s_missing summary = None
    /\ Py.format_2f total = Some "51.97".
Proof.
  intros Hcart. unfold create_enhanced_order_summary. simpl_m.
  rewrite cart_values_items, Hcart.
  eexists _, _. split; [vm_compute; reflexivity|].
  vm_compute. auto.
Qed.

(** C1. For every cart whose quantities are convertible, the order summary
    returns with a subtotal that is the sum over the lines of price times
    quantity, a delivery fee of 0 when the subtotal is at least 50 and of 5
    otherwise, and a total that is subtotal plus delivery fee.  For Apples
    at 3.99 taken twice and Milk at 2.99 taken once, the subtotal is 10.97,
    the fee 5 and the total 15.97, as floats and as formatted by [:.2f]. *)
Theorem pricing_rule :
  (forall st customer_name phone address cart special_instructions now,
     Forall convertible (cart_values st cart) ->
     exists summary total,
       create_enhanced_order_summary customer_name phone address cart
         special_instructions now st = Return (summary, total) st
       /\ s_subtotal summary = sum_of_lines (cart_values st cart)
       /\ s_delivery_fee summary
          = (if Py.ge_int (s_subtotal summary) 50 then Py.Int 0 else Py.Int 5)
       /\ Py.add (s_subtotal summary) (s_delivery_fee summary) = Some total
       /\ s_total summary = total)
  /\ (forall st customer_name phone address cart special_instructions now,
        cart_items st cart = scenario_cart ->
        exists summary,
          create_enhanced_order_summary customer_name phone address cart
            special_instructions now st
          = Return (summary, Py.Float (Py.literal 1597)) st
          /\ s_subtotal summary = Py.Float (Py.literal 1097)
          /\ s_delivery_fee summary = Py.Int 5
          /\ s_total summary = Py.Float (Py.literal 1597)
          /\ Py.format_2f (s_subtotal summary) = Some "10.97"
          /\ Py.format_2f (s_delivery_fee summary) = Some "5.00"
          /\ Py.format_2f (s_total summary) = Some "15.97").
Proof.
  split.
  - intros st customer_name phone address cart special_instructions now Hconv.
    destruct (create_enhanced_order_summary_returns customer_name phone address cart
                special_instructions now st Hconv)
      as (items_text & missing & total & Hrun & Htotal).
    eexists _, total. split; [exact Hrun|]. cbn. auto.
  - intros st customer_name phone address cart special_instructions now Hcart.
    unfold create_enhanced_order_summary. simpl_m.
    rewrite cart_values_items, Hcart.
    eexists. split; [vm_compute; reflexivity|].
    vm_compute. auto 10.
Qed.

Lemma pricing_rule_witness :
  Forall convertible (cart_values shopping_state 0%nat)
  /\ exists summary total,
       create_enhanced_order_summary "Ann" "555-0100" "1 Main St" 0%nat "" "now"
         shopping_state = Return (summary, total) shopping_state
       /\ s_subtotal summary = sum_of_lines (cart_values shopping_state 0%nat)
       /\ s_delivery_fee summary
          = (if Py.ge_int (s_subtotal summary) 50 then Py.Int 0 else Py.Int 5)
       /\ Py.add (s_subtotal summary) (s_delivery_fee summary) = Some total
       /\ s_total summary = total.
Proof.
  assert (H : Forall convertible (cart_values shopping_state 0%nat)).
  { apply (bool_decide_eq_true_1 (Forall convertible _)). vm_compute. reflexivity. }
  split; [exact H|].
  exact (proj1 pricing_rule shopping_state "Ann" "555-0100" "1 Main St" 0%nat "" "now" H).
Defined.

(** *** The notifier *)

Lemma send_message_eq (c : chat) (m : message) (st : state) :
  send_message c m st
  = Return (send_ok (transport st (length (outbox st)))) (sent c m st).
Proof.
  unfold send_message, sent. simpl_m. cbn.
  destruct (transport st (length (outbox st))); cbn; try reflexivity.
  rewrite app_nil_r. reflexivity.
Qed.

(** *** The cart view *)

Lemma mapM_cons {A B} (f : A -> option B) (x : A) (xs : list A) :
  mapM f (x :: xs) = y ← f x; ys ← mapM f xs; Some (y :: ys).
Proof. reflexivity. Qed.

(** The loop of [show_cart] computes the sum and the rows of the summary. *)
Lemma show_cart_loop_sum (items : list (string * line)) (total : Py.num)
    (cart_text : list (string * line * Py.num)) :
  show_cart_loop items total cart_text
  = t ← Py.sum_from item_total total items.*2;
    rows ← mapM summary_row items;
    Some (t, cart_text ++ rows).
Proof.
  revert total cart_text.
  induction items as [|kv items IH]; intros total cart_text.
  - cbn. rewrite app_nil_r. reflexivity.
  - cbn [show_cart_loop]. rewrite fmap_cons, sum_from_cons, mapM_cons.
    assert (Hrow : summary_row kv = t ← item_total kv.2; Some (kv.1, kv.2, t))
      by reflexivity.
    rewrite Hrow. clear Hrow.
    destruct (item_total kv.2) as [t|] eqn:Ht; [|reflexivity].
    cbn [mbind option_bind].
    destruct (Py.add total t) as [total'|] eqn:Hadd; [|reflexivity].
    cbn [mbind option_bind]. rewrite IH.
    destruct (Py.sum_from item_total total' items.*2) as [r|] eqn:Hsum; [|reflexivity].
    cbn [mbind option_bind].
    destruct (mapM summary_row items) as [rows|] eqn:Hrows; [|reflexivity].
    cbn [mbind option_bind]. rewrite <- app_assoc. reflexivity.
Qed.

Lemma show_cart_view chat_id cart st :
  user_carts st !! chat_id = Some cart ->
  cart_items st cart <> [] ->
  Forall convertible (cart_values st cart) ->
  exists rows missing total,
    Py.add (sum_of_lines (cart_values st cart))
           (delivery_fee_for (sum_of_lines (cart_values st cart))) = Some total
    /\ show_cart chat_id st
       = Return tt (sent (chat_int chat_id)
                      (msg_cart_view rows (sum_of_lines (cart_values st cart))
                         (delivery_fee_for (sum_of_lines (cart_values st cart)))
                         total missing) st).
Proof.
  intros Hcart Hne Hconv. unfold show_cart. simpl_m. rewrite Hcart.
  pose proof (sum_item_totals _ Hconv) as Hsum.
  set (subtotal := sum_of_lines (cart_values st cart)) in *.
  destruct (add_fee_defined subtotal) as [total Htotal].
  destruct (sub_from_50_defined subtotal) as [m Hm].
  rewrite cart_values_items in Hsum, Hconv.
  destruct (items_text_defined _ Hconv) as [rows Hrows].
  destruct (cart_items st cart) as [|kv items] eqn:Hitems; [congruence|].
  rewrite show_cart_loop_sum.
  unfold Py.sum in Hsum. rewrite Hsum. cbn [mbind option_bind].
  rewrite Hrows. cbn [mbind option_bind fst snd app]. fold_fee.
  rewrite Htotal, Hm.
  destruct (Py.lt_int _ 50); rewrite send_message_eq; eauto.
Qed.

(** *** The spreadsheet row *)

Lemma save_order_to_sheet_appends chat_id customer_name phone address cart
    special_instructions order_id now st rows :
  sheet st = Some rows ->
  Forall convertible (cart_values st cart) ->
  exists row st' total,
    Py.add (sum_of_lines (cart_values st cart))
           (delivery_fee_for (sum_of_lines (cart_values st cart))) = Some total
    /\ save_order_to_sheet chat_id customer_name phone address cart
         special_instructions order_id now true st = Return true st'
    /\ sheet st' = Some (rows ++ [row])
    /\ row_subtotal row = sum_of_lines (cart_values st cart)
    /\ row_delivery_fee row = delivery_fee_for (sum_of_lines (cart_values st cart))
    /\ row_total row = total
    /\ row_order_id row = order_id
    /\ row_status row = "Pending".
Proof.
  intros Hsheet Hconv. unfold save_order_to_sheet. simpl_m.
  rewrite (sum_item_totals _ Hconv). cbv beta iota. rewrite Hsheet. cbv beta iota.
  fold_fee.
  destruct (add_fee_defined (sum_of_lines (cart_values st cart))) as [total Htotal].
  rewrite Htotal. cbn.
  eexists _, _, total. repeat split; reflexivity || eauto.
Qed.

(** *** The three pricing sites *)

Lemma item_total_float_convertible (l : line) :
  convertible l -> item_total_float l = Some (line_amount l).
Proof.
  unfold convertible, item_total_float, line_amount, Py.float_of_int.
  intros [f Hf]. destruct (Py.float_of_Z (quantity l)); cbn in *; congruence.
Qed.

(** The products that [sum] adds are floats. *)
Lemma item_total_is_float (l : line) : item_total l = Py.Float <$> item_total_float l.
Proof.
  unfold item_total, item_total_float, Py.mul.
  destruct (Py.float_of_int (quantity l)); reflexivity.
Qed.

Lemma sum_compensated_from_defined (ls : list line) (f_result c : Py.float) :
  Forall convertible ls ->
  is_Some (Py.sum_compensated_from item_total_float f_result c ls).
Proof.
  intros Hls. revert f_result c.
  induction Hls as [|l ls Hl _ IH]; intros f_result c; cbn [Py.sum_compensated_from].
  - eauto.
  - rewrite (item_total_float_convertible l Hl). cbn [mbind option_bind]. apply IH.
Qed.

(** Under either algorithm the sum is defined when the quantities are
    convertible; from left to right it is the sum of the lines. *)
Lemma sum_item_totals_by_defined (alg : sum_algorithm) (ls : list line) :
  Forall convertible ls ->
  exists subtotal,
    sum_item_totals_by alg ls = Some subtotal
    /\ (alg = left_to_right -> subtotal = sum_of_lines ls).
Proof.
  intros Hls. destruct alg; cbn [sum_item_totals_by].
  - exists (sum_of_lines ls). split; [apply sum_item_totals, Hls | reflexivity].
  - destruct Hls as [|l ls Hl Hls]; cbn [Py.sum_compensated].
    + eexists. split; [reflexivity | discriminate].
    + rewrite (item_total_float_convertible l Hl). cbn [mbind option_bind].
      destruct (sum_compensated_from_defined ls
                  (Py.fadd (Py.float_of_Z 0) (line_amount l)) (S754_zero false) Hls)
        as [r Hr].
      rewrite Hr. eexists. split; [reflexivity | discriminate].
Qed.

(** With the sum from left to right the two functions are the ones of the
    checkout. *)
Lemma create_enhanced_order_summary_by_left_to_right :
  create_enhanced_order_summary_by left_to_right = create_enhanced_order_summary.
Proof. reflexivity. Qed.

Lemma save_order_to_sheet_by_left_to_right :
  save_order_to_sheet_by left_to_right = save_order_to_sheet.
Proof. reflexivity. Qed.

Lemma create_enhanced_order_summary_by_returns alg customer_name phone address cart
    special_instructions now st subtotal :
  Forall convertible (cart_values st cart) ->
  sum_item_totals_by alg (cart_values st cart) = Some subtotal ->
  exists items_text missing total,
    create_enhanced_order_summary_by alg customer_name phone address cart
      special_instructions now st
    = Return (OrderSummary customer_name phone address items_text subtotal
                (delivery_fee_for subtotal) missing total special_instructions now,
              total) st
    /\ Py.add subtotal (delivery_fee_for subtotal) = Some total.
Proof.
  intros Hconv Hsum. unfold create_enhanced_order_summary_by. simpl_m.
  rewrite Hsum. cbv beta iota. fold_fee.
  destruct (add_fee_defined subtotal) as [total Htotal]. rewrite Htotal.
  rewrite cart_values_items in Hconv.
  destruct (items_text_defined _ Hconv) as [items_text Hitems]. rewrite Hitems.
  destruct (sub_from_50_defined subtotal) as [m Hm]. rewrite Hm.
  destruct (Py.eq_int _ 0); eauto.
Qed.

Lemma save_order_to_sheet_by_appends alg chat_id customer_name phone address cart
    special_instructions order_id now st rows subtotal :
  sheet st = Some rows ->
  sum_item_totals_by alg (cart_values st cart) = Some subtotal ->
  exists row st' total,
    Py.add subtotal (delivery_fee_for subtotal) = Some total
    /\ save_order_to_sheet_by alg chat_id customer_name phone address cart
         special_instructions order_id now true st = Return true st'
    /\ sheet st' = Some (rows ++ [row])
    /\ row_subtotal row = subtotal
    /\ row_delivery_fee row = delivery_fee_for subtotal
    /\ row_total row = total.
Proof.
  intros Hsheet Hsum. unfold save_order_to_sheet_by. simpl_m.
  rewrite Hsum. cbv beta iota. rewrite Hsheet. cbv beta iota. fold_fee.
  destruct (add_fee_defined subtotal) as [total Htotal]. rewrite Htotal. cbn.
  eexists _, _, total. repeat split; reflexivity || eauto.
Qed.

(** C7. For every cart whose quantities are convertible, and whichever
    way [sum] adds: the checkout summary and the row prepared for the
    spreadsheet (when it is connected) have the same subtotal, the value of
    [sum], the same delivery fee and the same total; the cart view (when
    the cart has a line, else it shows the empty-cart notice) has as
    subtotal the running sum of its loop, from left to right; each site
    has the fee 0 when its subtotal is at least 50 and 5 otherwise, and as
    total its subtotal plus its fee.  When [sum] adds from left to right,
    the three values of the cart view are those of the summary and of the
    row. *)
Theorem pricing_across_sites alg st chat_id cart customer_name phone address
    special_instructions order_id now_summary now_row :
  user_carts st !! chat_id = Some cart ->
  Forall convertible (cart_values st cart) ->
  exists summary total,
    create_enhanced_order_summary_by alg customer_name phone address cart
      special_instructions now_summary st = Return (summary, total) st
    /\ sum_item_totals_by alg (cart_values st cart) = Some (s_subtotal summary)
    /\ s_delivery_fee summary = delivery_fee_for (s_subtotal summary)
    /\ Py.add (s_subtotal summary) (s_delivery_fee summary) = Some total
    /\ s_total summary = total
    /\ (forall rows, sheet st = Some rows ->
        exists row st',
          save_order_to_sheet_by alg chat_id customer_name phone address cart
            special_instructions order_id now_row true st = Return true st'
          /\ sheet st' = Some (rows ++ [row])
          /\ row_subtotal row = s_subtotal summary
          /\ row_delivery_fee row = s_delivery_fee summary
          /\ row_total row = s_total summary)
    /\ (cart_items st cart <> [] ->
        exists rows missing view_total,
          show_cart chat_id st
          = Return tt (sent (chat_int chat_id)
                         (msg_cart_view rows (sum_of_lines (cart_values st cart))
                            (delivery_fee_for (sum_of_lines (cart_values st cart)))
                            view_total missing) st)
          /\ Py.add (sum_of_lines (cart_values st cart))
                    (delivery_fee_for (sum_of_lines (cart_values st cart)))
             = Some view_total
          /\ (alg = left_to_right ->
              sum_of_lines (cart_values st cart) = s_subtotal summary
              /\ delivery_fee_for (sum_of_lines (cart_values st cart))
                 = s_delivery_fee summary
              /\ view_total = s_total summary)).
Proof.
  intros Hcart Hconv.
  destruct (sum_item_totals_by_defined alg _ Hconv) as (subtotal & Hsum & Hleft).
  destruct (create_enhanced_order_summary_by_returns alg customer_name phone address cart
              special_instructions now_summary st subtotal Hconv Hsum)
    as (items_text & missing & total & Hrun & Htotal).
  eexists _, total. split; [exact Hrun|]. cbn [s_subtotal s_delivery_fee s_total].
  split; [exact Hsum|]. split; [reflexivity|]. split; [exact Htotal|].
  split; [reflexivity|]. split.
  - intros rows Hsheet.
    destruct (save_order_to_sheet_by_appends alg chat_id customer_name phone address cart
                special_instructions order_id now_row st rows subtotal Hsheet Hsum)
      as (row & st' & total' & Htotal' & Hsave & Hrows & Hsub & Hfee & Htot).
    assert (total' = total) as -> by congruence. eauto 10.
  - intros Hne.
    destruct (show_cart_view chat_id cart st Hcart Hne Hconv)
      as (rows & missing' & view_total & Hview_total & Hview).
    exists rows, missing', view_total.
    split; [exact Hview|]. split; [exact Hview_total|].
    intros Halg. specialize (Hleft Halg). subst subtotal.
    split; [reflexivity|]. split; [reflexivity|]. congruence.
Qed.

Lemma pricing_across_sites_witness :
  user_carts three_lines_state !! 7 = Some 0%nat
  /\ Forall convertible (cart_values three_lines_state 0%nat)
  /\ exists summary total,
       create_enhanced_order_summary_by compensated "Ann" "555-0100" "1 Main St" 0%nat ""
         "now" three_lines_state = Return (summary, total) three_lines_state
       /\ s_delivery_fee summary = delivery_fee_for (s_subtotal summary)
       /\ Py.add (s_subtotal summary) (s_delivery_fee summary) = Some total
       /\ (forall rows, sheet three_lines_state = Some rows ->
           exists row st',
             save_order_to_sheet_by compensated 7 "Ann" "555-0100" "1 Main St" 0%nat ""
               "ORD1" "now" true three_lines_state = Return true st'
             /\ sheet st' = Some (rows ++ [row])
             /\ row_subtotal row = s_subtotal summary
             /\ row_delivery_fee row = s_delivery_fee summary
             /\ row_total row = s_total summary).
Proof.
  assert (H1 : user_carts three_lines_state !! 7 = Some 0%nat) by (vm_compute; reflexivity).
  assert (H2 : Forall convertible (cart_values three_lines_state 0%nat)).
  { apply (bool_decide_eq_true_1 (Forall convertible _)). vm_compute. reflexivity. }
  split; [exact H1|]. split; [exact H2|].
  destruct (pricing_across_sites compensated three_lines_state 7 0%nat "Ann" "555-0100"
              "1 Main St" "" "ORD1" "now" "now" H1 H2)
    as (summary & total & Hrun & _ & Hfee & Htotal & _ & Hrow & _).
  exists summary, total. auto.
Defined.

(** With the compensated sum of CPython 3.12 and later the sites differ:
    for Apples once, Bananas three times and Carrots once, a cart that five
    presses of the buttons make, the summary (and the row) have the
    subtotal 12.45 and the total 17.45, while the loop of the cart view
    arrives at 12.450000000000001 and 17.450000000000003.  The texts that
    [:.2f] makes of them are the same. *)
Lemma cart_view_differs_under_compensated_sum :
  reachable three_lines_state
  /\ exists summary total rows missing view_subtotal view_total,
    create_enhanced_order_summary_by compensated "Ann" "555-0100" "1 Main St" 0%nat ""
      "now" three_lines_state = Return (summary, total) three_lines_state
    /\ s_subtotal summary = Py.Float (Py.literal 1245)
    /\ total = Py.Float (Py.literal 1745)
    /\ show_cart 7 three_lines_state
       = Return tt (sent (chat_int 7)
                      (msg_cart_view rows view_subtotal (Py.Int 5) view_total missing)
                      three_lines_state)
    /\ view_subtotal <> s_subtotal summary
    /\ view_total <> total
    /\ Py.format_2f view_subtotal = Py.format_2f (s_subtotal summary)
    /\ Py.format_2f view_total = Py.format_2f total.
Proof.
  split.
  { unfold three_lines_state, run_updates. cbn [fold_left].
    repeat apply reachable_update. apply reachable_initial.
    repeat split. }
  eexists _, _, _, _, _, _.
  split; [vm_compute; reflexivity|].
  split; [vm_compute; reflexivity|].
  split; [vm_compute; reflexivity|].
  split; [vm_compute; reflexivity|].
  split; [vm_compute; discriminate|].
  split; [vm_compute; discriminate|].
  split; vm_compute; reflexivity.
Qed.

(** *** Status updates *)

(** C6. For an order id that is not in [order_tracking],
    [update_order_status] returns [False] and leaves the whole state as it
    was: nothing is sent, and the tracker is unchanged. *)
Theorem update_order_status_unknown st order_id new_status admin_note now sheet_answers :
  order_tracking st !! order_id = None ->
  update_order_status order_id new_status admin_note now sheet_answers st
  = Return false st
  /\ outbox (final_state
       (update_order_status order_id new_status admin_note now sheet_answers st))
     = outbox st
  /\ order_tracking (final_state
       (update_order_status order_id new_status admin_note now sheet_answers st))
     = order_tracking st.
Proof.
  intros Hnone.
  assert (update_order_status order_id new_status admin_note now sheet_answers st
          = Return false st) as ->; [|auto].
  unfold update_order_status. simpl_m. rewrite Hnone. reflexivity.
Qed.

Lemma update_order_status_unknown_witness :
  order_tracking shopping_state !! "ORD42" = None
  /\ update_order_status "ORD42" "Shipped" "" "now" true shopping_state
     = Return false shopping_state.
Proof.
  assert (H : order_tracking shopping_state !! "ORD42" = None) by reflexivity.
  split; [exact H|].
  exact (proj1 (update_order_status_unknown shopping_state "ORD42" "Shipped" "" "now"
                  true H)).
Defined.

Lemma notify_customer_order_update_eq order_id o new_status admin_note st :
  order_tracking st !! order_id = Some o ->
  formattable (total o) ->
  notify_customer_order_update order_id new_status admin_note st
  = match status_message order_id o new_status admin_note with
    | Some message => Return tt (sent (chat_int (chat_id o)) message st)
    | None => Return tt st
    end.
Proof.
  intros Ho [text Htext]. unfold notify_customer_order_update. simpl_m.
  rewrite Ho, Htext. cbv beta iota.
  destruct (status_message order_id o new_status admin_note);
    [rewrite send_message_eq|]; reflexivity.
Qed.

Lemma notify_customer_order_update_raises order_id o new_status admin_note st :
  order_tracking st !! order_id = Some o ->
  ~ formattable (total o) ->
  notify_customer_order_update order_id new_status admin_note st = Raise st.
Proof.
  intros Ho Hnot. unfold notify_customer_order_update. simpl_m. rewrite Ho.
  destruct (Py.format_2f (total o)) as [text|] eqn:Htext; [|reflexivity].
  exfalso. apply Hnot. exists text. exact Htext.
Qed.

Lemma status_message_with_status order_id o s now new_status admin_note :
  status_message order_id (with_status o s now) new_status admin_note
  = status_message order_id o new_status admin_note.
Proof. reflexivity. Qed.


Lemma update_order_status_notifies order_id o new_status admin_note now sheet_answers st :
  order_tracking st !! order_id = Some o ->
  exists st1,
    update_order_status order_id new_status admin_note now sheet_answers st
    = (notify_customer_order_update order_id new_status admin_note;;
       logger INFO (log_status_updated order_id (status o) new_status);;
       ret true) st1
    /\ order_tracking st1 = <[order_id := with_status o new_status now]> (order_tracking st)
    /\ outbox st1 = outbox st
    /\ sheet st1
       = match sheet st with
         | Some rows =>
             Some (if sheet_answers
                   then default rows (update_first_status order_id new_status rows)
                   else rows)
         | None => None
         end
    /\ user_sessions st1 = user_sessions st
    /\ user_carts st1 = user_carts st
    /\ dicts st1 = dicts st
    /\ lines st1 = lines st
    /\ ADMIN_CHAT_ID st1 = ADMIN_CHAT_ID st
    /\ transport st1 = transport st
    /\ (exists entries, log st1 = log st ++ entries
          /\ (sheet_answers = false -> is_Some (sheet st) ->
              (ERROR, log_sheet_status_failed) ∈ entries)).
Proof.
  intros Ho. unfold update_order_status. simpl_m. rewrite Ho. cbv beta iota zeta.
  change (Order (chat_id o) (customer_name o) (phone o) (address o) (cart o) (total o)
            new_status (created_at o) now) with (with_status o new_status now).
  destruct (sheet st) as [rows|] eqn:Hsheet;
    [destruct sheet_answers;
       [destruct (update_first_status order_id new_status rows) as [rows'|] eqn:Hrows|]|].
  all: cbn [order_tracking set_order_tracking set_sheet set_log sheet].
  all: rewrite ?Hsheet; cbv beta iota.
  all: eexists; split; [reflexivity|].
  all: cbn; rewrite ?Hsheet.
  all: repeat match goal with |- _ /\ _ => split end; try reflexivity.
  all: eexists; split; [try (symmetry; apply app_nil_r); reflexivity|].
  all: try (intros; discriminate).
  all: try (intros _ [? ?]; discriminate).
  all: try (intros _ _; set_solver).
Qed.

(** What a status update does to an order that exists and whose total
    formats. *)
Lemma update_order_status_does order_id o new_status admin_note now sheet_answers st :
  order_tracking st !! order_id = Some o ->
  formattable (total o) ->
  exists st',
    update_order_status order_id new_status admin_note now sheet_answers st
    = Return true st'
    /\ order_tracking st' = <[order_id := with_status o new_status now]> (order_tracking st)
    /\ outbox st'
       = outbox st
         ++ match status_message order_id o new_status admin_note with
            | Some m => [(chat_int (chat_id o), m)]
            | None => []
            end
    /\ sheet st'
       = match sheet st with
         | Some rows =>
             Some (if sheet_answers
                   then default rows (update_first_status order_id new_status rows)
                   else rows)
         | None => None
         end
    /\ user_sessions st' = user_sessions st
    /\ user_carts st' = user_carts st
    /\ dicts st' = dicts st
    /\ lines st' = lines st
    /\ ADMIN_CHAT_ID st' = ADMIN_CHAT_ID st
    /\ transport st' = transport st
    /\ (sheet_answers = false -> is_Some (sheet st) ->
        (ERROR, log_sheet_status_failed) ∈ log st').
Proof.
  intros Ho Hfmt.
  destruct (update_order_status_notifies order_id o new_status admin_note now sheet_answers
              st Ho)
    as (st1 & -> & Htrack & Hout & Hsheet & Hs & Hc & Hd & Hl & Ha & Ht & entries & Hlog
        & Hfailed).
  simpl_m.
  rewrite (notify_customer_order_update_eq order_id (with_status o new_status now))
    by (rewrite ?Htrack, ?lookup_insert_eq; reflexivity || exact Hfmt).
  rewrite status_message_with_status.
  destruct (status_message order_id o new_status admin_note) as [m|].
  all: eexists; split; [reflexivity|].
  all: cbn; rewrite ?app_nil_r.
  all: repeat match goal with |- _ /\ _ => split end; try assumption.
  all: try (rewrite Hout; reflexivity).
  all: intros Hno Hsome; specialize (Hfailed Hno Hsome); rewrite Hlog; set_solver.
Qed.

(** When the total does not format, the notifier raises: the status
    update has changed the record and the sheet by then, and nothing is
    sent. *)
Lemma update_order_status_raises order_id o new_status admin_note now sheet_answers st :
  order_tracking st !! order_id = Some o ->
  ~ formattable (total o) ->
  exists st',
    update_order_status order_id new_status admin_note now sheet_answers st = Raise st'
    /\ order_tracking st' = <[order_id := with_status o new_status now]> (order_tracking st)
    /\ outbox st' = outbox st.
Proof.
  intros Ho Hnot.
  destruct (update_order_status_notifies order_id o new_status admin_note now sheet_answers
              st Ho)
    as (st1 & -> & Htrack & Hout & _).
  simpl_m.
  rewrite (notify_customer_order_update_raises order_id (with_status o new_status now))
    by (rewrite ?Htrack, ?lookup_insert_eq; reflexivity || exact Hnot).
  eauto.
Qed.

Lemma status_message_unsupported order_id o new_status admin_note :
  new_status <> "Shipped" -> new_status <> "Cancelled" -> new_status <> "Delivered" ->
  status_message order_id o new_status admin_note = None.
Proof.
  intros H1 H2 H3. unfold status_message. repeat case_decide; congruence.
Qed.

(** C9. For an order in [order_tracking] whose total formats (as the total
    of every order that a checkout stores does) and a status other than
    Shipped, Cancelled and Delivered, [update_order_status] returns [True],
    sends nothing, and the record has the new status and the new
    [updated_at]. *)
Theorem update_order_status_unsupported st order_id o new_status admin_note now
    sheet_answers :
  order_tracking st !! order_id = Some o ->
  formattable (total o) ->
  new_status <> "Shipped" -> new_status <> "Cancelled" -> new_status <> "Delivered" ->
  exists st',
    update_order_status order_id new_status admin_note now sheet_answers st
    = Return true st'
    /\ outbox st' = outbox st
    /\ order_tracking st'
       = <[order_id := Order (chat_id o) (customer_name o) (phone o) (address o) (cart o)
                         (total o) new_status (created_at o) now]> (order_tracking st).
Proof.
  intros Ho Hfmt H1 H2 H3.
  destruct (update_order_status_does order_id o new_status admin_note now sheet_answers
              st Ho Hfmt) as (st' & Hrun & Htrack & Hout & _).
  rewrite (status_message_unsupported order_id o new_status admin_note H1 H2 H3),
    app_nil_r in Hout.
  exists st'. split; [exact Hrun|]. split; [exact Hout | exact Htrack].
Qed.

Lemma update_order_status_unsupported_witness :
  exists st',
    update_order_status "ORD1700000000" "Refunded" "" "2023-11-15 09:00:00" true
      ordered_state = Return true st'
    /\ outbox st' = outbox ordered_state
    /\ status <$> order_tracking st' !! "ORD1700000000" = Some "Refunded".
Proof.
  assert (Ho : exists o, order_tracking ordered_state !! "ORD1700000000" = Some o
                         /\ formattable (total o)).
  { eexists. split; [vm_compute; reflexivity|].
    apply (bool_decide_eq_true_1 (formattable _)). vm_compute. reflexivity. }
  destruct Ho as (o & Ho & Hfmt).
  destruct (update_order_status_unsupported ordered_state "ORD1700000000" o "Refunded"
              "" "2023-11-15 09:00:00" true Ho Hfmt) as (st' & Hrun & Hout & Htrack);
    [discriminate | discriminate | discriminate |].
  exists st'. split; [exact Hrun|]. split; [exact Hout|].
  rewrite Htrack, lookup_insert_eq. reflexivity.
Defined.

(** By contrast, each of the three supported statuses sends its one
    message to the order's customer. *)
Lemma update_order_status_supported st order_id o new_status admin_note now
    sheet_answers message :
  order_tracking st !! order_id = Some o ->
  formattable (total o) ->
  status_message order_id o new_status admin_note = Some message ->
  exists st',
    update_order_status order_id new_status admin_note now sheet_answers st
    = Return true st'
    /\ outbox st' = outbox st ++ [(chat_int (chat_id o), message)].
Proof.
  intros Ho Hfmt Hmessage.
  destruct (update_order_status_does order_id o new_status admin_note now sheet_answers
              st Ho Hfmt) as (st' & Hrun & _ & Hout & _).
  rewrite Hmessage in Hout. eauto.
Qed.

(** *** Admin actions *)

Lemma not_admin_other st chat_id :
  ADMIN_CHAT_ID st <> Some (Py.str chat_id) -> not_admin st chat_id = true.
Proof.
  intros Hne. unfold not_admin.
  rewrite (bool_decide_eq_false_2 (Some (Py.str chat_id) = ADMIN_CHAT_ID st))
    by congruence.
  apply orb_true_r.
Qed.

(** A sender other than the admin gets the notice, whatever the token. *)
Lemma handle_admin_callback_unauthorized st chat_id callback_data now sheet_answers :
  ADMIN_CHAT_ID st <> Some (Py.str chat_id) ->
  handle_admin_callback chat_id callback_data now sheet_answers st
  = Return tt (sent (chat_int chat_id) msg_unauthorized st).
Proof.
  intros Hne. unfold handle_admin_callback. simpl_m.
  rewrite (not_admin_other st chat_id Hne), send_message_eq. reflexivity.
Qed.

Lemma prefix_cons (a c : Ascii.ascii) (p s : string) :
  String.prefix (String a p) (String c s)
  = if Ascii.ascii_dec a c then String.prefix p s else false.
Proof. destruct (Ascii.ascii_dec a c) eqn:E; cbn [String.prefix]; rewrite E; reflexivity. Qed.

Lemma prefix_append (p s : string) : String.prefix p (p +:+ s) = true.
Proof.
  induction p as [|a p IH]; [destruct s; reflexivity|].
  change (String a p +:+ s) with (String a (p +:+ s)). rewrite prefix_cons.
  destruct (Ascii.ascii_dec a a); [exact IH | congruence].
Qed.

(** An admin token is none of the customer tokens. *)
Lemma admin_prefixed_dispatch callback_data :
  admin_prefixed callback_data = true ->
  String.prefix "add_" callback_data = false
  /\ callback_data <> "back_categories"
  /\ callback_data <> "view_cart".
Proof.
  unfold admin_prefixed. intros H.
  destruct callback_data as [|c s]; [discriminate|].
  rewrite !prefix_cons in H. rewrite prefix_cons.
  repeat match type of H with
         | context [Ascii.ascii_dec ?a c] => destruct (Ascii.ascii_dec a c) as [<-|]
         end; try discriminate H.
  all: repeat split; try discriminate; reflexivity.
Qed.

(** C4. For every token with one of the prefixes [ship_], [cancel_],
    [deliver_], [details_] that comes from a chat other than the configured
    admin's (or when no admin is configured), the handler sends the
    unauthorized notice to that chat and changes nothing else: the tracker,
    the sessions, the carts and the sheet are as they were. *)
Theorem admin_token_from_non_admin st chat_id callback_data now sheet_answers :
  admin_prefixed callback_data = true ->
  ADMIN_CHAT_ID st <> Some (Py.str chat_id) ->
  exists st',
    handle_callback_query chat_id callback_data now sheet_answers st = Return tt st'
    /\ outbox st' = outbox st ++ [(chat_int chat_id, msg_unauthorized)]
    /\ order_tracking st' = order_tracking st
    /\ user_sessions st' = user_sessions st
    /\ user_carts st' = user_carts st
    /\ dicts st' = dicts st
    /\ lines st' = lines st
    /\ sheet st' = sheet st.
Proof.
  intros Hprefixed Hne.
  destruct (admin_prefixed_dispatch callback_data Hprefixed) as (Hadd & Hback & Hview).
  unfold handle_callback_query.
  rewrite Hadd, (bool_decide_eq_false_2 _ Hback), (bool_decide_eq_false_2 _ Hview),
    Hprefixed.
  rewrite (handle_admin_callback_unauthorized st chat_id callback_data now
             sheet_answers Hne).
  eexists. split; [reflexivity|]. cbn. auto 10.
Qed.

Lemma admin_token_from_non_admin_witness :
  admin_prefixed "cancel_ORD1700000000" = true
  /\ ADMIN_CHAT_ID ordered_state <> Some (Py.str 7)
  /\ exists st',
       handle_callback_query 7 "cancel_ORD1700000000" "2023-11-15 09:00:00" true
         ordered_state = Return tt st'
       /\ outbox st' = outbox ordered_state ++ [(chat_int 7, msg_unauthorized)]
       /\ order_tracking st' = order_tracking ordered_state
       /\ user_sessions st' = user_sessions ordered_state.
Proof.
  assert (H1 : admin_prefixed "cancel_ORD1700000000" = true) by reflexivity.
  assert (H2 : ADMIN_CHAT_ID ordered_state <> Some (Py.str 7)) by (vm_compute; discriminate).
  split; [exact H1|]. split; [exact H2|].
  destruct (admin_token_from_non_admin ordered_state 7 "cancel_ORD1700000000"
              "2023-11-15 09:00:00" true H1 H2) as (st' & Hrun & Hout & Htrack & Hsess & _).
  eauto.
Defined.

(** What the admin's own tokens do, for comparison: [cancel_] moves the
    admin's session to the reason prompt. *)
Lemma admin_cancel_token st chat_id order_id now sheet_answers :
  not_admin st chat_id = false ->
  exists st',
    handle_admin_callback chat_id ("cancel_" +:+ order_id) now sheet_answers st
    = Return tt st'
    /\ user_sessions st' = <[chat_id := awaiting_cancel_reason order_id]> (user_sessions st)
    /\ order_tracking st' = order_tracking st.
Proof.
  intros Hadmin. unfold handle_admin_callback. simpl_m. rewrite Hadmin.
  change (String.prefix "ship_" ("cancel_" +:+ order_id)) with false.
  rewrite prefix_append.
  change (drop_chars 7 ("cancel_" +:+ order_id)) with order_id.
  cbv iota. rewrite send_message_eq. eauto.
Qed.

(** *** Order ids *)

(** C3. Two readings of the clock in the same second give the same order
    id: ids made in quick succession are not distinct. *)
Theorem generate_order_id_same_second (t1 t2 : Py.float) (seconds : Z) (st1 st2 : state) :
  Py.int_of_float t1 = Some seconds ->
  Py.int_of_float t2 = Some seconds ->
  generate_order_id t1 st1 = Return ("ORD" +:+ Py.str seconds) st1
  /\ generate_order_id t2 st2 = Return ("ORD" +:+ Py.str seconds) st2.
Proof.
  intros H1 H2. unfold generate_order_id. simpl_m. rewrite H1, H2. auto.
Qed.

Lemma generate_order_id_same_second_witness :
  quarter_past <> quarter_to
  /\ generate_order_id quarter_past fresh_state = Return "ORD1700000000" fresh_state
  /\ generate_order_id quarter_to shopping_state = Return "ORD1700000000" shopping_state.
Proof.
  split; [vm_compute; discriminate|].
  exact (generate_order_id_same_second quarter_past quarter_to 1700000000
           fresh_state shopping_state eq_refl eq_refl).
Defined.

(** Ids made in different seconds do differ. *)
Lemma generate_order_id_other_second (t1 t2 : Py.float) (s1 s2 : Z) (st : state) :
  Py.int_of_float t1 = Some s1 ->
  Py.int_of_float t2 = Some s2 ->
  s1 <> s2 ->
  generate_order_id t1 st <> generate_order_id t2 st.
Proof.
  intros H1 H2 Hne. unfold generate_order_id. simpl_m. rewrite H1, H2.
  intros Heq. injection Heq as Heq. apply Hne.
  apply (inj pretty). exact Heq.
Qed.

(** *** Stores of dict and line objects *)

(** Copying the dict at [d] to the end of the store does not change what
    [d] denotes, allocated or not. *)
Lemma dict_at_copy (ds : list cart_dict) (d : loc) :
  default [] ((ds ++ [default [] (ds !! d)]) !! d) = default [] (ds !! d).
Proof.
  destruct (decide (d < length ds)%nat) as [Hlt|Hge].
  - rewrite lookup_app_l by exact Hlt. reflexivity.
  - rewrite (lookup_ge_None_2 ds d) by lia. cbn.
    destruct (decide (d = length ds)) as [->|Hne].
    + rewrite list_lookup_middle by reflexivity. reflexivity.
    + rewrite lookup_ge_None_2; [reflexivity|]. rewrite length_app. cbn. lia.
Qed.

Lemma dict_get_app {A} (k : string) (d1 d2 : list (string * A)) :
  dict_get k (d1 ++ d2)
  = match dict_get k d1 with
    | Some v => Some v
    | None => dict_get k d2
    end.
Proof.
  induction d1 as [|kv d1 IH]; [reflexivity|].
  cbn. destruct (decide (kv.1 = k)); [reflexivity | exact IH].
Qed.

Lemma dict_get_None_filter {A} (k : string) (d : list (string * A)) :
  dict_get k d = None -> filter (fun kv => kv.1 = k) d = [].
Proof.
  induction d as [|kv d IH]; [reflexivity|].
  cbn [dict_get]. intros H. destruct (decide (kv.1 = k)) as [Heq|Hne]; [discriminate|].
  rewrite filter_cons_False by exact Hne. apply IH, H.
Qed.

Lemma save_order_tracking_eq order_id chat_id customer_name phone address cart total
    status now1 now2 st :
  save_order_tracking order_id chat_id customer_name phone address cart total status
    now1 now2 st
  = Return order_id
      (set_order_ids (assign_key order_id (order_ids st))
         (set_order_tracking
            (<[order_id := Order chat_id customer_name phone address (length (dicts st))
                             total status now1 now2]> (order_tracking st))
            (set_dicts (dicts st ++ [dict_at st cart]) st))).
Proof. reflexivity. Qed.

(** *** Adding to the cart *)

(** The first addition of a customer who has no cart yet. *)
Lemma handle_add_to_cart_no_cart st chat_id item_name item_details :
  find_item grocery_categories item_name = Some item_details ->
  user_carts st !! chat_id = None ->
  handle_add_to_cart chat_id item_name st
  = Return tt
      (sent (chat_int chat_id)
         (msg_added_to_cart item_name (item_price item_details) (item_unit item_details))
         (set_dicts (dicts st ++ [[(item_name, length (lines st))]])
            (set_lines (lines st ++ [new_line item_details])
               (set_user_carts (<[chat_id := length (dicts st)]> (user_carts st)) st)))).
Proof.
  intros Hfind Hcart. unfold handle_add_to_cart, alloc_dict, alloc_line. simpl_m.
  rewrite Hfind, Hcart. cbn.
  unfold dict_at. cbn. rewrite list_lookup_middle by reflexivity. cbn.
  rewrite send_message_eq. cbn.
  rewrite alter_app_r_alt by lia. rewrite Nat.sub_diag. reflexivity.
Qed.

(** An item that the cart does not hold yet gets a new line object. *)
Lemma handle_add_to_cart_new_line st chat_id item_name item_details cart :
  find_item grocery_categories item_name = Some item_details ->
  user_carts st !! chat_id = Some cart ->
  dict_get item_name (dict_at st cart) = None ->
  handle_add_to_cart chat_id item_name st
  = Return tt
      (sent (chat_int chat_id)
         (msg_added_to_cart item_name (item_price item_details) (item_unit item_details))
         (set_dicts (alter (fun d => d ++ [(item_name, length (lines st))]) cart (dicts st))
            (set_lines (lines st ++ [new_line item_details]) st))).
Proof.
  intros Hfind Hcart Hget. unfold handle_add_to_cart, alloc_line. simpl_m.
  rewrite Hfind, Hcart, Hget. rewrite send_message_eq. reflexivity.
Qed.

(** An item that the cart holds has the quantity of its line object
    incremented, in place. *)
Lemma handle_add_to_cart_increment st chat_id item_name item_details cart l :
  find_item grocery_categories item_name = Some item_details ->
  user_carts st !! chat_id = Some cart ->
  dict_get item_name (dict_at st cart) = Some l ->
  handle_add_to_cart chat_id item_name st
  = Return tt
      (sent (chat_int chat_id)
         (msg_added_to_cart item_name (item_price item_details) (item_unit item_details))
         (set_lines (alter increment l (lines st)) st)).
Proof.
  intros Hfind Hcart Hget. unfold handle_add_to_cart. simpl_m.
  rewrite Hfind, Hcart, Hget. rewrite send_message_eq. reflexivity.
Qed.

Lemma dict_get_fmap {A B} (h : A -> B) (k : string) (d : list (string * A)) :
  dict_get k ((fun kv => (kv.1, h kv.2)) <$> d) = h <$> dict_get k d.
Proof.
  induction d as [|kv d IH]; [reflexivity|].
  rewrite fmap_cons. cbn [dict_get fst snd].
  destruct (decide (kv.1 = k)); [reflexivity | exact IH].
Qed.

Lemma dict_get_last {A} (k : string) (v : A) (d : list (string * A)) :
  dict_get k d = None -> dict_get k (d ++ [(k, v)]) = Some v.
Proof.
  intros H. rewrite dict_get_app, H. cbn. rewrite decide_True by reflexivity.
  reflexivity.
Qed.

(** The lines of a cart that just got a new entry, once that entry's line
    object holds [v]: no other line is under this item's name. *)
Lemma filter_new_entry (st : state) (k : string) (l : loc) (v : line)
    (d : list (string * loc)) :
  dict_get k d = None ->
  line_at st l = v ->
  filter (fun kv => kv.1 = k) ((fun kv => (kv.1, line_at st kv.2)) <$> (d ++ [(k, l)]))
  = [(k, v)].
Proof.
  intros Hget Hv. rewrite fmap_app, filter_app.
  rewrite (dict_get_None_filter k ((fun kv => (kv.1, line_at st kv.2)) <$> d))
    by (rewrite dict_get_fmap, Hget; reflexivity).
  cbn [fmap list_fmap fst snd app]. rewrite filter_cons_True by reflexivity.
  rewrite Hv. reflexivity.
Qed.

(** C8. For every customer whose cart has no line for a catalog item yet,
    adding the item twice gives a cart with exactly one line under the
    item's name; its quantity is 2 and its price and unit are the
    catalog's. *)
Theorem add_twice_one_line st chat_id item_name item_details :
  find_item grocery_categories item_name = Some item_details ->
  (forall cart, user_carts st !! chat_id = Some cart ->
     (cart < length (dicts st))%nat /\ dict_get item_name (dict_at st cart) = None) ->
  exists st1 st2 cart,
    handle_add_to_cart chat_id item_name st = Return tt st1
    /\ handle_add_to_cart chat_id item_name st1 = Return tt st2
    /\ user_carts st2 !! chat_id = Some cart
    /\ filter (fun kv => kv.1 = item_name) (cart_items st2 cart)
       = [(item_name, Line (item_price item_details) (item_unit item_details) 2)].
Proof.
  intros Hfind Hfresh.
  destruct (user_carts st !! chat_id) as [cart|] eqn:Hcart.
  - destruct (Hfresh cart eq_refl) as [Hlt Hget].
    destruct (lookup_lt_is_Some_2 (dicts st) cart Hlt) as [d Hd].
    assert (Hdict : dict_at st cart = d) by (unfold dict_at; rewrite Hd; reflexivity).
    rewrite Hdict in Hget.
    eexists _, _, cart.
    split; [apply (handle_add_to_cart_new_line st chat_id item_name item_details cart
                     Hfind Hcart); rewrite Hdict; exact Hget|].
    split; [apply (handle_add_to_cart_increment _ chat_id item_name item_details cart
                     (length (lines st)) Hfind); [exact Hcart|]|].
    + unfold dict_at. cbn. rewrite list_lookup_alter_eq, Hd. cbn.
      apply dict_get_last, Hget.
    + split; [exact Hcart|].
      unfold cart_items, dict_at at 1. cbn. rewrite list_lookup_alter_eq, Hd. cbn.
      apply filter_new_entry; [exact Hget|].
      unfold line_at. cbn. rewrite list_lookup_alter_eq, list_lookup_middle by reflexivity.
      reflexivity.
  - eexists _, _, (length (dicts st)).
    split; [apply (handle_add_to_cart_no_cart st chat_id item_name item_details
                     Hfind Hcart)|].
    split; [apply (handle_add_to_cart_increment _ chat_id item_name item_details
                     (length (dicts st)) (length (lines st)) Hfind)|].
    + cbn. apply lookup_insert_eq.
    + unfold dict_at. cbn. rewrite list_lookup_middle by reflexivity. cbn.
      rewrite decide_True by reflexivity. reflexivity.
    + split; [cbn; apply lookup_insert_eq|].
      unfold cart_items, dict_at at 1. cbn. rewrite list_lookup_middle by reflexivity.
      apply (filter_new_entry _ item_name (length (lines st)) _ []); [reflexivity|].
      unfold line_at. cbn. rewrite list_lookup_alter_eq, list_lookup_middle by reflexivity.
      reflexivity.
Qed.

Lemma add_twice_one_line_witness :
  find_item grocery_categories "🧀 Cheese" = Some (Item (Py.literal 699) "block")
  /\ user_carts shopping_state !! 7 = Some 0%nat
  /\ dict_get "🧀 Cheese" (dict_at shopping_state 0%nat) = None
  /\ exists st1 st2 cart,
       handle_add_to_cart 7 "🧀 Cheese" shopping_state = Return tt st1
       /\ handle_add_to_cart 7 "🧀 Cheese" st1 = Return tt st2
       /\ user_carts st2 !! 7 = Some cart
       /\ filter (fun kv => kv.1 = "🧀 Cheese") (cart_items st2 cart)
          = [("🧀 Cheese", Line (Py.literal 699) "block" 2)].
Proof.
  assert (H1 : find_item grocery_categories "🧀 Cheese"
               = Some (Item (Py.literal 699) "block")) by reflexivity.
  assert (H2 : user_carts shopping_state !! 7 = Some 0%nat) by reflexivity.
  assert (H3 : dict_get "🧀 Cheese" (dict_at shopping_state 0%nat) = None) by reflexivity.
  split; [exact H1|]. split; [exact H2|]. split; [exact H3|].
  apply (add_twice_one_line shopping_state 7 "🧀 Cheese" (Item (Py.literal 699) "block") H1).
  intros cart Hcart. rewrite H2 in Hcart. injection Hcart as <-.
  split; [vm_compute; lia | exact H3].
Defined.

(** When the cart already has the line, two additions add 2 to its
    quantity. *)
Lemma add_twice_existing_line st chat_id item_name item_details cart l :
  find_item grocery_categories item_name = Some item_details ->
  user_carts st !! chat_id = Some cart ->
  dict_get item_name (dict_at st cart) = Some l ->
  (l < length (lines st))%nat ->
  exists st1 st2,
    handle_add_to_cart chat_id item_name st = Return tt st1
    /\ handle_add_to_cart chat_id item_name st1 = Return tt st2
    /\ quantity (line_at st2 l) = quantity (line_at st l) + 2.
Proof.
  intros Hfind Hcart Hget Hl.
  destruct (lookup_lt_is_Some_2 (lines st) l Hl) as [v Hv].
  eexists _, _.
  split; [apply (handle_add_to_cart_increment st chat_id item_name item_details cart l
                   Hfind Hcart Hget)|].
  split; [apply (handle_add_to_cart_increment _ chat_id item_name item_details cart l
                   Hfind); [exact Hcart | exact Hget]|].
  unfold line_at. cbn. rewrite !list_lookup_alter_eq, Hv. cbn. lia.
Qed.

(** *** The snapshot of an order *)

(** Inside [save_order_tracking] the copy is shallow, whatever its comment
    says: the new dict holds the cart's own line objects.  Were the cart of
    customer 7 (Apples twice, Milk once) saved as an order and left in
    place, an addition of Apples to it would take the order's stored line
    from quantity 2 to quantity 3.  The bot is never in that state: its
    only call of [save_order_tracking], in the checkout, is followed by the
    rebinding of the cart (see [stored_lines_survive_cart_mutations]
    below). *)
Lemma order_snapshot_shares_lines :
  exists st1 st2,
    save_order_tracking "ORD1700000000" 7 "Ann" "555-0100" "1 Main St" 0%nat
      (Py.Float (Py.literal 1597)) "Pending" "2023-11-14 22:13:20" "2023-11-14 22:13:20"
      shopping_state = Return "ORD1700000000" st1
    /\ order_lines st1 "ORD1700000000"
       = Some [ ("🍎 Apples", Line (Py.literal 399) "kg" 2);
                ("🥛 Milk", Line (Py.literal 299) "liter" 1) ]
    /\ handle_add_to_cart 7 "🍎 Apples" st1 = Return tt st2
    /\ order_lines st2 "ORD1700000000"
       = Some [ ("🍎 Apples", Line (Py.literal 399) "kg" 3);
                ("🥛 Milk", Line (Py.literal 299) "liter" 1) ].
Proof.
  eexists _, _.
  split; [apply save_order_tracking_eq|].
  split; [vm_compute; reflexivity|].
  split; [apply (handle_add_to_cart_increment _ 7 "🍎 Apples" (Item (Py.literal 399) "kg")
                   0%nat 0%nat); reflexivity|].
  vm_compute. reflexivity.
Qed.

(** The same for every state in which a cart that was saved is still a
    customer's cart: an addition to it increments the line that the order
    shows. *)
Lemma saved_order_line_incremented st order_id chat_id customer_name phone address cart
    total status now1 now2 item_name item_details l :
  find_item grocery_categories item_name = Some item_details ->
  user_carts st !! chat_id = Some cart ->
  (cart < length (dicts st))%nat ->
  dict_get item_name (dict_at st cart) = Some l ->
  (l < length (lines st))%nat ->
  exists st1 st2,
    save_order_tracking order_id chat_id customer_name phone address cart total status
      now1 now2 st = Return order_id st1
    /\ handle_add_to_cart chat_id item_name st1 = Return tt st2
    /\ (dict_get item_name <$> order_lines st1 order_id) = Some (Some (line_at st l))
    /\ (dict_get item_name <$> order_lines st2 order_id)
       = Some (Some (increment (line_at st l))).
Proof.
  intros Hfind Hcart Hlt Hget Hl.
  destruct (lookup_lt_is_Some_2 (lines st) l Hl) as [v Hv].
  eexists _, _.
  split; [apply save_order_tracking_eq|].
  split; [apply (handle_add_to_cart_increment _ chat_id item_name item_details cart l
                   Hfind); [exact Hcart|]|].
  - unfold dict_at. cbn. rewrite lookup_app_l by exact Hlt. exact Hget.
  - unfold order_lines, cart_items, dict_at. cbn. rewrite !lookup_insert_eq. cbn.
    rewrite !list_lookup_middle by reflexivity. cbn.
    rewrite !dict_get_fmap. fold (dict_at st cart). rewrite Hget. cbn.
    unfold line_at. cbn. rewrite list_lookup_alter_eq, Hv. cbn. auto.
Qed.

(** *** The spreadsheet append *)

(** The three outcomes of [save_order_to_sheet], once the sum is defined:
    no spreadsheet, a row appended, an append that raised. *)
Lemma save_order_to_sheet_not_connected chat_id customer_name phone address cart
    special_instructions order_id now ok st subtotal :
  Py.sum item_total (cart_values st cart) = Some subtotal ->
  sheet st = None ->
  save_order_to_sheet chat_id customer_name phone address cart special_instructions
    order_id now ok st
  = Return true
      (set_log (log st ++ [(INFO, log_order_received customer_name subtotal);
                           (INFO, log_sheet_not_connected)]) st).
Proof.
  intros Hsum Hsheet. unfold save_order_to_sheet. simpl_m.
  rewrite Hsum. cbv beta iota. rewrite Hsheet. cbn.
  rewrite <- app_assoc. reflexivity.
Qed.

Lemma save_order_to_sheet_appended chat_id customer_name phone address cart
    special_instructions order_id now st subtotal total rows :
  Py.sum item_total (cart_values st cart) = Some subtotal ->
  Py.add subtotal (delivery_fee_for subtotal) = Some total ->
  sheet st = Some rows ->
  save_order_to_sheet chat_id customer_name phone address cart special_instructions
    order_id now true st
  = Return true
      (set_log (log st ++ [(INFO, log_order_received customer_name subtotal);
                           (INFO, log_sheet_saved)])
         (set_sheet (Some (rows ++ [ledger_row chat_id customer_name phone address
                                      (cart_items st cart) special_instructions order_id
                                      now subtotal total])) st)).
Proof.
  intros Hsum Htotal Hsheet. unfold save_order_to_sheet. simpl_m.
  rewrite Hsum. cbv beta iota. rewrite Hsheet. cbv beta iota. fold_fee.
  rewrite ?Hsum, Htotal. cbn. rewrite <- app_assoc. reflexivity.
Qed.

Lemma save_order_to_sheet_failed chat_id customer_name phone address cart
    special_instructions order_id now st subtotal total rows :
  Py.sum item_total (cart_values st cart) = Some subtotal ->
  Py.add subtotal (delivery_fee_for subtotal) = Some total ->
  sheet st = Some rows ->
  save_order_to_sheet chat_id customer_name phone address cart special_instructions
    order_id now false st
  = Return false
      (set_log (log st ++ [(INFO, log_order_received customer_name subtotal);
                           (ERROR, log_sheet_save_failed);
                           (ERROR, log_sheet_error_details)]) st).
Proof.
  intros Hsum Htotal Hsheet. unfold save_order_to_sheet. simpl_m.
  rewrite Hsum. cbv beta iota. rewrite Hsheet. cbv beta iota. fold_fee.
  rewrite ?Hsum, Htotal. cbn. rewrite <- !app_assoc. reflexivity.
Qed.

(** *** The admin alert *)

Lemma send_admin_order_notification_eq order_id o st :
  send_admin_order_notification order_id o st
  = Return tt
      (if truthy (ADMIN_CHAT_ID st) then
         sent (chat_str (default "" (ADMIN_CHAT_ID st)))
           (msg_admin_new_order order_id
              (create_admin_order_summary st order_id o) (created_at o) (status o)
              [ ["ship_" +:+ order_id; "cancel_" +:+ order_id];
                ["deliver_" +:+ order_id; "details_" +:+ order_id] ]) st
       else st).
Proof.
  unfold send_admin_order_notification. simpl_m.
  destruct (truthy (ADMIN_CHAT_ID st)); cbn [negb]; [|reflexivity].
  rewrite send_message_eq. reflexivity.
Qed.

(** *** Checkout *)

(** After the order is stored, the cart passed to the checkout still
    denotes the same lines. *)
Lemma dict_at_after_save order_id o st cart :
  dict_at (set_order_ids (assign_key order_id (order_ids st))
             (set_order_tracking (<[order_id := o]> (order_tracking st))
                (set_dicts (dicts st ++ [dict_at st cart]) st))) cart
  = dict_at st cart.
Proof.
  unfold dict_at. cbn [dicts set_order_ids set_order_tracking set_dicts].
  apply dict_at_copy.
Qed.

Lemma cart_values_after_save order_id o st cart :
  cart_values
    (set_order_ids (assign_key order_id (order_ids st))
       (set_order_tracking (<[order_id := o]> (order_tracking st))
          (set_dicts (dicts st ++ [dict_at st cart]) st))) cart
  = cart_values st cart.
Proof. unfold cart_values. rewrite dict_at_after_save. reflexivity. Qed.

Lemma cart_items_after_save order_id o st cart :
  cart_items
    (set_order_ids (assign_key order_id (order_ids st))
       (set_order_tracking (<[order_id := o]> (order_tracking st))
          (set_dicts (dicts st ++ [dict_at st cart]) st))) cart
  = cart_items st cart.
Proof. unfold cart_items. rewrite dict_at_after_save. reflexivity. Qed.

(** With convertible quantities and a finite clock, the checkout returns
    [True]; this is the state it leaves. *)
Lemma process_cash_on_delivery_completes chat_id customer_name phone address cart
    special_instructions env st seconds :
  Forall convertible (cart_values st cart) ->
  Py.int_of_float (time_time env) = Some seconds ->
  exists summary total st',
    let order_id := "ORD" +:+ Py.str seconds in
    let o := pending_order chat_id customer_name phone address (length (dicts st))
               total env in
    create_enhanced_order_summary customer_name phone address cart special_instructions
      (summary_time env) st = Return (summary, total) st
    /\ process_cash_on_delivery chat_id customer_name phone address cart
         special_instructions env st = Return true st'
    /\ order_tracking st' = <[order_id := o]> (order_tracking st)
    /\ outbox st'
       = outbox st
         ++ [(chat_int chat_id, msg_order_confirmed customer_name summary order_id total)]
         ++ admin_alert st order_id o (cart_items st cart)
    /\ user_sessions st' = <[chat_id := main_menu]> (user_sessions st)
    /\ user_carts st'
       = match user_carts st !! chat_id with
         | Some _ => <[chat_id := S (length (dicts st))]> (user_carts st)
         | None => user_carts st
         end
    /\ dicts st'
       = dicts st ++ [dict_at st cart]
         ++ match user_carts st !! chat_id with
            | Some _ => [[]]
            | None => []
            end
    /\ lines st' = lines st
    /\ sheet st'
       = match sheet st with
         | Some rows =>
             if append_row_ok env then
               Some (rows ++ [ledger_row chat_id customer_name phone address
                                (cart_items st cart) special_instructions order_id
                                (row_time env) (s_subtotal summary) total])
             else Some rows
         | None => None
         end
    /\ (forall e, e ∈ log st -> e ∈ log st')
    /\ (is_Some (sheet st) -> append_row_ok env = false ->
        (ERROR, log_sheet_save_failed) ∈ log st'
        /\ (WARNING, log_sheets_failed_order_saved_locally) ∈ log st').
Proof.
  intros Hconv Hclock.
  destruct (create_enhanced_order_summary_returns customer_name phone address cart
              special_instructions (summary_time env) st Hconv)
    as (items_text & missing & total & Hsummary & Htotal).
  pose proof (sum_item_totals _ Hconv) as Hsum.
  set (subtotal := sum_of_lines (cart_values st cart)) in *.
  set (order_id := "ORD" +:+ Py.str seconds).
  set (o := pending_order chat_id customer_name phone address (length (dicts st)) total env).
  eexists _, total.
  unfold process_cash_on_delivery. simpl_m. rewrite Hsummary. cbv beta iota. cbn [fst snd].
  unfold generate_order_id. simpl_m. rewrite Hclock. cbv beta iota.
  rewrite save_order_tracking_eq. cbv beta iota.
  fold order_id. change (Order chat_id customer_name phone address (length (dicts st)) total
                           "Pending" (created_now env) (updated_now env)) with o.
  set (st_b := set_order_ids (assign_key order_id (order_ids st))
                 (set_order_tracking (<[order_id := o]> (order_tracking st))
                    (set_dicts (dicts st ++ [dict_at st cart]) st))).
  assert (Hsum_b : Py.sum item_total (cart_values st_b cart) = Some subtotal)
    by (unfold st_b; rewrite cart_values_after_save; exact Hsum).
  assert (Hitems_b : cart_items st_b cart = cart_items st cart)
    by apply cart_items_after_save.
  assert (Hcopy : forall st_x, dicts st_x = dicts st_b -> lines st_x = lines st ->
                    cart_items st_x (length (dicts st)) = cart_items st cart).
  { intros st_x Hd Hl. unfold cart_items, dict_at, line_at. rewrite Hd, Hl. cbn.
    rewrite list_lookup_middle by reflexivity. reflexivity. }
  assert (Hadmin_summary :
            forall st_x, dicts st_x = dicts st_b -> lines st_x = lines st ->
              create_admin_order_summary st_x order_id o
              = AdminSummary customer_name phone address
                  ((fun kv => (kv.1, quantity kv.2, unit_ kv.2)) <$> cart_items st cart)
                  total).
  { intros st_x Hd Hl. rewrite <- (Hcopy st_x Hd Hl). reflexivity. }
  destruct (sheet st) as [rows|] eqn:Hsheet; [destruct (append_row_ok env) eqn:Hok|];
    [ rewrite (save_order_to_sheet_appended chat_id customer_name phone address cart
                 special_instructions order_id (row_time env) st_b subtotal total rows
                 Hsum_b Htotal Hsheet)
    | rewrite (save_order_to_sheet_failed chat_id customer_name phone address cart
                 special_instructions order_id (row_time env) st_b subtotal total rows
                 Hsum_b Htotal Hsheet)
    | rewrite (save_order_to_sheet_not_connected chat_id customer_name phone address cart
                 special_instructions order_id (row_time env) (append_row_ok env) st_b
                 subtotal Hsum_b Hsheet) ].
  all: cbv beta iota; cbn [negb]; rewrite send_message_eq; cbv beta iota.
  all: match goal with
       | |- context [order_tracking ?st_d !! ?k] =>
           assert (Hlook : order_tracking st_d !! k = Some o)
             by (cbn; apply lookup_insert_eq);
           rewrite Hlook; clear Hlook
       end.
  all: cbv beta iota; rewrite send_admin_order_notification_eq; cbv beta iota.
  all: match goal with
       | |- context [create_admin_order_summary ?st_d _ _] =>
           rewrite (Hadmin_summary st_d eq_refl eq_refl);
           change (ADMIN_CHAT_ID st_d) with (ADMIN_CHAT_ID st)
       end.
  all: unfold admin_alert; destruct (truthy (ADMIN_CHAT_ID st)) eqn:Hadmin.
  all: match goal with
       | |- context [user_carts ?st_e !! _] =>
           change (user_carts st_e) with (user_carts st)
       end.
  all: destruct (user_carts st !! chat_id) as [old|] eqn:Hcart;
         [ rewrite bool_decide_eq_true_2 by eauto
         | rewrite bool_decide_eq_false_2 by (intros [? ?]; discriminate) ].
  all: unfold alloc_dict; simpl_m.
  all: eexists; split; [reflexivity|]; split; [reflexivity|].
  all: cbn [order_tracking order_ids outbox user_sessions user_carts dicts lines sheet log
            set_order_tracking set_order_ids set_outbox set_user_sessions set_user_carts
            set_dicts set_lines set_sheet set_log sent st_b s_subtotal].
  all: repeat match goal with |- _ /\ _ => split end.
  all: try reflexivity.
  all: try (rewrite <- ?app_assoc, ?app_nil_r; reflexivity).
  all: try (rewrite length_app, Nat.add_1_r; reflexivity).
  all: try (rewrite Hitems_b; reflexivity).
  all: try exact Hsheet.
  all: try match goal with
           | |- forall e, e ∈ _ -> e ∈ _ =>
               intros e He; rewrite ?elem_of_app; auto 10
           | |- is_Some _ -> _ = false -> _ =>
               intros [? Hs] Hf; try discriminate; split; set_solver
           end.
Qed.

(** A checkout that returns [True] found the quantities convertible and
    the clock finite: otherwise it reports the error and returns [False]. *)
Lemma process_cash_on_delivery_true_inv chat_id customer_name phone address cart
    special_instructions env st st' :
  process_cash_on_delivery chat_id customer_name phone address cart special_instructions
    env st = Return true st' ->
  Forall convertible (cart_values st cart)
  /\ exists seconds, Py.int_of_float (time_time env) = Some seconds.
Proof.
  unfold process_cash_on_delivery. simpl_m.
  destruct (create_enhanced_order_summary customer_name phone address cart
              special_instructions (summary_time env) st) as [r st0|st0] eqn:Hsummary.
  - intros Hrun. split; [eapply create_enhanced_order_summary_inv, Hsummary|].
    unfold generate_order_id in Hrun. simpl_m_in Hrun.
    destruct (Py.int_of_float (time_time env)) as [seconds|]; [eauto|].
    rewrite send_message_eq in Hrun. discriminate Hrun.
  - rewrite send_message_eq. discriminate.
Qed.

(** C5 (as amended). When the spreadsheet is connected and the append
    raises, the checkout still returns [True]: the order is stored as
    Pending, the customer is sent the confirmation and nothing else, the
    customer's cart is a new empty dict and the session is at the main menu.
    The failure is written to the log, as an error and as a warning; it is
    not sent to any chat: the requests made are exactly those of a checkout
    whose append succeeded. *)
Theorem checkout_with_failed_append chat_id customer_name phone address cart
    special_instructions env st seconds rows :
  sheet st = Some rows ->
  append_row_ok env = false ->
  Forall convertible (cart_values st cart) ->
  Py.int_of_float (time_time env) = Some seconds ->
  exists summary total st',
    let order_id := "ORD" +:+ Py.str seconds in
    let o := pending_order chat_id customer_name phone address (length (dicts st))
               total env in
    process_cash_on_delivery chat_id customer_name phone address cart
      special_instructions env st = Return true st'
    /\ order_tracking st' !! order_id = Some o
    /\ status o = "Pending"
    /\ outbox st'
       = outbox st
         ++ [(chat_int chat_id, msg_order_confirmed customer_name summary order_id total)]
         ++ admin_alert st order_id o (cart_items st cart)
    /\ (is_Some (user_carts st !! chat_id) ->
        exists empty, user_carts st' !! chat_id = Some empty /\ dict_at st' empty = [])
    /\ user_sessions st' !! chat_id = Some main_menu
    /\ sheet st' = Some rows
    /\ (ERROR, log_sheet_save_failed) ∈ log st'
    /\ (WARNING, log_sheets_failed_order_saved_locally) ∈ log st'
    /\ outbox st'
       = outbox (final_state
                   (process_cash_on_delivery chat_id customer_name phone address cart
                      special_instructions (with_append_row true env) st)).
Proof.
  intros Hsheet Hfail Hconv Hclock.
  destruct (process_cash_on_delivery_completes chat_id customer_name phone address cart
              special_instructions env st seconds Hconv Hclock)
    as (summary & total & st' & Hsummary & Hrun & Htrack & Hout & Hsess & Hcarts & Hdicts
        & Hlines & Hsheet' & Hmono & Hlog).
  destruct (process_cash_on_delivery_completes chat_id customer_name phone address cart
              special_instructions (with_append_row true env) st seconds Hconv Hclock)
    as (summary2 & total2 & st2 & Hsummary2 & Hrun2 & _ & Hout2 & _).
  cbn [summary_time with_append_row] in Hsummary2.
  assert (summary2 = summary /\ total2 = total) as [-> ->] by (split; congruence).
  exists summary, total, st'. cbn zeta.
  split; [exact Hrun|].
  split; [rewrite Htrack; apply lookup_insert_eq|].
  split; [reflexivity|].
  split; [exact Hout|].
  split.
  { intros [old Hold]. exists (S (length (dicts st))).
    rewrite Hold in Hcarts, Hdicts. rewrite Hcarts.
    split; [apply lookup_insert_eq|].
    unfold dict_at. rewrite Hdicts.
    rewrite (lookup_app_r (dicts st)) by lia.
    replace (S (length (dicts st)) - length (dicts st))%nat with 1%nat by lia.
    reflexivity. }
  split; [rewrite Hsess; apply lookup_insert_eq|].
  split; [rewrite Hsheet', Hsheet, Hfail; reflexivity|].
  destruct (Hlog (ex_intro _ rows Hsheet) Hfail) as [Herror Hwarning].
  split; [exact Herror|]. split; [exact Hwarning|].
  rewrite Hrun2. cbn [final_state]. rewrite Hout, Hout2. reflexivity.
Qed.

Lemma checkout_with_failed_append_witness :
  exists summary total st',
    process_cash_on_delivery 7 "Ann" "555-0100" "1 Main St" 0%nat ""
      (example_env quarter_past false) shopping_state = Return true st'
    /\ order_tracking st' !! "ORD1700000000"
       = Some (pending_order 7 "Ann" "555-0100" "1 Main St" 1%nat total
                 (example_env quarter_past false))
    /\ outbox st'
       = outbox shopping_state
         ++ [(chat_int 7, msg_order_confirmed "Ann" summary "ORD1700000000" total)]
         ++ admin_alert shopping_state "ORD1700000000"
              (pending_order 7 "Ann" "555-0100" "1 Main St" 1%nat total
                 (example_env quarter_past false))
              (cart_items shopping_state 0%nat)
    /\ sheet st' = Some []
    /\ (WARNING, log_sheets_failed_order_saved_locally) ∈ log st'.
Proof.
  assert (H1 : sheet shopping_state = Some []) by reflexivity.
  assert (H2 : append_row_ok (example_env quarter_past false) = false) by reflexivity.
  assert (H3 : Forall convertible (cart_values shopping_state 0%nat)).
  { apply (bool_decide_eq_true_1 (Forall convertible _)). vm_compute. reflexivity. }
  assert (H4 : Py.int_of_float (time_time (example_env quarter_past false))
               = Some 1700000000) by reflexivity.
  destruct (checkout_with_failed_append 7 "Ann" "555-0100" "1 Main St" 0%nat ""
              (example_env quarter_past false) shopping_state 1700000000 [] H1 H2 H3 H4)
    as (summary & total & st' & Hrun & Htrack & _ & Hout & _ & _ & Hsheet & _ & Hwarn & _).
  exists summary, total, st'. auto.
Defined.

(** C5 (as stated) fails: with an admin configured and the spreadsheet
    connected, a checkout whose append raises makes the same requests as one
    whose append succeeds, so nothing about the failure reaches the admin
    chat. *)
Lemma ledger_failure_not_surfaced :
  ~ ledger_failure_surfaced 7 "Ann" "555-0100" "1 Main St" 0%nat ""
      (example_env quarter_past false) shopping_state.
Proof.
  unfold ledger_failure_surfaced. intros Hdiffer. apply Hdiffer.
  vm_compute. reflexivity.
Qed.

(** *** Two checkouts in one second *)

(** C10. When two checkouts complete within the same second, the second
    order is stored under the id of the first and replaces its record: the
    tracker is what it would be had the first order never been stored, no
    id is added, and a record of the first customer that the tracker still
    holds was already there before the first checkout. *)
Theorem same_second_checkout_overwrites chat1 name1 phone1 address1 cart1 instructions1 env1
    chat2 name2 phone2 address2 cart2 instructions2 env2 st st1 st2 seconds :
  Py.int_of_float (time_time env1) = Some seconds ->
  Py.int_of_float (time_time env2) = Some seconds ->
  process_cash_on_delivery chat1 name1 phone1 address1 cart1 instructions1 env1 st
  = Return true st1 ->
  process_cash_on_delivery chat2 name2 phone2 address2 cart2 instructions2 env2 st1
  = Return true st2 ->
  exists total1 total2,
    let order_id := "ORD" +:+ Py.str seconds in
    let o1 := pending_order chat1 name1 phone1 address1 (length (dicts st)) total1 env1 in
    let o2 := pending_order chat2 name2 phone2 address2 (length (dicts st1)) total2 env2 in
    order_tracking st1 !! order_id = Some o1
    /\ order_tracking st2 !! order_id = Some o2
    /\ order_tracking st2 = <[order_id := o2]> (order_tracking st)
    /\ dom (order_tracking st2) = dom (order_tracking st1)
    /\ (chat1 <> chat2 ->
        forall id o, order_tracking st2 !! id = Some o -> chat_id o = chat1 ->
                     order_tracking st !! id = Some o).
Proof.
  intros Hclock1 Hclock2 Hrun1 Hrun2.
  destruct (process_cash_on_delivery_true_inv _ _ _ _ _ _ _ _ _ Hrun1) as [Hconv1 _].
  destruct (process_cash_on_delivery_true_inv _ _ _ _ _ _ _ _ _ Hrun2) as [Hconv2 _].
  destruct (process_cash_on_delivery_completes chat1 name1 phone1 address1 cart1
              instructions1 env1 st seconds Hconv1 Hclock1)
    as (summary1 & total1 & st1' & _ & Hrun1' & Htrack1 & _).
  destruct (process_cash_on_delivery_completes chat2 name2 phone2 address2 cart2
              instructions2 env2 st1 seconds Hconv2 Hclock2)
    as (summary2 & total2 & st2' & _ & Hrun2' & Htrack2 & _).
  assert (st1' = st1) as -> by congruence.
  assert (st2' = st2) as -> by congruence.
  exists total1, total2. cbn zeta.
  rewrite Htrack2, Htrack1, insert_insert_eq.
  split; [apply lookup_insert_eq|].
  split; [apply lookup_insert_eq|].
  split; [reflexivity|].
  split; [rewrite !dom_insert_L; set_solver|].
  intros Hne id o Hlook Hchat.
  destruct (decide (id = "ORD" +:+ Py.str seconds)) as [->|Hid].
  - rewrite lookup_insert_eq in Hlook. injection Hlook as <-.
    cbn in Hchat. congruence.
  - rewrite lookup_insert_ne in Hlook by congruence. exact Hlook.
Qed.

Lemma same_second_checkout_overwrites_witness :
  exists st1 st2 total1 total2,
    process_cash_on_delivery 7 "Ann" "555-0100" "1 Main St" 0%nat ""
      (example_env quarter_past true) two_shoppers_state = Return true st1
    /\ process_cash_on_delivery 8 "Bob" "555-0101" "2 Side St" 1%nat ""
         (example_env quarter_to true) st1 = Return true st2
    /\ order_tracking st1 !! "ORD1700000000"
       = Some (pending_order 7 "Ann" "555-0100" "1 Main St" 2%nat total1
                 (example_env quarter_past true))
    /\ order_tracking st2 !! "ORD1700000000"
       = Some (pending_order 8 "Bob" "555-0101" "2 Side St" 4%nat total2
                 (example_env quarter_to true))
    /\ dom (order_tracking st2) = dom (order_tracking st1).
Proof.
  pose (st1 := final_state
                 (process_cash_on_delivery 7 "Ann" "555-0100" "1 Main St" 0%nat ""
                    (example_env quarter_past true) two_shoppers_state)).
  pose (st2 := final_state
                 (process_cash_on_delivery 8 "Bob" "555-0101" "2 Side St" 1%nat ""
                    (example_env quarter_to true) st1)).
  assert (Hrun1 : process_cash_on_delivery 7 "Ann" "555-0100" "1 Main St" 0%nat ""
                    (example_env quarter_past true) two_shoppers_state = Return true st1)
    by (vm_compute; reflexivity).
  assert (Hrun2 : process_cash_on_delivery 8 "Bob" "555-0101" "2 Side St" 1%nat ""
                    (example_env quarter_to true) st1 = Return true st2)
    by (vm_compute; reflexivity).
  destruct (same_second_checkout_overwrites 7 "Ann" "555-0100" "1 Main St" 0%nat ""
              (example_env quarter_past true) 8 "Bob" "555-0101" "2 Side St" 1%nat ""
              (example_env quarter_to true) two_shoppers_state st1 st2 1700000000
              eq_refl eq_refl Hrun1 Hrun2)
    as (total1 & total2 & Ho1 & Ho2 & _ & Hdom & _).
  exists st1, st2, total1, total2.
  split; [exact Hrun1|]. split; [exact Hrun2|]. split; [exact Ho1|].
  split; [exact Ho2 | exact Hdom].
Defined.

(** *** What the checkout does about the shared lines *)

(** The checkout rebinds the customer's cart to a new dict, so the
    additions that this customer makes afterwards create new line objects:
    the lines of the stored order stay as they were. *)
Lemma checkout_then_add_keeps_order_lines chat_id customer_name phone address cart
    special_instructions env st st1 item_name seconds :
  is_Some (user_carts st !! chat_id) ->
  Forall (fun kv => (kv.2 < length (lines st))%nat) (dict_at st cart) ->
  Py.int_of_float (time_time env) = Some seconds ->
  process_cash_on_delivery chat_id customer_name phone address cart special_instructions
    env st = Return true st1 ->
  exists st2,
    handle_add_to_cart chat_id item_name st1 = Return tt st2
    /\ is_Some (order_lines st1 ("ORD" +:+ Py.str seconds))
    /\ order_lines st2 ("ORD" +:+ Py.str seconds)
       = order_lines st1 ("ORD" +:+ Py.str seconds).
Proof.
  intros [old Hold] Hlocs Hclock Hrun.
  destruct (process_cash_on_delivery_true_inv _ _ _ _ _ _ _ _ _ Hrun) as [Hconv _].
  destruct (process_cash_on_delivery_completes chat_id customer_name phone address cart
              special_instructions env st seconds Hconv Hclock)
    as (summary & total & st1' & _ & Hrun' & Htrack & _ & _ & Hcarts & Hdicts & Hlines & _).
  assert (st1' = st1) as -> by congruence.
  rewrite Hold in Hcarts, Hdicts.
  change (dicts st1 = dicts st ++ dict_at st cart :: [[]]) in Hdicts.
  assert (Hcart1 : user_carts st1 !! chat_id = Some (S (length (dicts st))))
    by (rewrite Hcarts; apply lookup_insert_eq).
  assert (Hempty : dict_at st1 (S (length (dicts st))) = []).
  { unfold dict_at. rewrite Hdicts, (lookup_app_r (dicts st)) by lia.
    replace (S (length (dicts st)) - length (dicts st))%nat with 1%nat by lia.
    reflexivity. }
  assert (Hcopy : forall ds, dicts ds = dicts st1 \/
                             (exists f, dicts ds = alter f (S (length (dicts st))) (dicts st1)) ->
                             dict_at ds (length (dicts st)) = dict_at st cart).
  { intros ds [Hds|[f Hds]]; unfold dict_at at 1; rewrite Hds.
    - rewrite Hdicts, list_lookup_middle by reflexivity. reflexivity.
    - rewrite list_lookup_alter_ne by lia.
      rewrite Hdicts, list_lookup_middle by reflexivity. reflexivity. }
  assert (Horder : forall st2,
            order_tracking st2 = order_tracking st1 ->
            dict_at st2 (length (dicts st)) = dict_at st cart ->
            (exists extra, lines st2 = lines st ++ extra) ->
            order_lines st2 ("ORD" +:+ Py.str seconds)
            = Some (cart_items st cart)).
  { intros st2 Ht Hd [extra Hl]. unfold order_lines. rewrite Ht, Htrack, lookup_insert_eq.
    cbn. f_equal. unfold cart_items. rewrite Hd.
    apply Forall_fmap_ext. eapply Forall_impl; [exact Hlocs|].
    intros kv Hkv. cbn. unfold line_at. rewrite Hl, lookup_app_l by exact Hkv.
    reflexivity. }
  assert (Hlines1 : order_lines st1 ("ORD" +:+ Py.str seconds) = Some (cart_items st cart)).
  { apply Horder; [reflexivity | apply Hcopy; auto |].
    exists []. rewrite Hlines, app_nil_r. reflexivity. }
  rewrite Hlines1.
  destruct (find_item grocery_categories item_name) as [item_details|] eqn:Hfind.
  - eexists. split.
    + apply (handle_add_to_cart_new_line st1 chat_id item_name item_details
               (S (length (dicts st))) Hfind Hcart1).
      rewrite Hempty. reflexivity.
    + split; [eauto|]. apply Horder; [reflexivity | apply Hcopy; right; eauto |].
      cbn. rewrite Hlines. eauto.
  - eexists. split.
    + unfold handle_add_to_cart. rewrite Hfind. simpl_m. rewrite send_message_eq.
      reflexivity.
    + split; [eauto|]. apply Horder; [reflexivity | apply Hcopy; auto |].
      exists []. cbn. rewrite Hlines, app_nil_r. reflexivity.
Qed.

(** *** Well-formed stores *)

Lemma wf_fresh_state : wf fresh_state.
Proof.
  split; [|split]; [intros c d H; discriminate H | intros id o H; discriminate H |].
  constructor.
Qed.

(** A checkout that cannot price the cart or read the clock reports the
    error to the customer and changes nothing else. *)
Lemma process_cash_on_delivery_fails chat_id customer_name phone address cart
    special_instructions env st :
  ~ Forall convertible (cart_values st cart) \/ Py.int_of_float (time_time env) = None ->
  process_cash_on_delivery chat_id customer_name phone address cart special_instructions
    env st
  = Return false
      (sent (chat_int chat_id) msg_order_error
         (set_log (log st ++ [(ERROR, log_cod_critical_error);
                              (ERROR, log_cod_error_details)]) st)).
Proof.
  intros Hfail. unfold process_cash_on_delivery. simpl_m.
  destruct (decide (Forall convertible (cart_values st cart))) as [Hconv|Hnot].
  - destruct Hfail as [Hnot|Hclock]; [contradiction|].
    destruct (create_enhanced_order_summary_returns customer_name phone address cart
                special_instructions (summary_time env) st Hconv)
      as (items_text & missing & total & Hrun & _).
    rewrite Hrun. cbv beta iota. unfold generate_order_id. simpl_m. rewrite Hclock.
    cbv beta iota. rewrite send_message_eq. cbn. rewrite <- app_assoc. reflexivity.
  - rewrite (create_enhanced_order_summary_raises _ _ _ _ _ _ _ Hnot).
    rewrite send_message_eq. cbn. rewrite <- app_assoc. reflexivity.
Qed.

Lemma Forall_lines_mono (n n' : nat) (d : cart_dict) :
  (n <= n')%nat ->
  Forall (fun kv : string * loc => (kv.2 < n)%nat) d ->
  Forall (fun kv : string * loc => (kv.2 < n')%nat) d.
Proof.
  intros Hn H. eapply Forall_impl; [exact H|]. intros kv Hkv. cbn in *. lia.
Qed.

(** Additions to a cart keep the stores well formed. *)
Lemma handle_add_to_cart_wf chat_id item_name st :
  wf st -> wf (final_state (handle_add_to_cart chat_id item_name st)).
Proof.
  intros (Hcarts & Horders & Hdicts).
  destruct (find_item grocery_categories item_name) as [item_details|] eqn:Hfind.
  - destruct (user_carts st !! chat_id) as [cart|] eqn:Hcart.
    + destruct (dict_get item_name (dict_at st cart)) as [l|] eqn:Hget.
      * rewrite (handle_add_to_cart_increment st chat_id item_name item_details cart l
                   Hfind Hcart Hget).
        split; [|split]; cbn; rewrite ?length_alter; assumption.
      * rewrite (handle_add_to_cart_new_line st chat_id item_name item_details cart
                   Hfind Hcart Hget).
        split; [|split]; cbn; rewrite ?length_alter, ?length_app; [assumption..|].
        apply Forall_alter.
        -- eapply Forall_impl; [exact Hdicts|]. intros d.
           apply Forall_lines_mono. cbn. lia.
        -- intros d Hd Hold. apply Forall_app. split; [exact Hold|].
           constructor; [cbn; lia | constructor].
    + rewrite (handle_add_to_cart_no_cart st chat_id item_name item_details Hfind Hcart).
      split; [|split]; cbn; rewrite ?length_app; cbn.
      * intros c d Hc. destruct (decide (chat_id = c)) as [->|Hne].
        -- rewrite lookup_insert_eq in Hc. injection Hc as <-. lia.
        -- rewrite lookup_insert_ne in Hc by exact Hne. specialize (Hcarts c d Hc). lia.
      * intros id o Ho. specialize (Horders id o Ho). lia.
      * apply Forall_app. split.
        -- eapply Forall_impl; [exact Hdicts|]. intros d.
           apply Forall_lines_mono. lia.
        -- repeat constructor. cbn. lia.
  - unfold handle_add_to_cart. rewrite Hfind. simpl_m. rewrite send_message_eq.
    split; [|split]; assumption.
Qed.

(** A checkout keeps the stores well formed, whether it completes or
    reports an error. *)
Lemma process_cash_on_delivery_wf chat_id customer_name phone address cart
    special_instructions env st :
  wf st ->
  wf (final_state (process_cash_on_delivery chat_id customer_name phone address cart
                     special_instructions env st)).
Proof.
  intros (Hcarts & Horders & Hdicts).
  destruct (decide (Forall convertible (cart_values st cart))) as [Hconv|Hnot];
    [destruct (Py.int_of_float (time_time env)) as [seconds|] eqn:Hclock|].
  - destruct (process_cash_on_delivery_completes chat_id customer_name phone address cart
                special_instructions env st seconds Hconv Hclock)
      as (summary & total & st' & _ & Hrun & Htrack & _ & _ & Hcarts' & Hdicts' & Hlines'
          & _).
    rewrite Hrun. cbn [final_state].
    assert (Hlen : (length (dicts st) < length (dicts st'))%nat)
      by (rewrite Hdicts', length_app; cbn; lia).
    split; [|split].
    + intros c d Hc. rewrite Hcarts' in Hc.
      destruct (user_carts st !! chat_id) as [old|] eqn:Hold.
      * destruct (decide (chat_id = c)) as [->|Hne].
        -- rewrite lookup_insert_eq in Hc. injection Hc as <-.
           rewrite Hdicts', !length_app. cbn. lia.
        -- rewrite lookup_insert_ne in Hc by exact Hne. specialize (Hcarts c d Hc). lia.
      * specialize (Hcarts c d Hc). lia.
    + intros id o Ho. rewrite Htrack in Ho.
      destruct (decide ("ORD" +:+ Py.str seconds = id)) as [<-|Hne].
      * rewrite lookup_insert_eq in Ho. injection Ho as <-. cbn. exact Hlen.
      * rewrite lookup_insert_ne in Ho by exact Hne. specialize (Horders id o Ho). lia.
    + rewrite Hdicts', Hlines'. apply Forall_app. split; [exact Hdicts|].
      apply Forall_app. split.
      * constructor; [|constructor]. unfold dict_at.
        destruct (dicts st !! cart) as [d|] eqn:Hd; [|constructor].
        rewrite Forall_lookup in Hdicts. exact (Hdicts _ _ Hd).
      * destruct (user_carts st !! chat_id); repeat constructor.
  - rewrite process_cash_on_delivery_fails by auto.
    split; [|split]; assumption.
  - rewrite process_cash_on_delivery_fails by auto.
    split; [|split]; assumption.
Qed.

(** ** The dialogue, the admin's actions and the polling loop *)

(** *** What a handler leaves as it was *)

(** The relations are reflexive and transitive. *)
#[export] Instance frame_preorder : PreOrder frame.
Proof.
  split.
  - intros st. unfold frame, no_new_cancel. auto 12.
  - intros st1 st2 st3 (?&?&?&?&?&?&?&?&H12) (?&?&?&?&?&?&?&?&H23).
    unfold frame, no_new_cancel in *. repeat (split; [congruence|]). auto.
Qed.

#[export] Instance same_data_preorder who : PreOrder (same_data who).
Proof.
  split.
  - intros st. unfold same_data. auto 10.
  - intros st1 st2 st3 (?&?&?&?&H12&S12) (?&?&?&?&H23&S23).
    unfold same_data. do 4 (split; [congruence|]). split.
    + intros id. rewrite H23. apply H12.
    + intros c id Hc. destruct (S23 c id Hc) as [Hc'|?]; auto.
Qed.

Lemma frame_same_data who st st' : frame st st' -> same_data who st st'.
Proof.
  intros (?&?&?&?&?&?&Ho&_&Hs). unfold same_data. do 4 (split; [assumption|]). split.
  - intros id. rewrite Ho. reflexivity.
  - intros c id Hc. left. apply Hs, Hc.
Qed.

(** A reflexive and transitive relation holds across a computation when it
    holds across its parts. *)
Section Keeps.
Context (R : state -> state -> Prop) `{!PreOrder R}.

Lemma keeps_ret {A} (a : A) : keeps R (ret a).
Proof. intros st. reflexivity. Qed.

Lemma keeps_raise {A} : keeps R (@raise A).
Proof. intros st. reflexivity. Qed.

Lemma keeps_bind {A B} (m : M A) (k : A -> M B) :
  keeps R m -> (forall a, keeps R (k a)) -> keeps R (m ≫= k).
Proof.
  intros Hm Hk st. specialize (Hm st). simpl_m.
  destruct (m st) as [a st1|st1]; cbn in *; [|exact Hm].
  etransitivity; [exact Hm | apply Hk].
Qed.

Lemma keeps_try_except {A} (m handler : M A) :
  keeps R m -> keeps R handler -> keeps R (try_except m handler).
Proof.
  intros Hm Hh st. specialize (Hm st). unfold try_except.
  destruct (m st) as [a st1|st1]; cbn in *; [exact Hm|].
  etransitivity; [exact Hm | apply Hh].
Qed.

Lemma keeps_get {A} (k : state -> M A) :
  (forall s, keeps R (k s)) -> keeps R (get ≫= k).
Proof. intros Hk st. simpl_m. apply Hk. Qed.

Lemma keeps_modify (f : state -> state) :
  (forall st, R st (f st)) -> keeps R (modify f).
Proof. intros Hf st. apply Hf. Qed.

Lemma keeps_eval {A} (o : option A) : keeps R (eval o).
Proof. intros st. destruct o; reflexivity. Qed.

Lemma keeps_send_message c m :
  (forall st, R st (sent c m st)) -> keeps R (send_message c m).
Proof. intros H st. rewrite send_message_eq. apply H. Qed.
End Keeps.

Create HintDb keeps discriminated.

(** A leaf of a handler: the relation holds across one assignment. *)
Ltac keeps_leaf :=
  intros ?; unfold frame, same_data, no_new_cancel, same_admin, cart_only; cbn;
  repeat match goal with |- _ /\ _ => split end;
  try reflexivity;
  try (intros ? ? [[_ ?]|[_ ?]]%lookup_insert_Some; [discriminate | assumption]);
  try (intros ? ? [[_ ?]|[_ ?]]%lookup_insert_Some; [discriminate | left; assumption]);
  try (intros ? ? [[-> _]|[_ ?]]%lookup_insert_Some;
       [right; reflexivity | left; assumption]);
  try (intros ? ? ?; assumption);
  try (intros ? ? ?; left; assumption).

(** [frame] between two states given by setters. *)
Ltac frame_solve :=
  unfold frame, no_new_cancel, cleared; cbn;
  repeat match goal with |- _ /\ _ => split end;
  try reflexivity; try (intros ? ? ?; assumption).

(** One rule, chosen by the shape of the computation. *)
Ltac keeps_step :=
  lazymatch goal with
  | |- keeps _ (let _ := _ in _) => cbv zeta
  | |- keeps _ (mbind _ get) => apply keeps_get; intros ?
  | |- keeps _ (mbind _ _) => apply keeps_bind; [typeclasses eauto| |intros ?]
  | |- keeps _ (try_except _ _) => apply keeps_try_except; [typeclasses eauto| |]
  | |- keeps _ (ret _) => apply keeps_ret; typeclasses eauto
  | |- keeps _ raise => apply keeps_raise; typeclasses eauto
  | |- keeps _ (eval _) => apply keeps_eval; typeclasses eauto
  | |- keeps _ (when ?b _) => unfold when; destruct b eqn:?
  | |- keeps _ (if ?b then _ else _) => destruct b eqn:?
  | |- keeps _ (match ?x with _ => _ end) => destruct x eqn:?
  | |- keeps _ (send_message _ _) => apply keeps_send_message; keeps_leaf
  | |- keeps _ (logger _ _) => apply keeps_modify; keeps_leaf
  | |- keeps _ (modify _) => apply keeps_modify; keeps_leaf
  | |- keeps _ _ => solve [auto with keeps]
  end.

Lemma keeps_frame_handle_start c : keeps frame (handle_start c).
Proof. unfold handle_start. repeat keeps_step. Qed.

Lemma keeps_frame_show_categories c : keeps frame (show_categories c).
Proof. unfold show_categories. repeat keeps_step. Qed.

Lemma keeps_frame_show_cart c : keeps frame (show_cart c).
Proof. unfold show_cart. repeat keeps_step. Qed.

Lemma keeps_frame_show_category_items c category :
  keeps frame (show_category_items c category).
Proof. unfold show_category_items. repeat keeps_step. Qed.

#[export] Hint Resolve keeps_frame_handle_start keeps_frame_show_categories
  keeps_frame_show_cart keeps_frame_show_category_items : keeps.

Lemma keeps_frame_handle_checkout c : keeps frame (handle_checkout c).
Proof. unfold handle_checkout. repeat keeps_step. Qed.

#[export] Hint Resolve keeps_frame_handle_checkout : keeps.

Lemma keeps_frame_notify order_id new_status admin_note :
  keeps frame (notify_customer_order_update order_id new_status admin_note).
Proof. unfold notify_customer_order_update. repeat keeps_step. Qed.

#[export] Hint Resolve keeps_frame_notify : keeps.

Lemma final_state_get {A} (k : state -> M A) (st : state) :
  final_state ((get ≫= k) st) = final_state (k st st).
Proof. reflexivity. Qed.

Lemma final_state_modify {A} (f : state -> state) (k : unit -> M A) (st : state) :
  final_state ((modify f ≫= k) st) = final_state (k tt (f st)).
Proof. reflexivity. Qed.

Lemma keeps_from {A} (R : state -> state -> Prop) `{!PreOrder R} (m : M A) st st1 :
  R st st1 -> keeps R m -> R st (final_state (m st1)).
Proof. intros H Hm. etransitivity; [exact H | apply Hm]. Qed.

Lemma keeps_same_data_frame {A} who (m : M A) : keeps frame m -> keeps (same_data who) m.
Proof. intros H st. apply frame_same_data, H. Qed.

Lemma keeps_same_data_update_order_status who order_id new_status admin_note now
    sheet_answers :
  keeps (same_data who)
    (update_order_status order_id new_status admin_note now sheet_answers).
Proof.
  intros st. unfold update_order_status. rewrite final_state_get. cbv beta.
  destruct (order_tracking st !! order_id) as [o|] eqn:Ho; [|reflexivity].
  cbv zeta. rewrite final_state_modify.
  apply keeps_from; [typeclasses eauto| |].
  - unfold same_data. cbn. do 4 (split; [reflexivity|]). split; [|auto]. intros id.
    destruct (decide (order_id = id)) as [<-|Hne].
    + rewrite lookup_insert_eq, Ho. reflexivity.
    + rewrite lookup_insert_ne by exact Hne. reflexivity.
  - repeat keeps_step. apply keeps_same_data_frame. auto with keeps.
Qed.

#[export] Hint Resolve keeps_same_data_update_order_status : keeps.

Lemma process_cash_on_delivery_returns chat_id customer_name phone address cart
    special_instructions env st :
  exists b st',
    process_cash_on_delivery chat_id customer_name phone address cart
      special_instructions env st = Return b st'.
Proof.
  destruct (decide (Forall convertible (cart_values st cart))) as [Hconv|Hnot];
    [destruct (Py.int_of_float (time_time env)) as [seconds|] eqn:Hclock|].
  - destruct (process_cash_on_delivery_completes chat_id customer_name phone address cart
                special_instructions env st seconds Hconv Hclock)
      as (summary & total & st' & _ & Hrun & _).
    eauto.
  - rewrite process_cash_on_delivery_fails by auto. eauto.
  - rewrite process_cash_on_delivery_fails by auto. eauto.
Qed.

Lemma free_text_inv text :
  free_text text = true ->
  bool_decide (text = "/start") = false
  /\ bool_decide (text = SHOP_GROCERIES) = false
  /\ bool_decide (text = MY_CART) = false
  /\ bool_decide (text = TRACK_ORDER) = false
  /\ bool_decide (text = MAIN_MENU) = false
  /\ bool_decide (text = CONTINUE_SHOPPING) = false
  /\ bool_decide (text = ADD_MORE_ITEMS) = false
  /\ bool_decide (text = CLEAR_CART) = false
  /\ bool_decide (text = CHECKOUT_NOW) = false
  /\ bool_decide (text = CHECKOUT) = false
  /\ bool_decide (is_Some (dict_get text grocery_categories)) = false.
Proof.
  unfold free_text. intros H.
  repeat match type of H with
         | _ && _ = true => apply andb_prop in H; destruct H as [H ?]
         end.
  repeat match goal with
         | H : negb _ = true |- _ => apply negb_true_iff in H
         end.
  auto 20.
Qed.

(** The handler of [handle_message]'s [except] clause. *)
Lemma keeps_frame_handler c :
  keeps frame (logger ERROR log_handle_message_error;;
               send_message (chat_int c) msg_error;;
               handle_start c).
Proof. repeat keeps_step. Qed.

Lemma final_state_try_except {A} (m h : M A) (st : state) :
  final_state (try_except m h st)
  = match m st with
    | Return _ st1 => st1
    | Raise st1 => final_state (h st1)
    end.
Proof. unfold try_except. destruct (m st); reflexivity. Qed.

Lemma try_except_get {A} (k : state -> M A) (h : M A) (st : state) :
  try_except (get ≫= k) h st = try_except (k st) h st.
Proof. reflexivity. Qed.

Lemma handle_message_cases c text env now sheet_answers st :
  let st' := final_state (handle_message c text env now sheet_answers st) in
  frame st st'
  \/ (exists d, text = CLEAR_CART /\ user_carts st !! c = Some d /\ frame (cleared c st) st')
  \/ (exists n p a d instructions,
        free_text text = true
        /\ user_sessions st !! c = Some (awaiting_instructions n p a)
        /\ user_carts st !! c = Some d
        /\ st' = final_state (process_cash_on_delivery c n p a d instructions env st))
  \/ (exists order_id,
        free_text text = true
        /\ user_sessions st !! c = Some (awaiting_cancel_reason order_id)
        /\ same_data (fun _ => False) st st').
Proof.
  cbv zeta.
  pose proof (keeps_frame_handler c) as Hh.
  assert (Hfree : free_text text = true \/ free_text text = false)
    by (destruct (free_text text); auto).
  unfold handle_message.
  destruct (bool_decide (text = "/start")) eqn:E1;
    [left; apply keeps_try_except; [typeclasses eauto|auto with keeps|exact Hh]|].
  destruct (bool_decide (text = SHOP_GROCERIES)) eqn:E2;
    [left; apply keeps_try_except; [typeclasses eauto|auto with keeps|exact Hh]|].
  destruct (bool_decide (text = MY_CART)) eqn:E3;
    [left; apply keeps_try_except; [typeclasses eauto|auto with keeps|exact Hh]|].
  destruct (bool_decide (text = TRACK_ORDER)) eqn:E4;
    [left; apply keeps_try_except; [typeclasses eauto|repeat keeps_step|exact Hh]|].
  destruct (bool_decide (text = MAIN_MENU)) eqn:E5;
    [left; apply keeps_try_except; [typeclasses eauto|auto with keeps|exact Hh]|].
  destruct (bool_decide (text = CONTINUE_SHOPPING)) eqn:E6;
    [left; apply keeps_try_except; [typeclasses eauto|auto with keeps|exact Hh]|].
  destruct (bool_decide (text = ADD_MORE_ITEMS)) eqn:E7;
    [left; apply keeps_try_except; [typeclasses eauto|auto with keeps|exact Hh]|].
  destruct (bool_decide (text = CLEAR_CART)) eqn:E8.
  { apply bool_decide_eq_true_1 in E8.
    rewrite final_state_try_except. unfold show_categories, alloc_dict. simpl_m.
    destruct (user_carts st !! c) as [d|] eqn:Hd.
    - rewrite bool_decide_eq_true_2 by eauto. rewrite !send_message_eq.
      right. left. exists d. split; [assumption|]. split; [reflexivity|]. frame_solve.
    - rewrite bool_decide_eq_false_2 by (intros [? ?]; discriminate).
      cbv beta iota. rewrite !send_message_eq. left. frame_solve. }
  destruct (bool_decide (text = CHECKOUT_NOW)) eqn:E9; cbn [orb];
    [left; apply keeps_try_except; [typeclasses eauto|auto with keeps|exact Hh]|].
  destruct (bool_decide (text = CHECKOUT)) eqn:E10;
    [left; apply keeps_try_except; [typeclasses eauto|auto with keeps|exact Hh]|].
  destruct (bool_decide (is_Some (dict_get text grocery_categories))) eqn:E11;
    [left; apply keeps_try_except; [typeclasses eauto|auto with keeps|exact Hh]|].
  assert (Hfree' : free_text text = true)
    by (unfold free_text; rewrite E1, E2, E3, E4, E5, E6, E7, E8, E9, E10, E11; reflexivity).
  clear Hfree. cbn [orb]. rewrite try_except_get. cbv beta.
  destruct (user_sessions st !! c) as [[| | | | |n p a|order_id]|] eqn:Hs.
  1-5, 8: left; apply keeps_try_except; [typeclasses eauto|repeat keeps_step|exact Hh].
  - destruct (user_carts st !! c) as [d|] eqn:Hd.
    + right. right. left.
      exists n, p, a, d, (if bool_decide (lower text = "none") then EmptyString else text).
      split; [assumption|]. split; [reflexivity|]. split; [reflexivity|].
      rewrite final_state_try_except. simpl_m.
      destruct (process_cash_on_delivery_returns c n p a d
                  (if bool_decide (lower text = "none") then EmptyString else text) env st)
        as (b & st1 & Hrun).
      rewrite Hrun. reflexivity.
    + left. rewrite final_state_try_except. simpl_m. apply Hh.
  - right. right. right. exists order_id. split; [assumption|]. split; [reflexivity|].
    apply keeps_try_except; [typeclasses eauto| |apply keeps_same_data_frame, Hh].
    repeat keeps_step.
Qed.

(** *** Separate carts *)

Lemma wf_cart_bound st c d :
  wf st -> user_carts st !! c = Some d -> (d < length (dicts st))%nat.
Proof. intros (H & _ & _). apply H. Qed.

Lemma wf_order_bound st id o :
  wf st -> order_tracking st !! id = Some o -> (cart o < length (dicts st))%nat.
Proof. intros (_ & H & _). apply H. Qed.

Lemma wf_loc_bound st d l :
  wf st -> l ∈ locs_of st d -> (l < length (lines st))%nat.
Proof.
  intros (_ & _ & H) Hl. unfold locs_of, dict_at in Hl.
  destruct (dicts st !! d) as [dict|] eqn:Hd; [|cbn in Hl; set_solver].
  cbn in Hl. apply list_elem_of_fmap in Hl as (kv & -> & Hkv).
  rewrite Forall_lookup in H. specialize (H _ _ Hd).
  rewrite Forall_forall in H. apply H, Hkv.
Qed.

Lemma cart_items_ext st st' d :
  dict_at st' d = dict_at st d ->
  (forall l, l ∈ locs_of st d -> line_at st' l = line_at st l) ->
  cart_items st' d = cart_items st d.
Proof.
  intros Hd Hl. unfold cart_items. rewrite Hd.
  apply list_fmap_ext. intros i kv Hkv. rewrite Hl; [reflexivity|].
  unfold locs_of. apply list_elem_of_fmap. exists kv. split; [reflexivity|].
  eapply list_elem_of_lookup_2, Hkv.
Qed.

Lemma dict_at_app_l st st' extra d :
  dicts st' = dicts st ++ extra -> (d < length (dicts st))%nat ->
  dict_at st' d = dict_at st d.
Proof. intros H Hd. unfold dict_at. rewrite H, lookup_app_l by exact Hd. reflexivity. Qed.

(** Rebinding a customer's cart to a new, empty dict object, with or
    without storing an order on a new copy of the old one. *)
Lemma separated_rebind st st' c dnew :
  wf st -> separated st ->
  user_carts st' = <[c := dnew]> (user_carts st) ->
  (length (dicts st) <= dnew)%nat ->
  locs_of st' dnew = [] ->
  (forall d, (d < length (dicts st))%nat -> locs_of st' d = locs_of st d) ->
  (order_tracking st' = order_tracking st
   \/ exists id o d0,
        order_tracking st' = <[id := o]> (order_tracking st)
        /\ (length (dicts st) <= cart o)%nat /\ cart o <> dnew
        /\ user_carts st !! c = Some d0
        /\ locs_of st' (cart o) = locs_of st d0) ->
  separated st'.
Proof.
  intros Hwf (S1 & S2 & S3 & S4) Hcarts Hnew Hempty Hlocs Horders.
  assert (Hc : forall c1 d1, user_carts st' !! c1 = Some d1 ->
            (c1 = c /\ d1 = dnew) \/ (c1 <> c /\ user_carts st !! c1 = Some d1)).
  { intros c1 d1. rewrite Hcarts. intros [[-> <-]|[? ?]]%lookup_insert_Some; auto. }
  assert (Ho : forall id1 o1, order_tracking st' !! id1 = Some o1 ->
            order_tracking st !! id1 = Some o1
            \/ ((length (dicts st) <= cart o1)%nat /\ cart o1 <> dnew
                /\ exists d0, user_carts st !! c = Some d0
                              /\ locs_of st' (cart o1) = locs_of st d0)).
  { intros id1 o1 H1. destruct Horders as [Heq|(id & o & d0 & Heq & ? & ? & ? & ?)];
      rewrite Heq in H1; [auto|].
    apply lookup_insert_Some in H1 as [[_ <-]|[_ ?]]; eauto 10. }
  split; [|split; [|split]].
  - intros c1 c2 d H1 H2.
    destruct (Hc _ _ H1) as [[-> ->]|[? H1']], (Hc _ _ H2) as [[-> ?]|[? H2']]; subst.
    + reflexivity.
    + pose proof (wf_cart_bound _ _ _ Hwf H2'). lia.
    + pose proof (wf_cart_bound _ _ _ Hwf H1'). lia.
    + eauto.
  - intros c1 d id1 o1 H1 H2 Heq.
    destruct (Hc _ _ H1) as [[-> ->]|[? H1']], (Ho _ _ H2) as [H2'|(? & ? & ?)].
    + pose proof (wf_order_bound _ _ _ Hwf H2'). lia.
    + congruence.
    + eapply S2; eauto.
    + pose proof (wf_cart_bound _ _ _ Hwf H1'). lia.
  - intros c1 c2 d1 d2 Hne H1 H2.
    destruct (Hc _ _ H1) as [[-> ->]|[? H1']], (Hc _ _ H2) as [[-> ->]|[? H2']].
    + congruence.
    + rewrite Hempty. set_solver.
    + rewrite Hempty. set_solver.
    + rewrite !Hlocs by (eapply wf_cart_bound; eauto). eauto.
  - intros c1 d id1 o1 H1 H2.
    destruct (Hc _ _ H1) as [[-> ->]|[? H1']]; [rewrite Hempty; set_solver|].
    rewrite (Hlocs d) by (eapply wf_cart_bound; eauto).
    destruct (Ho _ _ H2) as [H2'|(? & ? & d0 & Hd0 & ->)].
    + rewrite Hlocs by (eapply wf_order_bound; eauto). eauto.
    + eapply S3; eauto.
Qed.

(** A new line object appended to the dict object of one customer. *)
Lemma separated_new_line st st' c d0 k m :
  wf st -> separated st ->
  user_carts st' = user_carts st ->
  order_tracking st' = order_tracking st ->
  user_carts st !! c = Some d0 ->
  (length (lines st) <= m)%nat ->
  dict_at st' d0 = dict_at st d0 ++ [(k, m)] ->
  (forall d, d <> d0 -> dict_at st' d = dict_at st d) ->
  separated st'.
Proof.
  intros Hwf (S1 & S2 & S3 & S4) Hcarts Horders Hc Hm Hd0 Hd.
  assert (Hl0 : locs_of st' d0 = locs_of st d0 ++ [m])
    by (unfold locs_of; rewrite Hd0, fmap_app; reflexivity).
  assert (Hl : forall d, d <> d0 -> locs_of st' d = locs_of st d)
    by (intros d Hne; unfold locs_of; rewrite Hd by exact Hne; reflexivity).
  assert (Hfresh : forall d, m ∉ locs_of st d).
  { intros d Hin. pose proof (wf_loc_bound _ _ _ Hwf Hin). lia. }
  split; [|split; [|split]]; rewrite ?Hcarts, ?Horders.
  - exact S1.
  - exact S2.
  - intros c1 c2 d1 d2 Hne H1 H2.
    pose proof (S3 _ _ _ _ Hne H1 H2) as Hdisj.
    destruct (decide (d1 = d0)) as [->|Hne1], (decide (d2 = d0)) as [->|Hne2].
    + exfalso. apply Hne. eauto.
    + rewrite Hl0, (Hl d2) by exact Hne2.
      intros l [Hin| ->%list_elem_of_singleton]%elem_of_app Hin2;
        [eapply Hdisj; eauto | eapply Hfresh; eauto].
    + rewrite Hl0, (Hl d1) by exact Hne1.
      intros l Hin1 [Hin| ->%list_elem_of_singleton]%elem_of_app;
        [eapply Hdisj; eauto | eapply Hfresh; eauto].
    + rewrite (Hl d1), (Hl d2) by assumption. exact Hdisj.
  - intros c1 d1 id o H1 H2.
    pose proof (S4 _ _ _ _ H1 H2) as Hdisj.
    assert (Hne2 : cart o <> d0) by (eapply S2; eauto).
    rewrite (Hl (cart o)) by exact Hne2.
    destruct (decide (d1 = d0)) as [->|Hne1].
    + rewrite Hl0.
      intros l [Hin| ->%list_elem_of_singleton]%elem_of_app Hin2;
        [eapply Hdisj; eauto | eapply Hfresh; eauto].
    + rewrite (Hl d1) by exact Hne1. exact Hdisj.
Qed.

Lemma separated_same_data who st st' :
  same_data who st st' -> separated st -> separated st'.
Proof.
  intros (_ & Hlines & Hdicts & Hcarts & Horders & _) (S1 & S2 & S3 & S4).
  assert (Hl : forall d, locs_of st' d = locs_of st d)
    by (intros d; unfold locs_of, dict_at; rewrite Hdicts; reflexivity).
  assert (Ho : forall id o', order_tracking st' !! id = Some o' ->
            exists o, order_tracking st !! id = Some o /\ cart o = cart o').
  { intros id o' H'. specialize (Horders id). rewrite H' in Horders. cbn in Horders.
    destruct (order_tracking st !! id) as [o|]; [|discriminate].
    injection Horders as Heq. eauto. }
  split; [|split; [|split]]; rewrite ?Hcarts.
  - exact S1.
  - intros c d id o' H1 H2. destruct (Ho _ _ H2) as (o & Hin & <-). eauto.
  - intros c1 c2 d1 d2 Hne H1 H2. rewrite !Hl. eauto.
  - intros c d id o' H1 H2. destruct (Ho _ _ H2) as (o & Hin & <-). rewrite !Hl. eauto.
Qed.

Lemma wf_same_data who st st' : same_data who st st' -> wf st -> wf st'.
Proof.
  intros (_ & Hlines & Hdicts & Hcarts & Horders & _) (W1 & W2 & W3).
  split; [|split]; rewrite ?Hcarts, ?Hdicts, ?Hlines; [exact W1| |exact W3].
  intros id o' H'. specialize (Horders id). rewrite H' in Horders. cbn in Horders.
  destruct (order_tracking st !! id) as [o|] eqn:Ho; [|discriminate].
  injection Horders as ->. eauto.
Qed.

Lemma cart_items_same_data who st st' d :
  same_data who st st' -> cart_items st' d = cart_items st d.
Proof.
  intros (_ & Hlines & Hdicts & _). unfold cart_items, dict_at, line_at.
  rewrite Hlines, Hdicts. reflexivity.
Qed.

Lemma stable_same_data who st st' : same_data who st st' -> stable st st'.
Proof. intros H id o _. eapply cart_items_same_data, H. Qed.

Lemma stable_then_same_data who st st1 st2 :
  stable st st1 -> same_data who st1 st2 -> stable st st2.
Proof.
  intros H1 H2 id o Ho. rewrite (cart_items_same_data who st1 st2) by exact H2. eauto.
Qed.

Lemma wf_cleared c st : wf st -> wf (cleared c st).
Proof.
  intros (W1 & W2 & W3). split; [|split]; cbn; rewrite ?length_app; cbn.
  - intros c1 d [[_ <-]|[_ H]]%lookup_insert_Some; [lia|]. specialize (W1 _ _ H). lia.
  - intros id o H. specialize (W2 _ _ H). lia.
  - apply Forall_app. split; [exact W3|]. repeat constructor.
Qed.

Lemma dict_at_cleared c st d : dict_at (cleared c st) d = dict_at st d.
Proof.
  unfold dict_at, cleared. cbn.
  destruct (decide (d < length (dicts st))%nat) as [Hlt|Hge].
  - rewrite lookup_app_l by exact Hlt. reflexivity.
  - rewrite (lookup_ge_None_2 (dicts st) d) by lia.
    destruct (decide (d = length (dicts st))) as [->|Hne].
    + rewrite list_lookup_middle by reflexivity. reflexivity.
    + rewrite lookup_ge_None_2; [reflexivity|]. rewrite length_app. cbn. lia.
Qed.

Lemma separated_cleared c st : wf st -> separated st -> separated (cleared c st).
Proof.
  intros Hwf Hsep.
  apply (separated_rebind st (cleared c st) c (length (dicts st)) Hwf Hsep); auto.
  - unfold locs_of. rewrite dict_at_cleared. unfold dict_at.
    rewrite lookup_ge_None_2 by lia. reflexivity.
  - intros d _. unfold locs_of. rewrite dict_at_cleared. reflexivity.
Qed.

Lemma stable_cleared c st : stable st (cleared c st).
Proof.
  intros id o _. apply cart_items_ext; [apply dict_at_cleared | reflexivity].
Qed.

(** *** The cases of the callback handlers *)

Lemma handle_admin_callback_cases c callback_data now sheet_answers st :
  let st' := final_state (handle_admin_callback c callback_data now sheet_answers st) in
  (not_admin st c = true /\ frame st st')
  \/ (not_admin st c = false /\ same_data (eq c) st st').
Proof.
  cbv zeta. unfold handle_admin_callback. rewrite final_state_get. cbv beta.
  destruct (not_admin st c) eqn:Hadmin.
  - left. split; [reflexivity|].
    match goal with
    | |- frame st (final_state (?m st)) => enough (keeps frame m) as K by apply K
    end.
    repeat keeps_step.
  - right. split; [reflexivity|].
    match goal with
    | |- same_data _ st (final_state (?m st)) =>
        enough (keeps (same_data (eq c)) m) as K by apply K
    end.
    repeat keeps_step.
Qed.

Lemma handle_callback_query_cases c callback_data now sheet_answers st :
  let st' := final_state (handle_callback_query c callback_data now sheet_answers st) in
  frame st st'
  \/ (exists item_name, st' = final_state (handle_add_to_cart c item_name st))
  \/ (not_admin st c = false /\ same_data (eq c) st st').
Proof.
  cbv zeta. unfold handle_callback_query.
  destruct (String.prefix "add_" callback_data); [right; left; eauto|].
  destruct (bool_decide (callback_data = "back_categories"));
    [left; apply keeps_frame_show_categories|].
  destruct (bool_decide (callback_data = "view_cart"));
    [left; apply keeps_frame_show_cart|].
  destruct (admin_prefixed callback_data); [|left; reflexivity].
  destruct (handle_admin_callback_cases c callback_data now sheet_answers st)
    as [[_ H]|H]; auto.
Qed.

Lemma separated_ext st st' :
  user_carts st' = user_carts st -> order_tracking st' = order_tracking st ->
  dicts st' = dicts st -> separated st -> separated st'.
Proof.
  intros Hc Ho Hd (S1 & S2 & S3 & S4).
  assert (Hl : forall d, locs_of st' d = locs_of st d)
    by (intros d; unfold locs_of, dict_at; rewrite Hd; reflexivity).
  split; [|split; [|split]]; rewrite ?Hc, ?Ho; [exact S1 | exact S2 | |].
  - intros c1 c2 d1 d2. rewrite !Hl. apply S3.
  - intros c d id o. rewrite !Hl. apply S4.
Qed.

Lemma dict_get_locs {A} (k : string) (d : list (string * A)) (v : A) :
  dict_get k d = Some v -> v ∈ d.*2.
Proof.
  induction d as [|kv d IH]; [discriminate|].
  cbn [dict_get]. destruct (decide (kv.1 = k)).
  - intros [= <-]. rewrite fmap_cons. left.
  - intros H. rewrite fmap_cons. right. apply IH, H.
Qed.

Lemma line_at_app st st' extra l :
  lines st' = lines st ++ extra -> (l < length (lines st))%nat ->
  line_at st' l = line_at st l.
Proof. intros H Hl. unfold line_at. rewrite H, lookup_app_l by exact Hl. reflexivity. Qed.

(** Additions keep the carts separated and the stored orders as they are. *)
Lemma handle_add_to_cart_separated c item_name st :
  wf st -> separated st ->
  separated (final_state (handle_add_to_cart c item_name st))
  /\ stable st (final_state (handle_add_to_cart c item_name st)).
Proof.
  intros Hwf Hsep.
  destruct (find_item grocery_categories item_name) as [item_details|] eqn:Hfind.
  - destruct (user_carts st !! c) as [d0|] eqn:Hcart.
    + pose proof (wf_cart_bound _ _ _ Hwf Hcart) as Hd0.
      destruct (dict_get item_name (dict_at st d0)) as [l|] eqn:Hget.
      * rewrite (handle_add_to_cart_increment st c item_name item_details d0 l
                   Hfind Hcart Hget). cbn [final_state].
        split; [apply (separated_ext st); auto|].
        intros id o Ho. apply cart_items_ext; [reflexivity|].
        intros l' Hl'. unfold line_at. cbn.
        rewrite list_lookup_alter_ne; [reflexivity|]. intros ->.
        destruct Hsep as (_ & _ & _ & S4).
        eapply (S4 _ _ _ _ Hcart Ho); [|exact Hl'].
        apply dict_get_locs in Hget. exact Hget.
      * rewrite (handle_add_to_cart_new_line st c item_name item_details d0
                   Hfind Hcart Hget). cbn [final_state].
        match goal with |- separated ?s /\ _ => set (st' := s) end.
        assert (Hd0' : dict_at st' d0 = dict_at st d0 ++ [(item_name, length (lines st))]).
        { unfold dict_at, st'. cbn. rewrite list_lookup_alter.
          rewrite decide_True by reflexivity.
          destruct (lookup_lt_is_Some_2 (dicts st) d0 Hd0) as [d Hd]. rewrite Hd.
          reflexivity. }
        assert (Hd' : forall d, d <> d0 -> dict_at st' d = dict_at st d).
        { intros d Hne. unfold dict_at, st'. cbn.
          rewrite list_lookup_alter_ne by congruence. reflexivity. }
        split.
        -- apply (separated_new_line st st' c d0 item_name (length (lines st)));
             auto.
        -- intros id o Ho. apply cart_items_ext.
           ++ apply Hd'. destruct Hsep as (_ & S2 & _). eapply S2; eauto.
           ++ intros l Hl. apply (line_at_app st st' [new_line item_details]);
                [reflexivity|]. eapply wf_loc_bound; eauto.
    + rewrite (handle_add_to_cart_no_cart st c item_name item_details Hfind Hcart).
      cbn [final_state].
      match goal with |- separated ?s /\ _ => set (st' := s) end.
      pose proof (wf_cleared c st Hwf) as Hwf_a.
      pose proof (separated_cleared c st Hwf Hsep) as Hsep_a.
      assert (Hmid : dict_at st' (length (dicts st)) = [(item_name, length (lines st))]).
      { unfold dict_at, st'. cbn. rewrite list_lookup_middle by reflexivity. reflexivity. }
      assert (Hd' : forall d, d <> length (dicts st) ->
                dict_at st' d = dict_at (cleared c st) d).
      { intros d Hne. rewrite dict_at_cleared. unfold dict_at, st'. cbn.
        destruct (decide (d < length (dicts st))%nat) as [Hlt|Hge].
        - rewrite lookup_app_l by exact Hlt. reflexivity.
        - rewrite (lookup_ge_None_2 (dicts st) d) by lia.
          rewrite lookup_ge_None_2; [reflexivity|]. rewrite length_app. cbn. lia. }
      split.
      * apply (separated_new_line (cleared c st) st' c (length (dicts st)) item_name
                 (length (lines st))); auto.
        -- cbn. apply lookup_insert_eq.
        -- rewrite Hmid, dict_at_cleared. unfold dict_at.
           rewrite lookup_ge_None_2 by lia. reflexivity.
      * intros id o Ho. pose proof (wf_order_bound _ _ _ Hwf Ho) as Hb.
        apply cart_items_ext.
        -- rewrite Hd' by lia. apply dict_at_cleared.
        -- intros l Hl. apply (line_at_app st st' [new_line item_details]);
             [reflexivity|]. eapply wf_loc_bound; eauto.
  - unfold handle_add_to_cart. rewrite Hfind. simpl_m. rewrite send_message_eq.
    cbn [final_state]. split; [apply (separated_ext st); auto|].
    intros id o _. reflexivity.
Qed.

(** A checkout of the customer's own cart keeps the carts separated and
    the stored orders as they are. *)
Lemma process_cash_on_delivery_separated c customer_name phone address d0
    special_instructions env st :
  wf st -> separated st -> user_carts st !! c = Some d0 ->
  separated (final_state (process_cash_on_delivery c customer_name phone address d0
                            special_instructions env st))
  /\ stable st (final_state (process_cash_on_delivery c customer_name phone address d0
                               special_instructions env st)).
Proof.
  intros Hwf Hsep Hcart.
  destruct (decide (Forall convertible (cart_values st d0))) as [Hconv|Hnot];
    [destruct (Py.int_of_float (time_time env)) as [seconds|] eqn:Hclock|].
  - destruct (process_cash_on_delivery_completes c customer_name phone address d0
                special_instructions env st seconds Hconv Hclock)
      as (summary & total & st' & _ & Hrun & Htrack & _ & _ & Hcarts' & Hdicts' & Hlines'
          & _).
    rewrite Hrun. cbn [final_state]. rewrite Hcart in Hcarts', Hdicts'.
    change (dicts st' = dicts st ++ dict_at st d0 :: [[]]) in Hdicts'.
    assert (Hlow : forall d, (d < length (dicts st))%nat -> dict_at st' d = dict_at st d)
      by (intros d Hd; eapply dict_at_app_l; eauto).
    split.
    + apply (separated_rebind st st' c (S (length (dicts st))) Hwf Hsep); auto.
      * unfold locs_of, dict_at. rewrite Hdicts', (lookup_app_r (dicts st)) by lia.
        replace (S (length (dicts st)) - length (dicts st))%nat with 1%nat by lia.
        reflexivity.
      * intros d Hd. unfold locs_of. rewrite Hlow by exact Hd. reflexivity.
      * right. eexists _, _, d0. split; [exact Htrack|]. cbn.
        split; [lia|]. split; [lia|]. split; [exact Hcart|].
        unfold locs_of. f_equal. unfold dict_at at 1.
        rewrite Hdicts', list_lookup_middle by reflexivity. reflexivity.
    + intros id o Ho. pose proof (wf_order_bound _ _ _ Hwf Ho) as Hb.
      apply cart_items_ext; [apply Hlow, Hb|].
      intros l _. unfold line_at. rewrite Hlines'. reflexivity.
  - rewrite process_cash_on_delivery_fails by auto. cbn [final_state].
    split; [apply (separated_ext st); auto|]. intros id o _. reflexivity.
  - rewrite process_cash_on_delivery_fails by auto. cbn [final_state].
    split; [apply (separated_ext st); auto|]. intros id o _. reflexivity.
Qed.

(** *** Every update keeps the stores *)

#[export] Instance same_admin_preorder : PreOrder same_admin.
Proof. split; unfold same_admin; [intros st|intros st1 st2 st3]; congruence. Qed.

#[export] Instance cart_only_preorder : PreOrder cart_only.
Proof.
  split; unfold cart_only.
  - intros st. auto.
  - intros st1 st2 st3 (?&?&?&?) (?&?&?&?). repeat split; congruence.
Qed.

Lemma keeps_cart_only_handle_add_to_cart c item_name :
  keeps cart_only (handle_add_to_cart c item_name).
Proof. unfold handle_add_to_cart, alloc_dict, alloc_line. repeat keeps_step. Qed.

Lemma keeps_same_admin_process_cash_on_delivery c customer_name phone address d
    special_instructions env :
  keeps same_admin
    (process_cash_on_delivery c customer_name phone address d special_instructions env).
Proof.
  unfold process_cash_on_delivery, create_enhanced_order_summary, generate_order_id,
    save_order_tracking, save_order_to_sheet, send_admin_order_notification, alloc_dict.
  repeat keeps_step.
Qed.

Lemma frame_stable st st' : frame st st' -> stable st st'.
Proof. intros H. eapply (stable_same_data (fun _ => False)), frame_same_data, H. Qed.

Lemma same_data_keeps_stores who st st' :
  same_data who st st' -> wf st -> separated st ->
  wf st' /\ separated st' /\ stable st st'.
Proof.
  intros H Hwf Hsep. split; [|split].
  - eapply wf_same_data; eauto.
  - eapply separated_same_data; eauto.
  - eapply stable_same_data; eauto.
Qed.

Lemma handle_message_keeps_stores c text env now sheet_answers st :
  wf st -> separated st ->
  wf (final_state (handle_message c text env now sheet_answers st))
  /\ separated (final_state (handle_message c text env now sheet_answers st))
  /\ stable st (final_state (handle_message c text env now sheet_answers st)).
Proof.
  intros Hwf Hsep.
  destruct (handle_message_cases c text env now sheet_answers st)
    as [H|[(d & _ & Hd & H)|[(n & p & a & d & i & _ & _ & Hd & ->)|(id & _ & _ & H)]]].
  - apply (frame_same_data (fun _ => False)) in H.
    eapply same_data_keeps_stores; eauto.
  - apply (frame_same_data (fun _ => False)) in H.
    split; [|split].
    + eapply wf_same_data; [exact H|]. apply wf_cleared, Hwf.
    + eapply separated_same_data; [exact H|]. apply separated_cleared; assumption.
    + eapply stable_then_same_data; [apply stable_cleared | exact H].
  - split; [apply process_cash_on_delivery_wf, Hwf|].
    apply process_cash_on_delivery_separated; assumption.
  - eapply same_data_keeps_stores; eauto.
Qed.

Lemma handle_callback_query_keeps_stores c callback_data now sheet_answers st :
  wf st -> separated st ->
  wf (final_state (handle_callback_query c callback_data now sheet_answers st))
  /\ separated (final_state (handle_callback_query c callback_data now sheet_answers st))
  /\ stable st (final_state (handle_callback_query c callback_data now sheet_answers st)).
Proof.
  intros Hwf Hsep.
  destruct (handle_callback_query_cases c callback_data now sheet_answers st)
    as [H|[(item_name & ->)|(_ & H)]].
  - apply (frame_same_data (fun _ => False)) in H.
    eapply same_data_keeps_stores; eauto.
  - split; [apply handle_add_to_cart_wf, Hwf|].
    apply handle_add_to_cart_separated; assumption.
  - eapply same_data_keeps_stores; eauto.
Qed.

Lemma logged_frame lv e st : frame st (set_log (log st ++ [(lv, e)]) st).
Proof. frame_solve. Qed.

Lemma handle_update_keeps_stores u env st :
  wf st -> separated st ->
  wf (final_state (handle_update u env st))
  /\ separated (final_state (handle_update u env st))
  /\ stable st (final_state (handle_update u env st)).
Proof.
  intros Hwf Hsep.
  destruct u as [c text|c callback_data| |]; cbn [handle_update].
  - pose proof (logged_frame INFO (log_message_from c text) st) as Hlog.
    apply (frame_same_data (fun _ => False)) in Hlog.
    change (final_state ((logger INFO (log_message_from c text);;
                          handle_message c text (checkout_readings env) (status_now env)
                            (sheet_answers env)) st))
      with (final_state (handle_message c text (checkout_readings env) (status_now env)
                           (sheet_answers env)
                           (set_log (log st ++ [(INFO, log_message_from c text)]) st))).
    destruct (handle_message_keeps_stores c text (checkout_readings env) (status_now env)
                (sheet_answers env) _ (wf_same_data _ _ _ Hlog Hwf)
                (separated_same_data _ _ _ Hlog Hsep)) as (H1 & H2 & H3).
    split; [exact H1|]. split; [exact H2|].
    intros id o Ho. rewrite (H3 id o) by exact Ho. reflexivity.
  - pose proof (logged_frame INFO (log_callback_from c callback_data) st) as Hlog.
    apply (frame_same_data (fun _ => False)) in Hlog.
    change (final_state ((logger INFO (log_callback_from c callback_data);;
                          handle_callback_query c callback_data (status_now env)
                            (sheet_answers env)) st))
      with (final_state (handle_callback_query c callback_data (status_now env)
                           (sheet_answers env)
                           (set_log (log st ++ [(INFO, log_callback_from c callback_data)])
                              st))).
    destruct (handle_callback_query_keeps_stores c callback_data (status_now env)
                (sheet_answers env) _ (wf_same_data _ _ _ Hlog Hwf)
                (separated_same_data _ _ _ Hlog Hsep)) as (H1 & H2 & H3).
    split; [exact H1|]. split; [exact H2|].
    intros id o Ho. rewrite (H3 id o) by exact Ho. reflexivity.
  - split; [exact Hwf|]. split; [exact Hsep|]. intros id o _. reflexivity.
  - split; [exact Hwf|]. split; [exact Hsep|]. intros id o _. reflexivity.
Qed.

Lemma initial_wf st : initial st -> wf st.
Proof.
  intros (Hl & Hd & Hc & _ & Ho & _). split; [|split]; rewrite ?Hc, ?Ho, ?Hd.
  - intros c d H. rewrite lookup_empty in H. discriminate.
  - intros id o H. rewrite lookup_empty in H. discriminate.
  - constructor.
Qed.

Lemma initial_separated st : initial st -> separated st.
Proof.
  intros (Hl & Hd & Hc & _ & Ho & _).
  split; [|split; [|split]]; rewrite ?Hc; intros; simplify_map_eq.
Qed.

Lemma reachable_stores st : reachable st -> wf st /\ separated st.
Proof.
  induction 1 as [st Hinit|st u env _ [Hwf Hsep]].
  - split; [apply initial_wf | apply initial_separated]; assumption.
  - destruct (handle_update_keeps_stores u env st Hwf Hsep) as (? & ? & _). auto.
Qed.

(** *** Only the admin cancels *)

Lemma not_admin_ext st st' c :
  ADMIN_CHAT_ID st' = ADMIN_CHAT_ID st -> not_admin st' c = not_admin st c.
Proof. intros H. unfold not_admin. rewrite H. reflexivity. Qed.

Lemma cancel_only_admin_step who st st' :
  ADMIN_CHAT_ID st' = ADMIN_CHAT_ID st ->
  (forall c order_id,
     user_sessions st' !! c = Some (awaiting_cancel_reason order_id) ->
     user_sessions st !! c = Some (awaiting_cancel_reason order_id) \/ who c) ->
  (forall c, who c -> not_admin st c = false) ->
  cancel_only_admin st -> cancel_only_admin st'.
Proof.
  intros Hadmin Hsess Hwho Hinv c order_id H.
  rewrite (not_admin_ext st st' c Hadmin).
  destruct (Hsess c order_id H) as [Hold|Hc]; eauto.
Qed.

Lemma frame_cancel_only_admin st st' :
  frame st st' -> cancel_only_admin st -> cancel_only_admin st'.
Proof.
  intros (Hadmin & _ & _ & _ & _ & _ & _ & Hs).
  apply (cancel_only_admin_step (fun _ => False)); [exact Hadmin| |contradiction].
  intros c order_id H. left. apply Hs, H.
Qed.

Lemma same_data_cancel_only_admin who st st' :
  same_data who st st' -> (forall c, who c -> not_admin st c = false) ->
  cancel_only_admin st -> cancel_only_admin st'.
Proof.
  intros (Hadmin & _ & _ & _ & _ & Hs). apply cancel_only_admin_step; assumption.
Qed.

(** The session after a checkout: the main menu when it completes, as it
    was when it fails. *)
Lemma process_cash_on_delivery_sessions c customer_name phone address d
    special_instructions env st :
  let st' := final_state (process_cash_on_delivery c customer_name phone address d
                            special_instructions env st) in
  user_sessions st' = <[c := main_menu]> (user_sessions st)
  \/ user_sessions st' = user_sessions st.
Proof.
  cbv zeta.
  destruct (decide (Forall convertible (cart_values st d))) as [Hconv|Hnot];
    [destruct (Py.int_of_float (time_time env)) as [seconds|] eqn:Hclock|].
  - destruct (process_cash_on_delivery_completes c customer_name phone address d
                special_instructions env st seconds Hconv Hclock)
      as (summary & total & st' & _ & Hrun & _ & _ & Hsess & _).
    rewrite Hrun. auto.
  - rewrite process_cash_on_delivery_fails by auto. auto.
  - rewrite process_cash_on_delivery_fails by auto. auto.
Qed.

Lemma handle_message_cancel_only_admin c text env now sheet_answers st :
  cancel_only_admin st ->
  cancel_only_admin (final_state (handle_message c text env now sheet_answers st)).
Proof.
  intros Hinv.
  destruct (handle_message_cases c text env now sheet_answers st)
    as [H|[(d & _ & Hd & H)|[(n & p & a & d & i & _ & _ & Hd & ->)|(id & _ & _ & H)]]].
  - eapply frame_cancel_only_admin; eauto.
  - eapply frame_cancel_only_admin; [exact H|]. exact Hinv.
  - apply (cancel_only_admin_step (fun _ => False) st); [| |contradiction|exact Hinv].
    + apply keeps_same_admin_process_cash_on_delivery.
    + intros c' order_id H. left.
      destruct (process_cash_on_delivery_sessions c n p a d i env st) as [Hs|Hs];
        rewrite Hs in H; [|exact H].
      apply lookup_insert_Some in H as [[_ ?]|[_ ?]]; [discriminate | assumption].
  - eapply same_data_cancel_only_admin; [exact H|contradiction|exact Hinv].
Qed.

Lemma handle_callback_query_cancel_only_admin c callback_data now sheet_answers st :
  cancel_only_admin st ->
  cancel_only_admin (final_state (handle_callback_query c callback_data now sheet_answers st)).
Proof.
  intros Hinv.
  destruct (handle_callback_query_cases c callback_data now sheet_answers st)
    as [H|[(item_name & ->)|(Hadmin & H)]].
  - eapply frame_cancel_only_admin; eauto.
  - destruct (keeps_cart_only_handle_add_to_cart c item_name st) as (Ha & _ & Hs & _).
    apply (cancel_only_admin_step (fun _ => False) st); [exact Ha| |contradiction|exact Hinv].
    intros c' order_id H. left. rewrite Hs in H. exact H.
  - eapply same_data_cancel_only_admin; [exact H| |exact Hinv].
    intros c' <-. exact Hadmin.
Qed.

Lemma handle_update_cancel_only_admin u env st :
  cancel_only_admin st -> cancel_only_admin (final_state (handle_update u env st)).
Proof.
  intros Hinv.
  destruct u as [c text|c callback_data| |]; cbn [handle_update]; [| |exact Hinv..].
  - apply (handle_message_cancel_only_admin c text (checkout_readings env) (status_now env)
             (sheet_answers env) (set_log (log st ++ [(INFO, log_message_from c text)]) st)).
    exact Hinv.
  - apply (handle_callback_query_cancel_only_admin c callback_data (status_now env)
             (sheet_answers env)
             (set_log (log st ++ [(INFO, log_callback_from c callback_data)]) st)).
    exact Hinv.
Qed.

Lemma reachable_invariant st :
  reachable st -> wf st /\ separated st /\ cancel_only_admin st.
Proof.
  intros H. split; [apply reachable_stores, H|]. split; [apply reachable_stores, H|].
  induction H as [st (_ & _ & _ & Hs & _)|st u env _ IH].
  - intros c order_id H. rewrite Hs, lookup_empty in H. discriminate.
  - apply handle_update_cancel_only_admin, IH.
Qed.

(** What a checkout does to the tracker: it stores one Pending order of
    this customer, or nothing. *)
Lemma process_cash_on_delivery_orders c customer_name phone address d
    special_instructions env st :
  orders_kept_or_placed c env st
    (final_state (process_cash_on_delivery c customer_name phone address d
                    special_instructions env st)).
Proof.
  intros id.
  destruct (decide (Forall convertible (cart_values st d))) as [Hconv|Hnot];
    [destruct (Py.int_of_float (time_time env)) as [seconds|] eqn:Hclock|].
  - destruct (process_cash_on_delivery_completes c customer_name phone address d
                special_instructions env st seconds Hconv Hclock)
      as (summary & total & st' & _ & Hrun & Htrack & _).
    rewrite Hrun. cbn [final_state]. rewrite Htrack.
    destruct (decide ("ORD" +:+ Py.str seconds = id)) as [<-|Hne].
    + right. unfold order_id_at. rewrite Hclock. split; [reflexivity|].
      rewrite lookup_insert_eq. eexists. split; [reflexivity|]. split; reflexivity.
    + left. apply lookup_insert_ne, Hne.
  - rewrite process_cash_on_delivery_fails by auto. left. reflexivity.
  - rewrite process_cash_on_delivery_fails by auto. left. reflexivity.
Qed.

Lemma orders_kept_same c env st st' :
  order_tracking st' = order_tracking st -> orders_kept_or_placed c env st st'.
Proof. intros H id. left. rewrite H. reflexivity. Qed.

Lemma handle_message_non_admin c text env now sheet_answers st :
  cancel_only_admin st -> not_admin st c = true ->
  orders_kept_or_placed c env st
    (final_state (handle_message c text env now sheet_answers st)).
Proof.
  intros Hinv Hnot.
  destruct (handle_message_cases c text env now sheet_answers st)
    as [H|[(d & _ & Hd & H)|[(n & p & a & d & i & _ & _ & Hd & ->)|(id & _ & Hs & H)]]].
  - apply orders_kept_same, H.
  - apply orders_kept_same. destruct H as (_ & _ & _ & _ & _ & _ & H & _). exact H.
  - apply process_cash_on_delivery_orders.
  - rewrite (Hinv c id Hs) in Hnot. discriminate.
Qed.

Lemma handle_callback_query_non_admin c callback_data env now sheet_answers st :
  not_admin st c = true ->
  orders_kept_or_placed c env st
    (final_state (handle_callback_query c callback_data now sheet_answers st)).
Proof.
  intros Hnot.
  destruct (handle_callback_query_cases c callback_data now sheet_answers st)
    as [H|[(item_name & ->)|(Hadmin & H)]].
  - apply orders_kept_same, H.
  - apply orders_kept_same.
    destruct (keeps_cart_only_handle_add_to_cart c item_name st) as (_ & _ & _ & H).
    exact H.
  - congruence.
Qed.

(** *** The dialogue, step by step *)

Lemma handle_start_eq c st :
  handle_start c st
  = Return tt (with_session c main_menu (sent (chat_int c) msg_welcome st)).
Proof. unfold handle_start. simpl_m. rewrite send_message_eq. reflexivity. Qed.

Lemma show_categories_eq c st :
  show_categories c st = Return tt (sent (chat_int c) msg_categories st).
Proof. unfold show_categories. simpl_m. rewrite send_message_eq. reflexivity. Qed.

(** A body that returns is not handled. *)
Lemma try_except_return {A} (m h : M A) (st st' : state) (a : A) :
  m st = Return a st' -> try_except m h st = Return a st'.
Proof. intros H. unfold try_except. rewrite H. reflexivity. Qed.

(** The dispatch of a free text: the step of the session decides. *)
Ltac free_text_dispatch Hfree :=
  destruct (free_text_inv _ Hfree)
    as (E1 & E2 & E3 & E4 & E5 & E6 & E7 & E8 & E9 & E10 & E11);
  unfold handle_message;
  rewrite E1, E2, E3, E4, E5, E6, E7, E8, E9, E10, E11; cbn [orb];
  rewrite try_except_get; cbv beta.

Lemma handle_message_awaiting_name c text env now sheet_answers st :
  free_text text = true ->
  user_sessions st !! c = Some awaiting_name ->
  handle_message c text env now sheet_answers st
  = Return tt (sent (chat_int c) (msg_ask_phone text)
                 (with_session c (awaiting_phone text) st)).
Proof.
  intros Hfree Hs. free_text_dispatch Hfree. rewrite Hs.
  apply try_except_return. simpl_m. rewrite send_message_eq. reflexivity.
Qed.

Lemma handle_message_awaiting_phone c text env now sheet_answers st n :
  free_text text = true ->
  user_sessions st !! c = Some (awaiting_phone n) ->
  handle_message c text env now sheet_answers st
  = Return tt (sent (chat_int c) msg_ask_address
                 (with_session c (awaiting_address n text) st)).
Proof.
  intros Hfree Hs. free_text_dispatch Hfree. rewrite Hs.
  apply try_except_return. simpl_m. rewrite send_message_eq. reflexivity.
Qed.

Lemma handle_message_awaiting_address c text env now sheet_answers st n p :
  free_text text = true ->
  user_sessions st !! c = Some (awaiting_address n p) ->
  handle_message c text env now sheet_answers st
  = Return tt (sent (chat_int c) msg_ask_instructions
                 (with_session c (awaiting_instructions n p text) st)).
Proof.
  intros Hfree Hs. free_text_dispatch Hfree. rewrite Hs.
  apply try_except_return. simpl_m. rewrite send_message_eq. reflexivity.
Qed.

Lemma handle_message_awaiting_instructions c text env now sheet_answers st n p a d :
  free_text text = true ->
  user_sessions st !! c = Some (awaiting_instructions n p a) ->
  user_carts st !! c = Some d ->
  handle_message c text env now sheet_answers st
  = Return tt
      (final_state
         (process_cash_on_delivery c n p a d
            (if bool_decide (lower text = "none") then EmptyString else text) env st)).
Proof.
  intros Hfree Hs Hd. free_text_dispatch Hfree. rewrite Hs, Hd.
  destruct (process_cash_on_delivery_returns c n p a d
              (if bool_decide (lower text = "none") then EmptyString else text) env st)
    as (b & st' & Hrun).
  apply try_except_return. simpl_m. rewrite Hrun. reflexivity.
Qed.

Lemma handle_message_awaiting_cancel_reason c text env now sheet_answers st order_id :
  free_text text = true ->
  user_sessions st !! c = Some (awaiting_cancel_reason order_id) ->
  handle_message c text env now sheet_answers st
  = try_except
      (cancelled ← (if truthy (Some order_id)
                    then update_order_status order_id "Cancelled" text now sheet_answers
                    else ret false);
       (if cancelled : bool
        then send_message (chat_int c) (msg_cancel_done order_id)
        else send_message (chat_int c) (msg_cancel_failed order_id));;
       modify (fun st => set_user_sessions (<[c := main_menu]> (user_sessions st)) st))
      (logger ERROR log_handle_message_error;;
       send_message (chat_int c) msg_error;;
       handle_start c) st.
Proof.
  intros Hfree Hs. free_text_dispatch Hfree. rewrite Hs. reflexivity.
Qed.

(** *** The snapshot of an order, in the running bot *)

(** Additions to carts keep the stores well formed and separate, leave the
    tracker as it is, and leave the lines of every stored order as they
    are. *)
Lemma add_all_keeps_orders adds st :
  wf st -> separated st ->
  wf (add_all adds st) /\ separated (add_all adds st)
  /\ order_tracking (add_all adds st) = order_tracking st
  /\ stable st (add_all adds st).
Proof.
  revert st. induction adds as [|[c item_name] adds IH]; intros st Hwf Hsep.
  - split; [exact Hwf|]. split; [exact Hsep|]. split; [reflexivity|].
    intros id o _. reflexivity.
  - cbn [add_all fold_left fst snd].
    pose proof (handle_add_to_cart_wf c item_name st Hwf) as Hwf1.
    destruct (handle_add_to_cart_separated c item_name st Hwf Hsep) as [Hsep1 Hstable1].
    destruct (keeps_cart_only_handle_add_to_cart c item_name st) as (_ & _ & _ & Htrack1).
    destruct (IH _ Hwf1 Hsep1) as (Hwf2 & Hsep2 & Htrack2 & Hstable2).
    split; [exact Hwf2|]. split; [exact Hsep2|].
    split; [unfold add_all in Htrack2; rewrite Htrack2; exact Htrack1|].
    intros id o Ho.
    assert (Ho1 : order_tracking (final_state (handle_add_to_cart c item_name st)) !! id
                  = Some o) by (rewrite Htrack1; exact Ho).
    unfold add_all in Hstable2. rewrite (Hstable2 id o Ho1). exact (Hstable1 id o Ho).
Qed.

Lemma add_all_keeps_order_lines adds st order_id :
  reachable st ->
  order_lines (add_all adds st) order_id = order_lines st order_id.
Proof.
  intros Hreach. destruct (reachable_stores st Hreach) as [Hwf Hsep].
  destruct (add_all_keeps_orders adds st Hwf Hsep) as (_ & _ & Htrack & Hstable).
  unfold order_lines. rewrite Htrack.
  destruct (order_tracking st !! order_id) as [o|] eqn:Ho; [|reflexivity].
  cbn. f_equal. exact (Hstable order_id o Ho).
Qed.

(** The last answer of the checkout dialogue stores the lines that the
    cart has at that time. *)
Lemma checkout_stores_cart_lines st c text env n p a d seconds :
  free_text text = true ->
  user_sessions st !! c = Some (awaiting_instructions n p a) ->
  user_carts st !! c = Some d ->
  Forall convertible (cart_values st d) ->
  Py.int_of_float (time_time (checkout_readings env)) = Some seconds ->
  order_lines (final_state (handle_update (upd_text c text) env st))
    ("ORD" +:+ Py.str seconds)
  = Some (cart_items st d).
Proof.
  intros Hfree Hs Hd Hconv Hclock. cbn [handle_update].
  set (st0 := set_log (log st ++ [(INFO, log_message_from c text)]) st).
  change (order_lines
            (final_state (handle_message c text (checkout_readings env) (status_now env)
                            (sheet_answers env) st0)) ("ORD" +:+ Py.str seconds)
          = Some (cart_items st0 d)).
  rewrite (handle_message_awaiting_instructions c text (checkout_readings env)
             (status_now env) (sheet_answers env) st0 n p a d Hfree Hs Hd).
  cbn [final_state].
  destruct (process_cash_on_delivery_completes c n p a d
              (if bool_decide (lower text = "none") then EmptyString else text)
              (checkout_readings env) st0 seconds Hconv Hclock)
    as (summary & total & st1 & _ & Hrun & Htrack & _ & _ & _ & Hdicts & Hlines & _).
  rewrite Hrun. cbn [final_state].
  assert (Hd0 : user_carts st0 !! c = Some d) by exact Hd.
  rewrite Hd0 in Hdicts.
  change (dicts st1 = dicts st0 ++ dict_at st0 d :: [[]]) in Hdicts.
  unfold order_lines. rewrite Htrack, lookup_insert_eq. cbn [fmap option_fmap option_map].
  f_equal. unfold cart_items, dict_at, line_at. rewrite Hdicts, Hlines.
  cbn [pending_order cart]. rewrite list_lookup_middle by reflexivity. reflexivity.
Qed.

(** C2. In every state that the bot can reach, the lines that a stored
    order shows are unaffected by the mutations of carts that follow: after
    any sequence of additions to carts, by the customer who placed the
    order or by anyone else, also of the very items that the order holds,
    every order shows the lines that it showed before.  And the order that
    the last answer of a checkout stores shows the lines that the cart had
    at that time, and goes on showing them after any such additions.  (The
    copy that [save_order_tracking] stores is shallow, but the checkout
    rebinds the customer's cart to a new dict right after it, so that no
    cart refers to a line of a stored order.) *)
Theorem stored_lines_survive_cart_mutations :
  (forall st adds order_id,
     reachable st ->
     order_lines (add_all adds st) order_id = order_lines st order_id)
  /\ (forall st c text env n p a d seconds adds,
        reachable st ->
        free_text text = true ->
        user_sessions st !! c = Some (awaiting_instructions n p a) ->
        user_carts st !! c = Some d ->
        Forall convertible (cart_values st d) ->
        Py.int_of_float (time_time (checkout_readings env)) = Some seconds ->
        order_lines (add_all adds (final_state (handle_update (upd_text c text) env st)))
          ("ORD" +:+ Py.str seconds)
        = Some (cart_items st d)).
Proof.
  split.
  - intros st adds order_id Hreach. apply add_all_keeps_order_lines, Hreach.
  - intros st c text env n p a d seconds adds Hreach Hfree Hs Hd Hconv Hclock.
    rewrite add_all_keeps_order_lines by (apply reachable_update, Hreach).
    apply (checkout_stores_cart_lines st c text env n p a d seconds); assumption.
Qed.

Lemma stored_lines_survive_cart_mutations_witness :
  reachable instructions_pending_state
  /\ user_sessions instructions_pending_state !! 7
     = Some (awaiting_instructions "Ann" "555-0100" "1 Main St")
  /\ cart_items instructions_pending_state 0%nat
     = [("🍎 Apples", Line (Py.literal 399) "kg" 1)]
  /\ order_lines
       (add_all [(7, "🍎 Apples"); (7, "🍎 Apples"); (8, "🍎 Apples")]
          (final_state (handle_update (upd_text 7 "None") example_event_env
                          instructions_pending_state))) "ORD1700000000"
     = Some (cart_items instructions_pending_state 0%nat).
Proof.
  assert (H : reachable instructions_pending_state).
  { unfold instructions_pending_state, run_updates. cbn [fold_left].
    repeat apply reachable_update. apply reachable_initial.
    repeat split. }
  assert (Hs : user_sessions instructions_pending_state !! 7
               = Some (awaiting_instructions "Ann" "555-0100" "1 Main St"))
    by (vm_compute; reflexivity).
  assert (Hd : user_carts instructions_pending_state !! 7 = Some 0%nat)
    by (vm_compute; reflexivity).
  assert (Hconv : Forall convertible (cart_values instructions_pending_state 0%nat)).
  { apply (bool_decide_eq_true_1 (Forall convertible _)). vm_compute. reflexivity. }
  split; [exact H|]. split; [exact Hs|]. split; [vm_compute; reflexivity|].
  apply (proj2 stored_lines_survive_cart_mutations instructions_pending_state 7 "None"
           example_event_env "Ann" "555-0100" "1 Main St" 0%nat 1700000000
           [(7, "🍎 Apples"); (7, "🍎 Apples"); (8, "🍎 Apples")] H);
    [vm_compute; reflexivity | exact Hs | exact Hd | exact Hconv | vm_compute; reflexivity].
Defined.

(** *** The menu and the checkout dialogue *)

(** X1. [/start] and the Main Menu button send the welcome message and put
    the session at the main menu whatever the session was, a pending
    checkout step or a pending cancellation reason included; the carts, the
    orders and the sheet are as they were. *)
Theorem start_resets_session c text env now sheet_answers st :
  text = "/start" \/ text = MAIN_MENU ->
  handle_message c text env now sheet_answers st
  = Return tt (with_session c main_menu (sent (chat_int c) msg_welcome st)).
Proof.
  intros [-> | ->]; unfold handle_message; apply try_except_return.
  - rewrite bool_decide_eq_true_2 by reflexivity. apply handle_start_eq.
  - rewrite (bool_decide_eq_false_2 (MAIN_MENU = "/start")) by discriminate.
    rewrite (bool_decide_eq_false_2 (MAIN_MENU = SHOP_GROCERIES)) by discriminate.
    rewrite (bool_decide_eq_false_2 (MAIN_MENU = MY_CART)) by discriminate.
    rewrite (bool_decide_eq_false_2 (MAIN_MENU = TRACK_ORDER)) by discriminate.
    rewrite bool_decide_eq_true_2 by reflexivity. apply handle_start_eq.
Qed.

Lemma start_resets_session_witness :
  user_sessions cancel_asked_state !! 999 = Some (awaiting_cancel_reason "ORD1700000000")
  /\ handle_message 999 MAIN_MENU (example_env quarter_past true) "2023-11-15 09:10:00" true
       cancel_asked_state
     = Return tt (with_session 999 main_menu
                    (sent (chat_int 999) msg_welcome cancel_asked_state)).
Proof.
  split; [vm_compute; reflexivity|].
  apply (start_resets_session 999 MAIN_MENU). right. reflexivity.
Defined.

(** X2. While the session waits for the name, the phone number or the
    address, a text that is none of the ten labels tested first and no
    category name is stored as the answer and the next question is sent.
    The labels Contact Store and Store Info are such texts: they are tested
    after the steps, so during a checkout they are taken as answers. *)
Theorem checkout_step_takes_free_text c text env now sheet_answers st :
  free_text text = true ->
  (user_sessions st !! c = Some awaiting_name ->
   handle_message c text env now sheet_answers st
   = Return tt (sent (chat_int c) (msg_ask_phone text)
                  (with_session c (awaiting_phone text) st)))
  /\ (forall n, user_sessions st !! c = Some (awaiting_phone n) ->
        handle_message c text env now sheet_answers st
        = Return tt (sent (chat_int c) msg_ask_address
                       (with_session c (awaiting_address n text) st)))
  /\ (forall n p, user_sessions st !! c = Some (awaiting_address n p) ->
        handle_message c text env now sheet_answers st
        = Return tt (sent (chat_int c) msg_ask_instructions
                       (with_session c (awaiting_instructions n p text) st)))
  /\ free_text CONTACT_STORE = true
  /\ free_text STORE_INFO = true.
Proof.
  intros Hfree. split; [|split; [|split; [|split]]].
  - apply handle_message_awaiting_name, Hfree.
  - intros n. apply handle_message_awaiting_phone, Hfree.
  - intros n p. apply handle_message_awaiting_address, Hfree.
  - vm_compute. reflexivity.
  - vm_compute. reflexivity.
Qed.

Lemma checkout_step_takes_free_text_witness :
  free_text CONTACT_STORE = true
  /\ user_sessions checkout_started_state !! 7 = Some awaiting_name
  /\ handle_message 7 CONTACT_STORE (example_env quarter_past true) "2023-11-15 09:00:00"
       true checkout_started_state
     = Return tt (sent (chat_int 7) (msg_ask_phone CONTACT_STORE)
                    (with_session 7 (awaiting_phone CONTACT_STORE)
                       checkout_started_state)).
Proof.
  assert (H1 : free_text CONTACT_STORE = true) by (vm_compute; reflexivity).
  assert (H2 : user_sessions checkout_started_state !! 7 = Some awaiting_name)
    by (vm_compute; reflexivity).
  split; [exact H1|]. split; [exact H2|].
  exact (proj1 (checkout_step_takes_free_text 7 CONTACT_STORE
                  (example_env quarter_past true) "2023-11-15 09:00:00" true
                  checkout_started_state H1) H2).
Defined.

Lemma handle_message_checkout c text env now sheet_answers st :
  text = CHECKOUT \/ text = CHECKOUT_NOW ->
  handle_message c text env now sheet_answers st
  = try_except (handle_checkout c)
      (logger ERROR log_handle_message_error;;
       send_message (chat_int c) msg_error;;
       handle_start c) st.
Proof.
  intros [-> | ->]; unfold handle_message.
  - rewrite (bool_decide_eq_false_2 (CHECKOUT = "/start")) by discriminate.
    rewrite (bool_decide_eq_false_2 (CHECKOUT = SHOP_GROCERIES)) by discriminate.
    rewrite (bool_decide_eq_false_2 (CHECKOUT = MY_CART)) by discriminate.
    rewrite (bool_decide_eq_false_2 (CHECKOUT = TRACK_ORDER)) by discriminate.
    rewrite (bool_decide_eq_false_2 (CHECKOUT = MAIN_MENU)) by discriminate.
    rewrite (bool_decide_eq_false_2 (CHECKOUT = CONTINUE_SHOPPING)) by discriminate.
    rewrite (bool_decide_eq_false_2 (CHECKOUT = ADD_MORE_ITEMS)) by discriminate.
    rewrite (bool_decide_eq_false_2 (CHECKOUT = CLEAR_CART)) by discriminate.
    rewrite (bool_decide_eq_false_2 (CHECKOUT = CHECKOUT_NOW)) by discriminate.
    rewrite (bool_decide_eq_true_2 (CHECKOUT = CHECKOUT)) by reflexivity.
    reflexivity.
  - rewrite (bool_decide_eq_false_2 (CHECKOUT_NOW = "/start")) by discriminate.
    rewrite (bool_decide_eq_false_2 (CHECKOUT_NOW = SHOP_GROCERIES)) by discriminate.
    rewrite (bool_decide_eq_false_2 (CHECKOUT_NOW = MY_CART)) by discriminate.
    rewrite (bool_decide_eq_false_2 (CHECKOUT_NOW = TRACK_ORDER)) by discriminate.
    rewrite (bool_decide_eq_false_2 (CHECKOUT_NOW = MAIN_MENU)) by discriminate.
    rewrite (bool_decide_eq_false_2 (CHECKOUT_NOW = CONTINUE_SHOPPING)) by discriminate.
    rewrite (bool_decide_eq_false_2 (CHECKOUT_NOW = ADD_MORE_ITEMS)) by discriminate.
    rewrite (bool_decide_eq_false_2 (CHECKOUT_NOW = CLEAR_CART)) by discriminate.
    rewrite (bool_decide_eq_true_2 (CHECKOUT_NOW = CHECKOUT_NOW)) by reflexivity.
    reflexivity.
Qed.

(** X3. The two Checkout buttons start the checkout only for a cart that
    has a line: the customer is asked for a name and the session waits for
    it.  With no cart or an empty cart, the customer gets the empty-cart
    notice and the categories, and the session stays as it was. *)
Theorem checkout_needs_a_line c text env now sheet_answers st :
  text = CHECKOUT \/ text = CHECKOUT_NOW ->
  (forall d, user_carts st !! c = Some d -> dict_at st d <> [] ->
     handle_message c text env now sheet_answers st
     = Return tt (with_session c awaiting_name (sent (chat_int c) msg_ask_name st)))
  /\ ((forall d, user_carts st !! c = Some d -> dict_at st d = []) ->
      handle_message c text env now sheet_answers st
      = Return tt (sent (chat_int c) msg_categories
                     (sent (chat_int c) msg_checkout_cart_empty st))).
Proof.
  intros Htext. rewrite (handle_message_checkout c text env now sheet_answers st Htext).
  split.
  - intros d Hd Hne. apply try_except_return. unfold handle_checkout. simpl_m. rewrite Hd.
    destruct (dict_at st d); [congruence|]. rewrite send_message_eq. reflexivity.
  - intros Hempty. apply try_except_return. unfold handle_checkout, show_categories.
    simpl_m. destruct (user_carts st !! c) as [d|] eqn:Hd.
    + rewrite (Hempty d eq_refl). rewrite !send_message_eq. reflexivity.
    + rewrite !send_message_eq. reflexivity.
Qed.

Lemma checkout_needs_a_line_witness :
  user_carts shopping_state !! 7 = Some 0%nat
  /\ dict_at shopping_state 0 <> []
  /\ handle_message 7 CHECKOUT (example_env quarter_past true) "2023-11-15 09:00:00" true
       shopping_state
     = Return tt (with_session 7 awaiting_name
                    (sent (chat_int 7) msg_ask_name shopping_state))
  /\ (forall d, user_carts ordered_state !! 7 = Some d -> dict_at ordered_state d = [])
  /\ handle_message 7 CHECKOUT (example_env quarter_past true) "2023-11-15 09:00:00" true
       ordered_state
     = Return tt (sent (chat_int 7) msg_categories
                    (sent (chat_int 7) msg_checkout_cart_empty ordered_state)).
Proof.
  assert (H1 : user_carts shopping_state !! 7 = Some 0%nat) by (vm_compute; reflexivity).
  assert (H2 : dict_at shopping_state 0 <> []) by (vm_compute; discriminate).
  assert (H3 : forall d, user_carts ordered_state !! 7 = Some d ->
                 dict_at ordered_state d = []).
  { intros d Hd. assert (Hc : user_carts ordered_state !! 7 = Some 2%nat)
      by (vm_compute; reflexivity).
    rewrite Hc in Hd. injection Hd as <-. vm_compute. reflexivity. }
  split; [exact H1|]. split; [exact H2|].
  split; [exact (proj1 (checkout_needs_a_line 7 CHECKOUT (example_env quarter_past true)
                          "2023-11-15 09:00:00" true shopping_state (or_introl eq_refl))
                   0%nat H1 H2)|].
  split; [exact H3|].
  exact (proj2 (checkout_needs_a_line 7 CHECKOUT (example_env quarter_past true)
                  "2023-11-15 09:00:00" true ordered_state (or_introl eq_refl)) H3).
Defined.

(** X4. The whole checkout dialogue.  From a session that waits for the
    name, with a cart whose quantities are convertible and a finite clock,
    four free texts (name, phone, address, instructions) place exactly one
    order: the tracker gains the Pending order with these three answers and
    the cart's lines, the instructions are empty when the fourth text is
    [none] in any letter case and the text itself otherwise, the customer
    is sent the three questions and the confirmation, the session is back
    at the main menu and the cart is a new, empty dict. *)
Theorem checkout_dialogue_places_order c name phone_text address_text instructions env now
    sheet_answers st d seconds :
  free_text name = true -> free_text phone_text = true ->
  free_text address_text = true -> free_text instructions = true ->
  user_sessions st !! c = Some awaiting_name ->
  user_carts st !! c = Some d ->
  Forall convertible (cart_values st d) ->
  Py.int_of_float (time_time env) = Some seconds ->
  exists st1 st2 st3 st4 summary total,
    let order_id := "ORD" +:+ Py.str seconds in
    let o := pending_order c name phone_text address_text (length (dicts st)) total env in
    handle_message c name env now sheet_answers st = Return tt st1
    /\ handle_message c phone_text env now sheet_answers st1 = Return tt st2
    /\ handle_message c address_text env now sheet_answers st2 = Return tt st3
    /\ handle_message c instructions env now sheet_answers st3 = Return tt st4
    /\ order_tracking st4 = <[order_id := o]> (order_tracking st)
    /\ order_lines st4 order_id = Some (cart_items st d)
    /\ s_special_instructions summary
       = (if bool_decide (lower instructions = "none") then EmptyString else instructions)
    /\ s_subtotal summary = sum_of_lines (cart_values st d)
    /\ Py.add (s_subtotal summary) (delivery_fee_for (s_subtotal summary)) = Some total
    /\ outbox st4
       = outbox st
         ++ [(chat_int c, msg_ask_phone name); (chat_int c, msg_ask_address);
             (chat_int c, msg_ask_instructions);
             (chat_int c, msg_order_confirmed name summary order_id total)]
         ++ admin_alert st order_id o (cart_items st d)
    /\ user_sessions st4 !! c = Some main_menu
    /\ exists empty, user_carts st4 !! c = Some empty /\ dict_at st4 empty = [].
Proof.
  intros Hf1 Hf2 Hf3 Hf4 Hs Hd Hconv Hclock.
  set (st1 := sent (chat_int c) (msg_ask_phone name)
                (with_session c (awaiting_phone name) st)).
  set (st2 := sent (chat_int c) msg_ask_address
                (with_session c (awaiting_address name phone_text) st1)).
  set (st3 := sent (chat_int c) msg_ask_instructions
                (with_session c (awaiting_instructions name phone_text address_text) st2)).
  set (text := if bool_decide (lower instructions = "none") then EmptyString
               else instructions).
  assert (Hs1 : user_sessions st1 !! c = Some (awaiting_phone name))
    by apply lookup_insert_eq.
  assert (Hs2 : user_sessions st2 !! c = Some (awaiting_address name phone_text))
    by apply lookup_insert_eq.
  assert (Hs3 : user_sessions st3 !! c
                = Some (awaiting_instructions name phone_text address_text))
    by apply lookup_insert_eq.
  assert (Hconv3 : Forall convertible (cart_values st3 d)) by exact Hconv.
  destruct (process_cash_on_delivery_completes c name phone_text address_text d text env
              st3 seconds Hconv3 Hclock)
    as (summary & total & st4 & Hsummary & Hrun & Htrack & Hout & Hsess & Hcarts & Hdicts
        & Hlines & _).
  destruct (create_enhanced_order_summary_returns name phone_text address_text d text
              (summary_time env) st3 Hconv3)
    as (items_text & missing & total' & Hsummary' & Htotal).
  rewrite Hsummary' in Hsummary. injection Hsummary as <- <-.
  exists st1, st2, st3, st4.
  match type of Hsummary' with _ = Return (?s, _) _ => exists s, total' end.
  cbv zeta.
  split; [apply handle_message_awaiting_name; assumption|].
  split; [apply handle_message_awaiting_phone; assumption|].
  split; [apply handle_message_awaiting_address; assumption|].
  split.
  { rewrite (handle_message_awaiting_instructions c instructions env now sheet_answers st3
               name phone_text address_text d Hf4 Hs3 Hd).
    fold text. rewrite Hrun. reflexivity. }
  assert (Hcart3 : user_carts st3 !! c = Some d) by exact Hd.
  rewrite Hcart3 in Hcarts, Hdicts.
  change (dicts st4 = dicts st ++ dict_at st d :: [[]]) in Hdicts.
  split; [exact Htrack|].
  split.
  { unfold order_lines. rewrite Htrack, lookup_insert_eq. cbn [fmap option_fmap option_map].
    f_equal. unfold cart_items, dict_at, line_at. rewrite Hdicts, Hlines.
    cbn [pending_order cart]. rewrite list_lookup_middle by reflexivity. reflexivity. }
  split; [reflexivity|]. split; [reflexivity|]. split; [exact Htotal|].
  split.
  { rewrite Hout. cbn [outbox st3 st2 st1 sent with_session set_log set_outbox
                         set_user_sessions].
    rewrite <- !app_assoc. reflexivity. }
  split; [rewrite Hsess; apply lookup_insert_eq|].
  exists (S (length (dicts st))). split; [rewrite Hcarts; apply lookup_insert_eq|].
  unfold dict_at. rewrite Hdicts, (lookup_app_r (dicts st)) by lia.
  replace (S (length (dicts st)) - length (dicts st))%nat with 1%nat by lia.
  reflexivity.
Qed.

Lemma checkout_dialogue_places_order_witness :
  free_text "Ann" = true /\ free_text "555-0100" = true /\ free_text "1 Main St" = true
  /\ free_text "None" = true
  /\ user_sessions checkout_started_state !! 7 = Some awaiting_name
  /\ user_carts checkout_started_state !! 7 = Some 0%nat
  /\ Forall convertible (cart_values checkout_started_state 0)
  /\ Py.int_of_float (time_time (example_env quarter_past true)) = Some 1700000000
  /\ exists st1 st2 st3 st4 summary total,
       handle_message 7 "Ann" (example_env quarter_past true) "2023-11-15 09:00:00" true
         checkout_started_state = Return tt st1
       /\ handle_message 7 "555-0100" (example_env quarter_past true) "2023-11-15 09:00:00"
            true st1 = Return tt st2
       /\ handle_message 7 "1 Main St" (example_env quarter_past true)
            "2023-11-15 09:00:00" true st2 = Return tt st3
       /\ handle_message 7 "None" (example_env quarter_past true) "2023-11-15 09:00:00"
            true st3 = Return tt st4
       /\ order_lines st4 "ORD1700000000" = Some (cart_items checkout_started_state 0)
       /\ s_special_instructions summary = EmptyString
       /\ Py.add (s_subtotal summary) (delivery_fee_for (s_subtotal summary)) = Some total
       /\ user_sessions st4 !! 7 = Some main_menu.
Proof.
  assert (H1 : free_text "Ann" = true) by (vm_compute; reflexivity).
  assert (H2 : free_text "555-0100" = true) by (vm_compute; reflexivity).
  assert (H3 : free_text "1 Main St" = true) by (vm_compute; reflexivity).
  assert (H4 : free_text "None" = true) by (vm_compute; reflexivity).
  assert (H5 : user_sessions checkout_started_state !! 7 = Some awaiting_name)
    by (vm_compute; reflexivity).
  assert (H6 : user_carts checkout_started_state !! 7 = Some 0%nat)
    by (vm_compute; reflexivity).
  assert (H7 : Forall convertible (cart_values checkout_started_state 0)).
  { apply (bool_decide_eq_true_1 (Forall convertible _)). vm_compute. reflexivity. }
  assert (H8 : Py.int_of_float (time_time (example_env quarter_past true))
               = Some 1700000000) by (vm_compute; reflexivity).
  repeat (split; [assumption|]).
  destruct (checkout_dialogue_places_order 7 "Ann" "555-0100" "1 Main St" "None"
              (example_env quarter_past true) "2023-11-15 09:00:00" true
              checkout_started_state 0%nat 1700000000 H1 H2 H3 H4 H5 H6 H7 H8)
    as (st1 & st2 & st3 & st4 & summary & total & R1 & R2 & R3 & R4 & _ & L & I & _ & T
        & _ & S & _).
  exists st1, st2, st3, st4, summary, total. auto 10.
Defined.

Lemma handle_message_clear_cart c env now sheet_answers st d :
  user_carts st !! c = Some d ->
  handle_message c CLEAR_CART env now sheet_answers st
  = Return tt (sent (chat_int c) msg_categories
                 (sent (chat_int c) msg_cart_cleared (cleared c st))).
Proof.
  intros Hd. unfold handle_message.
  rewrite (bool_decide_eq_false_2 (CLEAR_CART = "/start")) by discriminate.
  rewrite (bool_decide_eq_false_2 (CLEAR_CART = SHOP_GROCERIES)) by discriminate.
  rewrite (bool_decide_eq_false_2 (CLEAR_CART = MY_CART)) by discriminate.
  rewrite (bool_decide_eq_false_2 (CLEAR_CART = TRACK_ORDER)) by discriminate.
  rewrite (bool_decide_eq_false_2 (CLEAR_CART = MAIN_MENU)) by discriminate.
  rewrite (bool_decide_eq_false_2 (CLEAR_CART = CONTINUE_SHOPPING)) by discriminate.
  rewrite (bool_decide_eq_false_2 (CLEAR_CART = ADD_MORE_ITEMS)) by discriminate.
  rewrite (bool_decide_eq_true_2 (CLEAR_CART = CLEAR_CART)) by reflexivity.
  apply try_except_return. unfold show_categories, alloc_dict. simpl_m. rewrite Hd.
  rewrite bool_decide_eq_true_2 by eauto. rewrite !send_message_eq. reflexivity.
Qed.

(** X5. Clear Cart rebinds the cart to an empty dict and leaves the
    session as it is.  Pressed while the checkout waits for the
    instructions, it does not leave the checkout: the next free text places
    a Pending order with no line and a total of 5, the delivery fee. *)
Theorem clear_cart_keeps_checkout_step c n p a instructions env now sheet_answers st
    seconds :
  free_text instructions = true ->
  user_sessions st !! c = Some (awaiting_instructions n p a) ->
  is_Some (user_carts st !! c) ->
  Py.int_of_float (time_time env) = Some seconds ->
  exists st1 st2 o,
    handle_message c CLEAR_CART env now sheet_answers st = Return tt st1
    /\ user_sessions st1 = user_sessions st
    /\ handle_message c instructions env now sheet_answers st1 = Return tt st2
    /\ order_tracking st2 !! ("ORD" +:+ Py.str seconds) = Some o
    /\ chat_id o = c
    /\ status o = "Pending"
    /\ total o = Py.Int 5
    /\ cart_items st2 (cart o) = [].
Proof.
  intros Hfree Hs [d Hd] Hclock.
  set (st1 := sent (chat_int c) msg_categories
                (sent (chat_int c) msg_cart_cleared (cleared c st))).
  set (text := if bool_decide (lower instructions = "none") then EmptyString
               else instructions).
  assert (Hd1 : user_carts st1 !! c = Some (length (dicts st))) by apply lookup_insert_eq.
  assert (Hempty : dict_at st1 (length (dicts st)) = []).
  { unfold dict_at, st1. cbn. rewrite list_lookup_middle by reflexivity. reflexivity. }
  assert (Hvalues : cart_values st1 (length (dicts st)) = [])
    by (unfold cart_values; rewrite Hempty; reflexivity).
  assert (Hconv : Forall convertible (cart_values st1 (length (dicts st))))
    by (rewrite Hvalues; constructor).
  destruct (process_cash_on_delivery_completes c n p a (length (dicts st)) text env
              st1 seconds Hconv Hclock)
    as (summary & total & st2 & Hsummary & Hrun & Htrack & _ & _ & _ & Hdicts & Hlines & _).
  destruct (create_enhanced_order_summary_returns n p a (length (dicts st)) text
              (summary_time env) st1 Hconv)
    as (items_text & missing & total' & Hsummary' & Htotal).
  rewrite Hsummary' in Hsummary. injection Hsummary as _ <-.
  rewrite Hvalues in Htotal. injection Htotal as <-.
  exists st1, st2. eexists.
  split; [apply (handle_message_clear_cart c env now sheet_answers st d Hd)|].
  split; [reflexivity|].
  split.
  { rewrite (handle_message_awaiting_instructions c instructions env now sheet_answers st1
               n p a (length (dicts st)) Hfree Hs Hd1).
    fold text. rewrite Hrun. reflexivity. }
  split; [rewrite Htrack; apply lookup_insert_eq|].
  split; [reflexivity|]. split; [reflexivity|]. split; [reflexivity|].
  rewrite Hd1 in Hdicts.
  change (dicts st2 = dicts st1 ++ dict_at st1 (length (dicts st)) :: [[]]) in Hdicts.
  cbn [pending_order cart]. unfold cart_items. unfold dict_at at 1.
  rewrite Hdicts, list_lookup_middle by reflexivity. cbn [default].
  rewrite Hempty. reflexivity.
Qed.

Lemma clear_cart_keeps_checkout_step_witness :
  free_text "Leave at door" = true
  /\ user_sessions instructions_asked_state !! 7
     = Some (awaiting_instructions "Ann" "555-0100" "1 Main St")
  /\ is_Some (user_carts instructions_asked_state !! 7)
  /\ Py.int_of_float (time_time (example_env quarter_past true)) = Some 1700000000
  /\ exists st1 st2 o,
       handle_message 7 CLEAR_CART (example_env quarter_past true) "2023-11-15 09:00:00"
         true instructions_asked_state = Return tt st1
       /\ handle_message 7 "Leave at door" (example_env quarter_past true)
            "2023-11-15 09:00:00" true st1 = Return tt st2
       /\ order_tracking st2 !! "ORD1700000000" = Some o
       /\ total o = Py.Int 5
       /\ cart_items st2 (cart o) = [].
Proof.
  assert (H1 : free_text "Leave at door" = true) by (vm_compute; reflexivity).
  assert (H2 : user_sessions instructions_asked_state !! 7
               = Some (awaiting_instructions "Ann" "555-0100" "1 Main St"))
    by (vm_compute; reflexivity).
  assert (H3 : is_Some (user_carts instructions_asked_state !! 7))
    by (exists 0%nat; vm_compute; reflexivity).
  assert (H4 : Py.int_of_float (time_time (example_env quarter_past true))
               = Some 1700000000) by (vm_compute; reflexivity).
  repeat (split; [assumption|]).
  destruct (clear_cart_keeps_checkout_step 7 "Ann" "555-0100" "1 Main St" "Leave at door"
              (example_env quarter_past true) "2023-11-15 09:00:00" true
              instructions_asked_state 1700000000 H1 H2 H3 H4)
    as (st1 & st2 & o & R1 & _ & R2 & Ho & _ & _ & Ht & Hc).
  exists st1, st2, o. auto 10.
Defined.

(** *** The admin's actions *)

(** X6. The reason typed by the admin after Cancel Order cancels the
    order: the record gets the status Cancelled and the new [updated_at],
    the order's customer is sent the cancellation with the reason, the
    admin is sent the acknowledgement, and the admin's session is back at
    the main menu. *)
Theorem cancel_reason_cancels_order c reason env now sheet_answers st order_id o :
  free_text reason = true ->
  user_sessions st !! c = Some (awaiting_cancel_reason order_id) ->
  order_id <> EmptyString ->
  order_tracking st !! order_id = Some o ->
  formattable (total o) ->
  exists st',
    handle_message c reason env now sheet_answers st = Return tt st'
    /\ order_tracking st' = <[order_id := with_status o "Cancelled" now]> (order_tracking st)
    /\ outbox st'
       = outbox st
         ++ [(chat_int (chat_id o), msg_order_cancelled (customer_name o) order_id reason);
             (chat_int c, msg_cancel_done order_id)]
    /\ user_sessions st' = <[c := main_menu]> (user_sessions st)
    /\ user_carts st' = user_carts st.
Proof.
  intros Hfree Hs Hne Ho Hfmt.
  rewrite (handle_message_awaiting_cancel_reason c reason env now sheet_answers st order_id
             Hfree Hs).
  destruct (update_order_status_does order_id o "Cancelled" reason now sheet_answers st Ho
              Hfmt)
    as (st1 & Hrun & Htrack & Hout & _ & Hsess & Hcarts & _).
  simpl_m. unfold truthy. rewrite (bool_decide_eq_false_2 _ Hne). cbn [negb].
  rewrite Hrun. cbv beta iota. rewrite send_message_eq.
  eexists. split; [reflexivity|]. cbn. rewrite Htrack, Hout, Hsess, Hcarts.
  rewrite <- app_assoc. auto.
Qed.

Lemma cancel_reason_cancels_order_witness :
  free_text "Out of stock" = true
  /\ user_sessions cancel_asked_state !! 999
     = Some (awaiting_cancel_reason "ORD1700000000")
  /\ exists o st',
       order_tracking cancel_asked_state !! "ORD1700000000" = Some o
       /\ handle_message 999 "Out of stock" (example_env quarter_past true)
            "2023-11-15 09:10:00" true cancel_asked_state = Return tt st'
       /\ order_tracking st'
          = <["ORD1700000000" := with_status o "Cancelled" "2023-11-15 09:10:00"]>
              (order_tracking cancel_asked_state)
       /\ outbox st'
          = outbox cancel_asked_state
            ++ [(chat_int (chat_id o),
                 msg_order_cancelled (customer_name o) "ORD1700000000" "Out of stock");
                (chat_int 999, msg_cancel_done "ORD1700000000")].
Proof.
  assert (H1 : free_text "Out of stock" = true) by (vm_compute; reflexivity).
  assert (H2 : user_sessions cancel_asked_state !! 999
               = Some (awaiting_cancel_reason "ORD1700000000"))
    by (vm_compute; reflexivity).
  assert (H3 : "ORD1700000000" <> EmptyString) by discriminate.
  assert (H4 : exists o, order_tracking cancel_asked_state !! "ORD1700000000" = Some o
                         /\ formattable (total o)).
  { eexists. split; [vm_compute; reflexivity|].
    apply (bool_decide_eq_true_1 (formattable _)). vm_compute. reflexivity. }
  split; [exact H1|]. split; [exact H2|].
  destruct H4 as (o & H4 & H5).
  destruct (cancel_reason_cancels_order 999 "Out of stock" (example_env quarter_past true)
              "2023-11-15 09:10:00" true cancel_asked_state "ORD1700000000" o H1 H2 H3 H4
              H5)
    as (st' & R & T & O & _).
  exists o, st'. auto.
Defined.

(** X7. For an order id that is not in the tracker, or the empty id (the
    token [cancel_] alone), the reason cancels nothing: the admin is sent
    the failure notice and the session goes back to the main menu; nothing
    else changes, and no customer is notified. *)
Theorem cancel_reason_unknown_order c reason env now sheet_answers st order_id :
  free_text reason = true ->
  user_sessions st !! c = Some (awaiting_cancel_reason order_id) ->
  order_id = EmptyString \/ order_tracking st !! order_id = None ->
  handle_message c reason env now sheet_answers st
  = Return tt (with_session c main_menu
                 (sent (chat_int c) (msg_cancel_failed order_id) st)).
Proof.
  intros Hfree Hs Hid.
  rewrite (handle_message_awaiting_cancel_reason c reason env now sheet_answers st order_id
             Hfree Hs).
  simpl_m. unfold truthy.
  destruct (decide (order_id = EmptyString)) as [Heq|Hne].
  - rewrite (bool_decide_eq_true_2 _ Heq). cbn [negb]. rewrite send_message_eq.
    reflexivity.
  - rewrite (bool_decide_eq_false_2 _ Hne). cbn [negb].
    destruct Hid as [?|Hnone]; [contradiction|].
    unfold update_order_status. simpl_m. rewrite Hnone. rewrite send_message_eq.
    reflexivity.
Qed.

Lemma cancel_reason_unknown_order_witness :
  free_text "Out of stock" = true
  /\ handle_message 999 "Out of stock" (example_env quarter_past true)
       "2023-11-15 09:10:00" true
       (with_session 999 (awaiting_cancel_reason EmptyString) ordered_state)
     = Return tt (with_session 999 main_menu
                    (sent (chat_int 999) (msg_cancel_failed EmptyString)
                       (with_session 999 (awaiting_cancel_reason EmptyString)
                          ordered_state))).
Proof.
  assert (H1 : free_text "Out of stock" = true) by (vm_compute; reflexivity).
  split; [exact H1|].
  apply (cancel_reason_unknown_order 999 "Out of stock" (example_env quarter_past true)
           "2023-11-15 09:10:00" true _ EmptyString H1).
  - vm_compute. reflexivity.
  - left. reflexivity.
Defined.

(** The admin's tokens reach [handle_admin_callback]. *)
Lemma admin_token_dispatch c callback_data now sheet_answers st :
  admin_prefixed callback_data = true ->
  handle_callback_query c callback_data now sheet_answers st
  = handle_admin_callback c callback_data now sheet_answers st.
Proof.
  intros Hprefixed.
  destruct (admin_prefixed_dispatch callback_data Hprefixed) as (Hadd & Hback & Hview).
  unfold handle_callback_query.
  rewrite Hadd, (bool_decide_eq_false_2 _ Hback), (bool_decide_eq_false_2 _ Hview),
    Hprefixed.
  reflexivity.
Qed.

(** X8. View Details, pressed by the admin on a stored order whose total
    formats: the details are sent only for an order whose dict has no line.
    For an order with a line, the loop over the lines rebinds [details] to
    a line dict, the concatenation raises, and the admin is sent the error
    notice; the handler's log gets the error. *)
Theorem order_details_only_without_lines c order_id o now sheet_answers st :
  not_admin st c = false ->
  order_tracking st !! order_id = Some o ->
  formattable (total o) ->
  handle_callback_query c ("details_" +:+ order_id) now sheet_answers st
  = Return tt
      (match dict_at st (cart o) with
       | [] =>
           sent (chat_int c)
             (msg_order_details order_id (customer_name o) (phone o) (address o)
                (status o) (total o) (created_at o) (updated_at o)) st
       | _ :: _ =>
           sent (chat_int c) msg_admin_error
             (set_log (log st ++ [(ERROR, log_admin_callback_error)]) st)
       end).
Proof.
  intros Hadmin Ho [text Htext].
  rewrite admin_token_dispatch
    by (unfold admin_prefixed; rewrite (prefix_append "details_"), !orb_true_r; reflexivity).
  unfold handle_admin_callback. simpl_m. rewrite Hadmin.
  change (String.prefix "ship_" ("details_" +:+ order_id)) with false.
  change (String.prefix "cancel_" ("details_" +:+ order_id)) with false.
  change (String.prefix "deliver_" ("details_" +:+ order_id)) with false.
  rewrite (prefix_append "details_").
  change (drop_chars 8 ("details_" +:+ order_id)) with order_id.
  cbv iota. rewrite Ho, Htext. cbv beta iota.
  destruct (dict_at st (cart o)); rewrite send_message_eq; reflexivity.
Qed.

Lemma order_details_only_without_lines_witness :
  not_admin ordered_state 999 = false
  /\ exists o,
       order_tracking ordered_state !! "ORD1700000000" = Some o
       /\ dict_at ordered_state (cart o) <> []
       /\ handle_callback_query 999 "details_ORD1700000000" "2023-11-15 09:00:00" true
            ordered_state
          = Return tt
              (sent (chat_int 999) msg_admin_error
                 (set_log (log ordered_state ++ [(ERROR, log_admin_callback_error)])
                    ordered_state)).
Proof.
  assert (H1 : not_admin ordered_state 999 = false) by (vm_compute; reflexivity).
  assert (H2 : exists o, order_tracking ordered_state !! "ORD1700000000" = Some o
                         /\ formattable (total o)
                         /\ exists kv d, dict_at ordered_state (cart o) = kv :: d).
  { eexists. split; [vm_compute; reflexivity|]. split; [|vm_compute; eauto].
    apply (bool_decide_eq_true_1 (formattable _)). vm_compute. reflexivity. }
  split; [exact H1|].
  destruct H2 as (o & H2 & Hfmt & kv & d & H3). exists o.
  split; [exact H2|]. split; [rewrite H3; discriminate|].
  pose proof (order_details_only_without_lines 999 "ORD1700000000" o
                "2023-11-15 09:00:00" true ordered_state H1 H2 Hfmt) as H.
  rewrite H3 in H. exact H.
Defined.

(** X9. The admin's Mark as Shipped and Mark Delivered buttons, on a
    stored order whose total formats: the record gets the status and the
    new [updated_at], the order's customer is sent the status message (for
    Shipped with the total and the note [Your order is on the way!]), and
    the admin is sent the acknowledgement.  On an id that is not in the
    tracker the admin is sent the not-found notice and nothing else
    changes. *)
Theorem admin_marks_order c order_id now sheet_answers st :
  not_admin st c = false ->
  (forall o, order_tracking st !! order_id = Some o -> formattable (total o) ->
     (exists st',
        handle_callback_query c ("ship_" +:+ order_id) now sheet_answers st
        = Return tt st'
        /\ order_tracking st'
           = <[order_id := with_status o "Shipped" now]> (order_tracking st)
        /\ outbox st'
           = outbox st
             ++ [(chat_int (chat_id o),
                  msg_order_shipped (customer_name o) order_id (total o)
                    "Your order is on the way!");
                 (chat_int c, msg_marked_shipped order_id)])
     /\ (exists st',
           handle_callback_query c ("deliver_" +:+ order_id) now sheet_answers st
           = Return tt st'
           /\ order_tracking st'
              = <[order_id := with_status o "Delivered" now]> (order_tracking st)
           /\ outbox st'
              = outbox st
                ++ [(chat_int (chat_id o), msg_order_delivered (customer_name o) order_id);
                    (chat_int c, msg_marked_delivered order_id)]))
  /\ (order_tracking st !! order_id = None ->
      handle_callback_query c ("ship_" +:+ order_id) now sheet_answers st
      = Return tt (sent (chat_int c) (msg_order_not_found order_id) st)
      /\ handle_callback_query c ("deliver_" +:+ order_id) now sheet_answers st
         = Return tt (sent (chat_int c) (msg_order_not_found order_id) st)).
Proof.
  intros Hadmin.
  assert (Hship : handle_callback_query c ("ship_" +:+ order_id) now sheet_answers st
                  = try_except
                      (ok ← update_order_status order_id "Shipped"
                              "Your order is on the way!" now sheet_answers;
                       (if ok : bool
                        then send_message (chat_int c) (msg_marked_shipped order_id)
                        else send_message (chat_int c) (msg_order_not_found order_id));;
                       ret tt)
                      (logger ERROR log_admin_callback_error;;
                       send_message (chat_int c) msg_admin_error;;
                       ret tt) st).
  { rewrite admin_token_dispatch
      by (unfold admin_prefixed; rewrite (prefix_append "ship_"); reflexivity).
    unfold handle_admin_callback. simpl_m. rewrite Hadmin, (prefix_append "ship_").
    change (drop_chars 5 ("ship_" +:+ order_id)) with order_id.
    reflexivity. }
  assert (Hdeliver : handle_callback_query c ("deliver_" +:+ order_id) now sheet_answers st
                     = try_except
                         (ok ← update_order_status order_id "Delivered" EmptyString now
                                 sheet_answers;
                          (if ok : bool
                           then send_message (chat_int c) (msg_marked_delivered order_id)
                           else send_message (chat_int c) (msg_order_not_found order_id));;
                          ret tt)
                         (logger ERROR log_admin_callback_error;;
                          send_message (chat_int c) msg_admin_error;;
                          ret tt) st).
  { rewrite admin_token_dispatch
      by (unfold admin_prefixed; rewrite (prefix_append "deliver_"), !orb_true_r;
          reflexivity).
    unfold handle_admin_callback. simpl_m. rewrite Hadmin.
    change (String.prefix "ship_" ("deliver_" +:+ order_id)) with false.
    change (String.prefix "cancel_" ("deliver_" +:+ order_id)) with false.
    rewrite (prefix_append "deliver_").
    change (drop_chars 8 ("deliver_" +:+ order_id)) with order_id.
    reflexivity. }
  rewrite Hship, Hdeliver. clear Hship Hdeliver. split.
  - intros o Ho Hfmt. split.
    + destruct (update_order_status_does order_id o "Shipped" "Your order is on the way!"
                  now sheet_answers st Ho Hfmt) as (st1 & Hrun & Htrack & Hout & _).
      simpl_m. rewrite Hrun. cbv beta iota. rewrite send_message_eq.
      eexists. split; [reflexivity|]. cbn. rewrite Htrack, Hout, <- app_assoc. auto.
    + destruct (update_order_status_does order_id o "Delivered" EmptyString
                  now sheet_answers st Ho Hfmt) as (st1 & Hrun & Htrack & Hout & _).
      simpl_m. rewrite Hrun. cbv beta iota. rewrite send_message_eq.
      eexists. split; [reflexivity|]. cbn. rewrite Htrack, Hout, <- app_assoc. auto.
  - intros Hnone. unfold update_order_status. simpl_m. rewrite Hnone.
    rewrite !send_message_eq. auto.
Qed.

Lemma admin_marks_order_witness :
  not_admin ordered_state 999 = false
  /\ exists o st',
       order_tracking ordered_state !! "ORD1700000000" = Some o
       /\ handle_callback_query 999 "ship_ORD1700000000" "2023-11-15 09:00:00" true
            ordered_state = Return tt st'
       /\ order_tracking st'
          = <["ORD1700000000" := with_status o "Shipped" "2023-11-15 09:00:00"]>
              (order_tracking ordered_state)
       /\ outbox st'
          = outbox ordered_state
            ++ [(chat_int (chat_id o),
                 msg_order_shipped (customer_name o) "ORD1700000000" (total o)
                   "Your order is on the way!");
                (chat_int 999, msg_marked_shipped "ORD1700000000")].
Proof.
  assert (H1 : not_admin ordered_state 999 = false) by (vm_compute; reflexivity).
  assert (H2 : exists o, order_tracking ordered_state !! "ORD1700000000" = Some o
                         /\ formattable (total o)).
  { eexists. split; [vm_compute; reflexivity|].
    apply (bool_decide_eq_true_1 (formattable _)). vm_compute. reflexivity. }
  split; [exact H1|]. destruct H2 as (o & H2 & Hfmt).
  destruct (proj1 (proj1 (admin_marks_order 999 "ORD1700000000" "2023-11-15 09:00:00" true
                            ordered_state H1) o H2 Hfmt)) as (st' & R & T & O).
  exists o, st'. auto.
Defined.

(** *** Buttons and tokens *)

(** X10. The buttons of a category and the callback handler agree: for
    every item of a category of the catalog, the listing has a button with
    the token [add_<item name>], and that token, sent back as a callback,
    is an addition of this very item to the cart; the two buttons of the
    last row show the categories and the cart. *)
Theorem category_buttons_add_their_item c category items item_name item_details now
    sheet_answers st :
  dict_get category grocery_categories = Some items ->
  (item_name, item_details) ∈ items ->
  show_category_items c category st
  = Return tt
      (with_session c (browsing_category category)
         (sent (chat_int c)
            (msg_category_items category items
               (((fun kv : string * item => ["add_" +:+ kv.1]) <$> items)
                ++ [["back_categories"; "view_cart"]])) st))
  /\ ["add_" +:+ item_name] ∈ (fun kv : string * item => ["add_" +:+ kv.1]) <$> items
  /\ handle_callback_query c ("add_" +:+ item_name) now sheet_answers st
     = handle_add_to_cart c item_name st
  /\ find_item grocery_categories item_name = Some item_details
  /\ handle_callback_query c "back_categories" now sheet_answers st = show_categories c st
  /\ handle_callback_query c "view_cart" now sheet_answers st = show_cart c st.
Proof.
  intros Hcategory Hitem. split; [|split; [|split; [|split; [|split]]]].
  - unfold show_category_items. rewrite Hcategory. simpl_m. rewrite send_message_eq.
    reflexivity.
  - apply list_elem_of_fmap. exists (item_name, item_details). auto.
  - unfold handle_callback_query. rewrite (prefix_append "add_"). reflexivity.
  - unfold grocery_categories in Hcategory. cbn [dict_get fst snd] in Hcategory.
    repeat match type of Hcategory with
           | (if decide ?P then _ else _) = _ =>
               destruct (decide P) as [_|_]; [injection Hcategory as <-|]
           end; [..|discriminate].
    all: repeat match type of Hitem with
                | _ ∈ _ :: _ => apply elem_of_cons in Hitem as [[= -> ->]|Hitem]
                | _ ∈ [] => apply elem_of_nil in Hitem; contradiction
                end.
    all: reflexivity.
  - reflexivity.
  - reflexivity.
Qed.

Lemma category_buttons_add_their_item_witness :
  exists items,
    dict_get "🥛 Dairy & Eggs" grocery_categories = Some items
    /\ ("🧀 Cheese", Item (Py.literal 699) "block") ∈ items
    /\ handle_callback_query 7 "add_🧀 Cheese" "2023-11-15 09:00:00" true shopping_state
       = handle_add_to_cart 7 "🧀 Cheese" shopping_state
    /\ find_item grocery_categories "🧀 Cheese" = Some (Item (Py.literal 699) "block").
Proof.
  eexists. split; [reflexivity|].
  assert (H : ("🧀 Cheese", Item (Py.literal 699) "block")
              ∈ [ ("🥛 Milk", Item (Py.literal 299) "liter");
                  ("🧀 Cheese", Item (Py.literal 699) "block");
                  ("🍳 Eggs", Item (Py.literal 499) "dozen");
                  ("🧈 Butter", Item (Py.literal 399) "block") ])
    by (right; left).
  split; [exact H|].
  destruct (category_buttons_add_their_item 7 "🥛 Dairy & Eggs" _ "🧀 Cheese"
              (Item (Py.literal 699) "block") "2023-11-15 09:00:00" true shopping_state
              eq_refl H) as (_ & _ & R & F & _).
  auto.
Defined.

(** *** The status cell of the sheet *)

Lemma update_first_status_first order_id new_status pre r post :
  Forall (fun r' => row_order_id r' <> order_id) pre ->
  row_order_id r = order_id ->
  update_first_status order_id new_status (pre ++ r :: post)
  = Some (pre ++ with_row_status r new_status :: post).
Proof.
  intros Hpre Hr. induction Hpre as [|r' pre Hr' _ IH]; cbn [app update_first_status].
  - rewrite decide_True by exact Hr. reflexivity.
  - rewrite decide_False by exact Hr'. rewrite IH. reflexivity.
Qed.

Lemma update_first_status_none order_id new_status rows :
  Forall (fun r' => row_order_id r' <> order_id) rows ->
  update_first_status order_id new_status rows = None.
Proof.
  induction 1 as [|r' rows Hr' _ IH]; cbn [update_first_status]; [reflexivity|].
  rewrite decide_False by exact Hr'. rewrite IH. reflexivity.
Qed.

(** X11. A status update of an order whose total formats rewrites the
    status cell of the first row of the sheet that carries the order id,
    and no other cell: the rows before it and all the rows after it stay as
    they are, also those with the same order id (two checkouts in one
    second leave two such rows).  When no row carries the id, the sheet is
    not changed and the update still returns [True]. *)
Theorem status_update_marks_first_row order_id o new_status admin_note now st rows :
  order_tracking st !! order_id = Some o ->
  formattable (total o) ->
  sheet st = Some rows ->
  (forall pre r post,
     rows = pre ++ r :: post ->
     Forall (fun r' => row_order_id r' <> order_id) pre ->
     row_order_id r = order_id ->
     exists st',
       update_order_status order_id new_status admin_note now true st = Return true st'
       /\ sheet st' = Some (pre ++ with_row_status r new_status :: post))
  /\ (Forall (fun r' => row_order_id r' <> order_id) rows ->
      exists st',
        update_order_status order_id new_status admin_note now true st = Return true st'
        /\ sheet st' = Some rows
        /\ status <$> order_tracking st' !! order_id = Some new_status).
Proof.
  intros Ho Hfmt Hsheet.
  destruct (update_order_status_does order_id o new_status admin_note now true st Ho Hfmt)
    as (st' & Hrun & Htrack & _ & Hsheet' & _).
  rewrite Hsheet in Hsheet'. split.
  - intros pre r post -> Hpre Hr. exists st'. split; [exact Hrun|].
    rewrite Hsheet', update_first_status_first by assumption. reflexivity.
  - intros Hnone. exists st'. split; [exact Hrun|].
    rewrite Hsheet', update_first_status_none by assumption.
    split; [reflexivity|]. rewrite Htrack, lookup_insert_eq. reflexivity.
Qed.

(** X12. When the requests to the sheet fail during a status update of an
    order whose total formats, the update goes on: the record in the
    tracker gets the new status, the customer is sent the status message,
    and the call returns [True]; the sheet keeps the old status and the
    failure is only logged. *)
Theorem status_update_survives_sheet_failure order_id o new_status admin_note now st rows :
  order_tracking st !! order_id = Some o ->
  formattable (total o) ->
  sheet st = Some rows ->
  exists st',
    update_order_status order_id new_status admin_note now false st = Return true st'
    /\ order_tracking st' = <[order_id := with_status o new_status now]> (order_tracking st)
    /\ outbox st'
       = outbox st
         ++ match status_message order_id o new_status admin_note with
            | Some m => [(chat_int (chat_id o), m)]
            | None => []
            end
    /\ sheet st' = Some rows
    /\ (ERROR, log_sheet_status_failed) ∈ log st'.
Proof.
  intros Ho Hfmt Hsheet.
  destruct (update_order_status_does order_id o new_status admin_note now false st Ho Hfmt)
    as (st' & Hrun & Htrack & Hout & Hsheet' & _ & _ & _ & _ & _ & _ & Hlog).
  exists st'. rewrite Hsheet in Hsheet'.
  split; [exact Hrun|]. split; [exact Htrack|]. split; [exact Hout|].
  split; [exact Hsheet'|]. apply Hlog; [reflexivity|]. rewrite Hsheet. eauto.
Qed.

Lemma status_update_marks_first_row_witness :
  exists o r1 r2 st',
    order_tracking overwritten_state !! "ORD1700000000" = Some o
    /\ chat_id o = 8
    /\ sheet overwritten_state = Some [r1; r2]
    /\ row_order_id r1 = "ORD1700000000" /\ row_chat_id r1 = "7"
    /\ row_order_id r2 = "ORD1700000000" /\ row_chat_id r2 = "8"
    /\ update_order_status "ORD1700000000" "Shipped" "" "2023-11-15 09:00:00" true
         overwritten_state = Return true st'
    /\ sheet st' = Some [with_row_status r1 "Shipped"; r2]
    /\ row_status r2 = "Pending".
Proof.
  assert (H1 : exists o, order_tracking overwritten_state !! "ORD1700000000" = Some o
                         /\ chat_id o = 8 /\ formattable (total o)).
  { eexists. split; [vm_compute; reflexivity|]. split; [reflexivity|].
    apply (bool_decide_eq_true_1 (formattable _)). vm_compute. reflexivity. }
  assert (H2 : exists r1 r2,
            sheet overwritten_state = Some [r1; r2]
            /\ row_order_id r1 = "ORD1700000000" /\ row_chat_id r1 = "7"
            /\ row_order_id r2 = "ORD1700000000" /\ row_chat_id r2 = "8"
            /\ row_status r2 = "Pending") by (vm_compute; eauto 10).
  destruct H1 as (o & Ho & Hc & Hfmt), H2 as (r1 & r2 & Hsheet & I1 & C1 & I2 & C2 & S2).
  destruct (proj1 (status_update_marks_first_row "ORD1700000000" o "Shipped" ""
                     "2023-11-15 09:00:00" overwritten_state [r1; r2] Ho Hfmt Hsheet)
              [] r1 [r2] eq_refl (Forall_nil_2 _) I1) as (st' & R & S).
  exists o, r1, r2, st'. auto 12.
Defined.

Lemma status_update_survives_sheet_failure_witness :
  exists o rows st',
    order_tracking ordered_state !! "ORD1700000000" = Some o
    /\ sheet ordered_state = Some rows
    /\ update_order_status "ORD1700000000" "Shipped" "" "2023-11-15 09:00:00" false
         ordered_state = Return true st'
    /\ status <$> order_tracking st' !! "ORD1700000000" = Some "Shipped"
    /\ sheet st' = Some rows
    /\ (ERROR, log_sheet_status_failed) ∈ log st'.
Proof.
  assert (H1 : exists o, order_tracking ordered_state !! "ORD1700000000" = Some o
                         /\ formattable (total o)).
  { eexists. split; [vm_compute; reflexivity|].
    apply (bool_decide_eq_true_1 (formattable _)). vm_compute. reflexivity. }
  assert (H2 : exists rows, sheet ordered_state = Some rows) by (vm_compute; eauto).
  destruct H1 as (o & Ho & Hfmt), H2 as [rows Hsheet].
  destruct (status_update_survives_sheet_failure "ORD1700000000" o "Shipped" ""
              "2023-11-15 09:00:00" ordered_state rows Ho Hfmt Hsheet)
    as (st' & R & T & _ & S & L).
  exists o, rows, st'. split; [exact Ho|]. split; [exact Hsheet|]. split; [exact R|].
  split; [rewrite T, lookup_insert_eq; reflexivity|]. auto.
Defined.

(** *** Exceptions *)

Lemma handler_returns c st :
  exists st',
    (logger ERROR log_handle_message_error;;
     send_message (chat_int c) msg_error;;
     handle_start c) st = Return tt st'.
Proof. simpl_m. rewrite send_message_eq, handle_start_eq. eauto. Qed.

(** X13. [handle_message] always returns: whatever the text, the session
    and the carts, an exception raised while the text is handled (a cart
    missing at the last step of the checkout, a quantity that cannot be
    priced in the cart view) is caught, and the handler of the exception
    itself cannot raise. *)
Theorem handle_message_always_returns c text env now sheet_answers st :
  exists st', handle_message c text env now sheet_answers st = Return tt st'.
Proof.
  unfold handle_message.
  match goal with
  | |- exists st', try_except ?m ?h st = _ =>
      unfold try_except at 1; destruct (m st) as [[] st1|st1]; [eauto|]
  end.
  apply handler_returns.
Qed.

(** *** The carts of the other customers *)

Lemma other_carts_kept_same_data who c st st' :
  same_data who st st' -> other_carts_kept c st st'.
Proof.
  intros H c' d' _ Hd'. split.
  - destruct H as (_ & _ & _ & -> & _). exact Hd'.
  - eapply cart_items_same_data, H.
Qed.

Lemma other_carts_kept_trans c st st1 st2 :
  other_carts_kept c st st1 -> other_carts_kept c st1 st2 -> other_carts_kept c st st2.
Proof.
  intros H1 H2 c' d' Hne Hd'. destruct (H1 c' d' Hne Hd') as [Hd1 Hi1].
  destruct (H2 c' d' Hne Hd1) as [Hd2 Hi2]. split; [exact Hd2|congruence].
Qed.

Lemma other_carts_kept_cleared c st : other_carts_kept c st (cleared c st).
Proof.
  intros c' d' Hne Hd'. split.
  - cbn. rewrite lookup_insert_ne by congruence. exact Hd'.
  - apply cart_items_ext; [apply dict_at_cleared | reflexivity].
Qed.

Lemma other_carts_kept_add c item_name st :
  wf st -> separated st ->
  other_carts_kept c st (final_state (handle_add_to_cart c item_name st)).
Proof.
  intros Hwf Hsep c' d' Hne Hd'.
  pose proof (wf_cart_bound _ _ _ Hwf Hd') as Hb'.
  destruct (find_item grocery_categories item_name) as [item_details|] eqn:Hfind.
  - destruct (user_carts st !! c) as [d0|] eqn:Hcart.
    + destruct (dict_get item_name (dict_at st d0)) as [l|] eqn:Hget.
      * rewrite (handle_add_to_cart_increment st c item_name item_details d0 l
                   Hfind Hcart Hget). cbn [final_state].
        split; [exact Hd'|]. apply cart_items_ext; [reflexivity|].
        intros l' Hl'. unfold line_at. cbn.
        rewrite list_lookup_alter_ne; [reflexivity|]. intros ->.
        destruct Hsep as (_ & _ & S3 & _).
        eapply (S3 c c' d0 d'); eauto. apply dict_get_locs in Hget. exact Hget.
      * rewrite (handle_add_to_cart_new_line st c item_name item_details d0
                   Hfind Hcart Hget). cbn [final_state].
        split; [exact Hd'|]. apply cart_items_ext.
        -- unfold dict_at. cbn. rewrite list_lookup_alter_ne; [reflexivity|].
           intros ->. destruct Hsep as (S1 & _). apply Hne. eauto.
        -- intros l Hl. unfold line_at. cbn.
           rewrite lookup_app_l by (eapply wf_loc_bound; eauto). reflexivity.
    + rewrite (handle_add_to_cart_no_cart st c item_name item_details Hfind Hcart).
      cbn [final_state]. split.
      * cbn. rewrite lookup_insert_ne by congruence. exact Hd'.
      * apply cart_items_ext.
        -- unfold dict_at. cbn. rewrite lookup_app_l by exact Hb'. reflexivity.
        -- intros l Hl. unfold line_at. cbn.
           rewrite lookup_app_l by (eapply wf_loc_bound; eauto). reflexivity.
  - unfold handle_add_to_cart. rewrite Hfind. simpl_m. rewrite send_message_eq.
    cbn [final_state]. split; [exact Hd'|reflexivity].
Qed.

Lemma other_carts_kept_checkout c customer_name phone address d0 special_instructions env
    st :
  wf st -> user_carts st !! c = Some d0 ->
  other_carts_kept c st
    (final_state (process_cash_on_delivery c customer_name phone address d0
                    special_instructions env st)).
Proof.
  intros Hwf Hcart c' d' Hne Hd'.
  pose proof (wf_cart_bound _ _ _ Hwf Hd') as Hb'.
  destruct (decide (Forall convertible (cart_values st d0))) as [Hconv|Hnot];
    [destruct (Py.int_of_float (time_time env)) as [seconds|] eqn:Hclock|].
  - destruct (process_cash_on_delivery_completes c customer_name phone address d0
                special_instructions env st seconds Hconv Hclock)
      as (summary & total & st' & _ & Hrun & _ & _ & _ & Hcarts' & Hdicts' & Hlines' & _).
    rewrite Hrun. cbn [final_state]. rewrite Hcart in Hcarts', Hdicts'. split.
    + rewrite Hcarts', lookup_insert_ne by congruence. exact Hd'.
    + apply cart_items_ext; [eapply dict_at_app_l; eauto|].
      intros l _. unfold line_at. rewrite Hlines'. reflexivity.
  - rewrite process_cash_on_delivery_fails by auto. cbn [final_state].
    split; [exact Hd'|reflexivity].
  - rewrite process_cash_on_delivery_fails by auto. cbn [final_state].
    split; [exact Hd'|reflexivity].
Qed.

Lemma handle_message_other_carts c text env now sheet_answers st :
  wf st ->
  other_carts_kept c st (final_state (handle_message c text env now sheet_answers st)).
Proof.
  intros Hwf.
  destruct (handle_message_cases c text env now sheet_answers st)
    as [H|[(d & _ & Hd & H)|[(n & p & a & d & i & _ & _ & Hd & ->)|(id & _ & _ & H)]]].
  - eapply other_carts_kept_same_data, (frame_same_data (fun _ => False)), H.
  - eapply other_carts_kept_trans; [apply other_carts_kept_cleared|].
    eapply other_carts_kept_same_data, (frame_same_data (fun _ => False)), H.
  - apply other_carts_kept_checkout; assumption.
  - eapply other_carts_kept_same_data, H.
Qed.

Lemma handle_callback_query_other_carts c callback_data now sheet_answers st :
  wf st -> separated st ->
  other_carts_kept c st
    (final_state (handle_callback_query c callback_data now sheet_answers st)).
Proof.
  intros Hwf Hsep.
  destruct (handle_callback_query_cases c callback_data now sheet_answers st)
    as [H|[(item_name & ->)|(_ & H)]].
  - eapply other_carts_kept_same_data, (frame_same_data (fun _ => False)), H.
  - apply other_carts_kept_add; assumption.
  - eapply other_carts_kept_same_data, H.
Qed.

(** *** The polling loop *)

Lemma handle_updates_app pre rest env st :
  handle_updates (pre ++ rest) env st
  = match handle_updates pre env st with
    | Return _ st1 => handle_updates rest env st1
    | Raise st1 => Raise st1
    end.
Proof.
  revert st. induction pre as [|u pre IH]; intros st; [reflexivity|].
  cbn [app handle_updates]. simpl_m.
  destruct (handle_update u.2 (env u.1) st) as [[] st0|st0]; [apply IH | reflexivity].
Qed.

Lemma fold_left_max_ge (l : list Z) (a : Z) :
  a <= fold_left Z.max l a /\ Forall (fun x => x <= fold_left Z.max l a) l.
Proof.
  revert a. induction l as [|x l IH]; intros a; cbn [fold_left]; [split; [lia|constructor]|].
  destruct (IH (Z.max a x)) as [H1 H2]. split; [lia|]. constructor; [lia|exact H2].
Qed.

Lemma max_update_id_ge (u : Z * update) (updates : list (Z * update)) :
  Forall (fun v : Z * update => v.1 <= max_update_id u updates) (u :: updates).
Proof.
  unfold max_update_id. destruct (fold_left_max_ge updates.*1 u.1) as [H1 H2].
  constructor; [exact H1|]. rewrite Forall_fmap in H2. exact H2.
Qed.

(** X14. An update that makes the loop of [main] raise (a callback query
    without its message or its data) ends the turn: the error is logged,
    the updates that follow it in the batch are not handled, and since
    [last_update_id] is already the highest id of the batch, the next poll
    asks for ids above all of them: they are dropped. *)
Theorem main_turn_drops_rest last_update_id requests_get env st pre i post st1 :
  requests_get (last_update_id + 1)
  = get_answered 200 (Some (true, pre ++ (i, upd_callback_incomplete) :: post)) ->
  handle_updates pre env st = Return tt st1 ->
  exists new_last,
    main_turn last_update_id requests_get env st
    = Return new_last (set_log (log st1 ++ [(ERROR, log_main_loop_error)]) st1)
    /\ Forall (fun u : Z * update => u.1 < offset_param None new_last) post.
Proof.
  intros Hget Hpre.
  assert (Hraise : handle_updates (pre ++ (i, upd_callback_incomplete) :: post) env st
                   = Raise st1).
  { rewrite handle_updates_app, Hpre. reflexivity. }
  destruct (pre ++ (i, upd_callback_incomplete) :: post) as [|u updates] eqn:Hbatch;
    [destruct pre; discriminate|].
  exists (max_update_id u updates). split.
  - unfold main_turn, get_updates. cbn [offset_param]. rewrite Hget.
    cbn [Z.eqb Pos.eqb]. simpl_m. cbn [fst snd]. rewrite Hraise. reflexivity.
  - pose proof (max_update_id_ge u updates) as Hmax. rewrite <- Hbatch in Hmax.
    apply Forall_app in Hmax as [_ Hmax]. apply Forall_cons in Hmax as [_ Hmax].
    eapply Forall_impl; [exact Hmax|]. intros v Hv. cbn in *. lia.
Qed.

Lemma main_turn_drops_rest_witness :
  exists st1,
    handle_updates [(1, upd_text 7 "/start")] (fun _ => example_event_env) fresh_state
    = Return tt st1
    /\ main_turn 0 example_requests_get (fun _ => example_event_env) fresh_state
       = Return 3 (set_log (log st1 ++ [(ERROR, log_main_loop_error)]) st1)
    /\ outbox st1 = [(chat_int 7, msg_welcome)].
Proof.
  assert (H1 : exists st1,
            handle_updates [(1, upd_text 7 "/start")] (fun _ => example_event_env)
              fresh_state = Return tt st1
            /\ outbox st1 = [(chat_int 7, msg_welcome)]) by (vm_compute; eauto).
  destruct H1 as (st1 & H1 & Hout). exists st1. split; [exact H1|].
  destruct (main_turn_drops_rest 0 example_requests_get (fun _ => example_event_env)
              fresh_state [(1, upd_text 7 "/start")] 2 [(3, upd_text 7 SHOP_GROCERIES)]
              st1 eq_refl H1) as (new_last & R & _).
  split; [|exact Hout]. rewrite R. f_equal.
  assert (R' : exists s, main_turn 0 example_requests_get (fun _ => example_event_env)
                           fresh_state = Return 3 s) by (vm_compute; eauto).
  destruct R' as [s R']. congruence.
Defined.

Lemma handle_message_returns c text env now sheet_answers st :
  exists st', handle_message c text env now sheet_answers st = Return tt st'.
Proof.
  unfold handle_message.
  match goal with
  | |- exists st', try_except ?m ?h st = _ =>
      unfold try_except at 1; destruct (m st) as [[] st1|st1]; [eauto|]
  end.
  apply handler_returns.
Qed.

(** X15. A batch of text messages never ends a turn early: each message is
    handled, in order, and the loop returns. *)
Theorem text_messages_are_all_handled updates env st :
  Forall (fun u : Z * update => exists c text, u.2 = upd_text c text) updates ->
  exists st',
    handle_updates updates env st = Return tt st'
    /\ st' = fold_left (fun st u => final_state (handle_update u.2 (env u.1) st)) updates st.
Proof.
  intros H. revert st. induction H as [|u updates (c & text & Hu) _ IH]; intros st.
  - exists st. split; reflexivity.
  - cbn [handle_updates fold_left]. rewrite Hu. cbn [handle_update]. simpl_m.
    destruct (handle_message_returns c text (checkout_readings (env u.1))
                (status_now (env u.1)) (sheet_answers (env u.1))
                (set_log (log st ++ [(INFO, log_message_from c text)]) st))
      as [st1 Hrun].
    rewrite Hrun. cbn [final_state]. apply IH.
Qed.

Lemma text_messages_are_all_handled_witness :
  exists st',
    handle_updates [(1, upd_text 7 "/start"); (2, upd_text 7 MY_CART)]
      (fun _ => example_event_env) shopping_state = Return tt st'.
Proof.
  destruct (text_messages_are_all_handled
              [(1, upd_text 7 "/start"); (2, upd_text 7 MY_CART)]
              (fun _ => example_event_env) shopping_state) as (st' & R & _).
  - repeat constructor; cbn; eauto.
  - exists st'. exact R.
Defined.

(** *** The states that the loop can reach *)

(** X16. In every state that the loop can reach, the stores are well
    formed and the carts are separate: every cart and every stored order
    refers to an allocated dict whose entries are allocated lines, two
    customers never share a dict or a line, and no stored order refers to a
    customer's dict or to one of its lines. *)
Theorem reachable_carts_are_separate st :
  reachable st -> wf st /\ separated st.
Proof.
  induction 1 as [st Hinit|st u env _ [Hwf Hsep]].
  - split; [apply initial_wf | apply initial_separated]; exact Hinit.
  - destruct (handle_update_keeps_stores u env st Hwf Hsep) as (Hwf' & Hsep' & _).
    split; [exact Hwf' | exact Hsep'].
Qed.

Lemma reachable_carts_are_separate_witness :
  reachable served_state /\ wf served_state /\ separated served_state.
Proof.
  assert (H : reachable served_state).
  { unfold served_state, run_updates. cbn [fold_left].
    repeat apply reachable_update. apply reachable_initial.
    repeat split. }
  split; [exact H|]. exact (reachable_carts_are_separate served_state H).
Defined.

(** X17. In every state that the loop can reach, no update changes the
    lines of a stored order: whatever the update and its sender, the dict
    that the order refers to has the same entries afterwards, with the same
    prices, units and quantities. *)
Theorem stored_order_lines_are_frozen st u env order_id o :
  reachable st ->
  order_tracking st !! order_id = Some o ->
  cart_items (final_state (handle_update u env st)) (cart o) = cart_items st (cart o).
Proof.
  intros Hreach Ho. destruct (reachable_stores st Hreach) as [Hwf Hsep].
  destruct (handle_update_keeps_stores u env st Hwf Hsep) as (_ & _ & Hstable).
  exact (Hstable order_id o Ho).
Qed.

Lemma stored_order_lines_are_frozen_witness :
  reachable served_state
  /\ exists o,
       order_tracking served_state !! "ORD1700000000" = Some o
       /\ cart_items served_state (cart o) = [("🍎 Apples", Line (Py.literal 399) "kg" 1)]
       /\ cart_items
            (final_state (handle_update (upd_callback 7 "add_🍎 Apples") example_event_env
                            served_state)) (cart o)
          = cart_items served_state (cart o).
Proof.
  assert (H : reachable served_state).
  { unfold served_state, run_updates. cbn [fold_left].
    repeat apply reachable_update. apply reachable_initial.
    repeat split. }
  assert (Ho : exists o, order_tracking served_state !! "ORD1700000000" = Some o
                         /\ cart_items served_state (cart o)
                            = [("🍎 Apples", Line (Py.literal 399) "kg" 1)])
    by (vm_compute; eauto).
  split; [exact H|]. destruct Ho as (o & Ho & Hitems). exists o.
  split; [exact Ho|]. split; [exact Hitems|].
  exact (stored_order_lines_are_frozen served_state (upd_callback 7 "add_🍎 Apples")
           example_event_env "ORD1700000000" o H Ho).
Defined.

(** X18. In every state that the loop can reach, a chat whose session
    waits for a cancellation reason is the admin's chat: [ADMIN_CHAT_ID] is
    set and is the text of that chat id. *)
Theorem only_admin_awaits_cancel_reason st c order_id :
  reachable st ->
  user_sessions st !! c = Some (awaiting_cancel_reason order_id) ->
  ADMIN_CHAT_ID st = Some (Py.str c) /\ Py.str c <> EmptyString.
Proof.
  intros Hreach Hs. destruct (reachable_invariant st Hreach) as (_ & _ & Hinv).
  specialize (Hinv c order_id Hs). unfold not_admin, truthy in Hinv.
  apply orb_false_elim in Hinv as [H1 H2].
  apply negb_false_iff, bool_decide_eq_true_1 in H2.
  split; [congruence|]. intros Hempty.
  rewrite <- H2, Hempty in H1. discriminate H1.
Qed.

Lemma only_admin_awaits_cancel_reason_witness :
  reachable cancel_pressed_state
  /\ user_sessions cancel_pressed_state !! 999
     = Some (awaiting_cancel_reason "ORD1700000000")
  /\ ADMIN_CHAT_ID cancel_pressed_state = Some (Py.str 999).
Proof.
  assert (H : reachable cancel_pressed_state).
  { unfold cancel_pressed_state, served_state, run_updates. cbn [fold_left].
    repeat apply reachable_update. apply reachable_initial.
    repeat split. }
  assert (Hs : user_sessions cancel_pressed_state !! 999
               = Some (awaiting_cancel_reason "ORD1700000000"))
    by (vm_compute; reflexivity).
  split; [exact H|]. split; [exact Hs|].
  exact (proj1 (only_admin_awaits_cancel_reason cancel_pressed_state 999 "ORD1700000000"
                  H Hs)).
Defined.

(** X19. In every state that the loop can reach, an update from a chat
    other than the admin's sets no status and removes no order: afterwards
    the tracker has, at every id, the very record that was there, except
    possibly at the one id made from the clock reading of this update,
    where the update has then stored a Pending order of its sender (in the
    place of the order placed in the same second, if there was one). *)
Theorem non_admin_only_places_orders st u env c order_id :
  reachable st ->
  sender u = Some c ->
  not_admin st c = true ->
  order_tracking (final_state (handle_update u env st)) !! order_id
  = order_tracking st !! order_id
  \/ (order_id_at (checkout_readings env) = Some order_id
      /\ exists o',
           order_tracking (final_state (handle_update u env st)) !! order_id = Some o'
           /\ chat_id o' = c /\ status o' = "Pending").
Proof.
  intros Hreach Hsender Hnot.
  destruct (reachable_invariant st Hreach) as (_ & _ & Hinv).
  destruct u as [c0 text|c0 callback_data| |]; try discriminate Hsender;
    injection Hsender as ->; cbn [handle_update].
  - apply (handle_message_non_admin c text (checkout_readings env) (status_now env)
             (sheet_answers env) (set_log (log st ++ [(INFO, log_message_from c text)]) st));
      assumption.
  - apply (handle_callback_query_non_admin c callback_data (checkout_readings env)
             (status_now env) (sheet_answers env)
             (set_log (log st ++ [(INFO, log_callback_from c callback_data)]) st));
      assumption.
Qed.

Lemma non_admin_only_places_orders_witness :
  reachable served_state
  /\ not_admin served_state 7 = true
  /\ order_tracking
       (final_state (handle_update (upd_callback 7 "ship_ORD1700000000")
                       example_event_env served_state)) !! "ORD1700000000"
     = order_tracking served_state !! "ORD1700000000"
  /\ status <$> order_tracking served_state !! "ORD1700000000" = Some "Pending".
Proof.
  assert (H : reachable served_state).
  { unfold served_state, run_updates. cbn [fold_left].
    repeat apply reachable_update. apply reachable_initial.
    repeat split. }
  assert (Hn : not_admin served_state 7 = true) by (vm_compute; reflexivity).
  split; [exact H|]. split; [exact Hn|].
  destruct (non_admin_only_places_orders served_state
              (upd_callback 7 "ship_ORD1700000000") example_event_env 7 "ORD1700000000"
              H eq_refl Hn) as [Hsame|(_ & o' & Ho' & _ & Hpending)].
  - split; [exact Hsame | vm_compute; reflexivity].
  - split; [vm_compute; reflexivity | vm_compute; reflexivity].
Defined.

(** X20. In every state that the loop can reach, an update changes the
    cart of its sender only: for every other chat, the cart is the same
    dict afterwards, with the same lines. *)
Theorem update_keeps_other_carts st u env c' d' :
  reachable st ->
  sender u <> Some c' ->
  user_carts st !! c' = Some d' ->
  user_carts (final_state (handle_update u env st)) !! c' = Some d'
  /\ cart_items (final_state (handle_update u env st)) d' = cart_items st d'.
Proof.
  intros Hreach Hsender Hd'. destruct (reachable_stores st Hreach) as [Hwf Hsep].
  destruct u as [c text|c callback_data| |]; cbn [handle_update final_state raise ret];
    [| |auto..].
  - assert (Hne : c' <> c) by (intros ->; apply Hsender; reflexivity).
    apply (handle_message_other_carts c text (checkout_readings env) (status_now env)
             (sheet_answers env) (set_log (log st ++ [(INFO, log_message_from c text)]) st)
             Hwf c' d' Hne Hd').
  - assert (Hne : c' <> c) by (intros ->; apply Hsender; reflexivity).
    apply (handle_callback_query_other_carts c callback_data (status_now env)
             (sheet_answers env)
             (set_log (log st ++ [(INFO, log_callback_from c callback_data)]) st)
             Hwf Hsep c' d' Hne Hd').
Qed.

Lemma update_keeps_other_carts_witness :
  reachable two_customers_state
  /\ user_carts two_customers_state !! 8 = Some 1%nat
  /\ cart_items (final_state (handle_update (upd_text 7 CLEAR_CART) example_event_env
                                two_customers_state)) 1
     = cart_items two_customers_state 1
  /\ cart_items two_customers_state 1 = [("🍌 Bananas", Line (Py.literal 199) "kg" 1)].
Proof.
  assert (H : reachable two_customers_state).
  { unfold two_customers_state, run_updates. cbn [fold_left].
    repeat apply reachable_update. apply reachable_initial.
    repeat split. }
  assert (Hd : user_carts two_customers_state !! 8 = Some 1%nat)
    by (vm_compute; reflexivity).
  split; [exact H|]. split; [exact Hd|].
  split; [|vm_compute; reflexivity].
  refine (proj2 (update_keeps_other_carts two_customers_state (upd_text 7 CLEAR_CART)
                   example_event_env 8 1%nat H _ Hd)).
  cbn. discriminate.
Defined.

(** *** The totals of the stored orders *)

#[export] Instance totals_kept_preorder : PreOrder totals_kept.
Proof.
  split; unfold totals_kept.
  - intros st H. exact H.
  - intros st1 st2 st3 H12 H23 H. auto.
Qed.

Lemma totals_kept_same st st' :
  order_tracking st' = order_tracking st -> totals_kept st st'.
Proof. intros H Hf id o Ho. rewrite H in Ho. exact (Hf id o Ho). Qed.

Lemma keeps_totals_frame {A} (m : M A) : keeps frame m -> keeps totals_kept m.
Proof.
  intros H st. destruct (H st) as (_ & _ & _ & _ & _ & _ & Htrack & _).
  apply totals_kept_same, Htrack.
Qed.

Lemma keeps_totals_handle_add_to_cart c item_name :
  keeps totals_kept (handle_add_to_cart c item_name).
Proof.
  intros st. destruct (keeps_cart_only_handle_add_to_cart c item_name st) as (_ & _ & _ & H).
  apply totals_kept_same, H.
Qed.

(** One rule, chosen by the shape of the computation, for a relation on
    the tracker: [leaf] closes an assignment that leaves the tracker alone,
    [from_frame] takes the relation from [frame]. *)
Ltac tracker_step leaf from_frame :=
  lazymatch goal with
  | |- keeps _ (let _ := _ in _) => cbv zeta
  | |- keeps _ (mbind _ get) => apply keeps_get; intros ?
  | |- keeps _ (mbind _ _) => apply keeps_bind; [typeclasses eauto| |intros ?]
  | |- keeps _ (try_except _ _) => apply keeps_try_except; [typeclasses eauto| |]
  | |- keeps _ (ret _) => apply keeps_ret; typeclasses eauto
  | |- keeps _ raise => apply keeps_raise; typeclasses eauto
  | |- keeps _ (eval _) => apply keeps_eval; typeclasses eauto
  | |- keeps _ (when ?b _) => unfold when; destruct b eqn:?
  | |- keeps _ (if ?b then _ else _) => destruct b eqn:?
  | |- keeps _ (match ?x with _ => _ end) => destruct x eqn:?
  | |- keeps _ (send_message _ _) => apply keeps_send_message; leaf
  | |- keeps _ (logger _ _) => apply keeps_modify; leaf
  | |- keeps _ (modify _) => apply keeps_modify; leaf
  | |- keeps _ _ => solve [auto with keeps | from_frame; auto with keeps]
  end.

Ltac totals_step :=
  tracker_step ltac:(intros ?; apply totals_kept_same; reflexivity)
               ltac:(apply keeps_totals_frame).

(** A status update keeps the total of the record. *)
Lemma keeps_totals_update_order_status order_id new_status admin_note now sheet_answers :
  keeps totals_kept (update_order_status order_id new_status admin_note now sheet_answers).
Proof.
  intros st. unfold update_order_status. rewrite final_state_get. cbv beta.
  destruct (order_tracking st !! order_id) as [o|] eqn:Ho; [|reflexivity].
  cbv zeta. rewrite final_state_modify.
  apply keeps_from; [typeclasses eauto| |].
  - intros Hf id o'. cbn. intros [[<- <-]|[_ Ho']]%lookup_insert_Some.
    + exact (Hf order_id o Ho).
    + exact (Hf id o' Ho').
  - unfold notify_customer_order_update. repeat totals_step.
Qed.

(** The total that a checkout stores is a float, or the int 5 of an order
    without lines. *)
Lemma add_fee_formattable (subtotal total : Py.num) :
  (subtotal = Py.Int 0 \/ exists f, subtotal = Py.Float f) ->
  Py.add subtotal (delivery_fee_for subtotal) = Some total ->
  formattable total.
Proof.
  intros [->|[f ->]] Hadd.
  - vm_compute in Hadd. injection Hadd as <-. vm_compute. eauto.
  - unfold delivery_fee_for in Hadd.
    destruct (Py.ge_int (Py.Float f) 50); cbn in Hadd; injection Hadd as <-;
      unfold formattable; cbn; eauto.
Qed.

Lemma sum_of_lines_kind (ls : list line) :
  sum_of_lines ls = Py.Int 0 \/ exists f, sum_of_lines ls = Py.Float f.
Proof. destruct ls; cbn; eauto. Qed.

Lemma keeps_totals_process_cash_on_delivery c customer_name phone address d
    special_instructions env :
  keeps totals_kept
    (process_cash_on_delivery c customer_name phone address d special_instructions env).
Proof.
  intros st.
  destruct (decide (Forall convertible (cart_values st d))) as [Hconv|Hnot];
    [destruct (Py.int_of_float (time_time env)) as [seconds|] eqn:Hclock|].
  - destruct (process_cash_on_delivery_completes c customer_name phone address d
                special_instructions env st seconds Hconv Hclock)
      as (summary & total & st' & Hsummary & Hrun & Htrack & _).
    destruct (create_enhanced_order_summary_returns customer_name phone address d
                special_instructions (summary_time env) st Hconv)
      as (items_text & missing & total' & Hsummary' & Htotal).
    rewrite Hsummary' in Hsummary. injection Hsummary as _ <-.
    rewrite Hrun. cbn [final_state]. intros Hf id o. rewrite Htrack.
    intros [[_ <-]|[_ Ho]]%lookup_insert_Some; [|exact (Hf id o Ho)].
    cbn [pending_order total].
    exact (add_fee_formattable _ _ (sum_of_lines_kind _) Htotal).
  - rewrite process_cash_on_delivery_fails by auto. apply totals_kept_same. reflexivity.
  - rewrite process_cash_on_delivery_fails by auto. apply totals_kept_same. reflexivity.
Qed.

#[export] Hint Resolve keeps_totals_handle_add_to_cart keeps_totals_update_order_status
  keeps_totals_process_cash_on_delivery : keeps.

Lemma keeps_totals_handle_update u env : keeps totals_kept (handle_update u env).
Proof.
  destruct u as [c text|c callback_data| |]; cbn [handle_update].
  - unfold handle_message, alloc_dict. repeat totals_step.
  - unfold handle_callback_query, handle_admin_callback. repeat totals_step.
  - apply keeps_raise. typeclasses eauto.
  - apply keeps_ret. typeclasses eauto.
Qed.

(** In every state that the loop can reach, the total of every stored
    order formats: it is the float, or the int 5, that a checkout has
    computed. *)
Lemma reachable_totals_format st : reachable st -> totals_format st.
Proof.
  induction 1 as [st (_ & _ & _ & _ & Hempty & _)|st u env _ IH].
  - intros id o Ho. rewrite Hempty in Ho. discriminate Ho.
  - exact (keeps_totals_handle_update u env st IH).
Qed.

(** *** The keys of the tracker *)

#[export] Instance keys_kept_preorder : PreOrder keys_kept.
Proof.
  split; unfold keys_kept.
  - intros st H. exact H.
  - intros st1 st2 st3 H12 H23 H. auto.
Qed.

Lemma keys_kept_same st st' :
  order_tracking st' = order_tracking st -> order_ids st' = order_ids st ->
  keys_kept st st'.
Proof. intros Ht Hi. unfold keys_kept, keys_ok. rewrite Ht, Hi. auto. Qed.

Lemma keeps_keys_frame {A} (m : M A) : keeps frame m -> keeps keys_kept m.
Proof.
  intros H st. destruct (H st) as (_ & _ & _ & _ & _ & _ & Htrack & Hids & _).
  apply keys_kept_same; assumption.
Qed.

Ltac keys_step :=
  tracker_step ltac:(intros ?; apply keys_kept_same; reflexivity)
               ltac:(apply keeps_keys_frame).

(** An assignment to a key of the tracker keeps the keys in step. *)
Lemma keys_ok_assign order_id o st st' :
  order_tracking st' = <[order_id := o]> (order_tracking st) ->
  order_ids st' = assign_key order_id (order_ids st) ->
  keys_kept st st'.
Proof.
  intros Ht Hi [Hnodup Hkeys]. unfold keys_ok. rewrite Ht, Hi. unfold assign_key.
  destruct (decide (order_id ∈ order_ids st)) as [Hin|Hnin].
  - rewrite bool_decide_eq_true_2 by exact Hin. split; [exact Hnodup|].
    intros id. destruct (decide (order_id = id)) as [<-|Hne].
    + rewrite lookup_insert_eq. split; eauto.
    + rewrite lookup_insert_ne by exact Hne. apply Hkeys.
  - rewrite bool_decide_eq_false_2 by exact Hnin. split.
    + apply NoDup_app. split; [exact Hnodup|]. split; [|apply NoDup_singleton].
      intros x Hx ->%list_elem_of_singleton. contradiction.
    + intros id. rewrite elem_of_app, list_elem_of_singleton.
      destruct (decide (order_id = id)) as [<-|Hne].
      * rewrite lookup_insert_eq. split; eauto.
      * rewrite lookup_insert_ne by exact Hne. rewrite Hkeys. split; [|auto].
        intros [H|H]; [exact H | congruence].
Qed.

Lemma keeps_keys_save_order_tracking order_id c customer_name phone address cart total
    status now1 now2 :
  keeps keys_kept
    (save_order_tracking order_id c customer_name phone address cart total status now1
       now2).
Proof.
  intros st. rewrite save_order_tracking_eq. cbn [final_state].
  eapply keys_ok_assign; reflexivity.
Qed.

(** A status update assigns to a key that is there. *)
Lemma keeps_keys_update_order_status order_id new_status admin_note now sheet_answers :
  keeps keys_kept (update_order_status order_id new_status admin_note now sheet_answers).
Proof.
  intros st. unfold update_order_status. rewrite final_state_get. cbv beta.
  destruct (order_tracking st !! order_id) as [o|] eqn:Ho; [|reflexivity].
  cbv zeta. rewrite final_state_modify.
  apply keeps_from; [typeclasses eauto| |].
  - intros [Hnodup Hkeys]. split; [exact Hnodup|]. cbn. intros id.
    destruct (decide (order_id = id)) as [<-|Hne].
    + rewrite lookup_insert_eq, Hkeys, Ho. split; eauto.
    + rewrite lookup_insert_ne by exact Hne. apply Hkeys.
  - unfold notify_customer_order_update. repeat keys_step.
Qed.

#[export] Hint Resolve keeps_keys_save_order_tracking keeps_keys_update_order_status :
  keeps.

Lemma keeps_keys_handle_update u env : keeps keys_kept (handle_update u env).
Proof.
  destruct u as [c text|c callback_data| |]; cbn [handle_update].
  - unfold handle_message, process_cash_on_delivery, create_enhanced_order_summary,
      generate_order_id, save_order_to_sheet, send_admin_order_notification, alloc_dict.
    repeat keys_step.
  - unfold handle_callback_query, handle_admin_callback, handle_add_to_cart, alloc_dict,
      alloc_line.
    repeat keys_step.
  - apply keeps_raise. typeclasses eauto.
  - apply keeps_ret. typeclasses eauto.
Qed.

(** In every state that the loop can reach, [order_ids] lists each key of
    the tracker once. *)
Lemma reachable_keys_ok st : reachable st -> keys_ok st.
Proof.
  induction 1 as [st (_ & _ & _ & _ & Hempty & Hids)|st u env _ IH].
  - split; rewrite Hids; [constructor|]. intros id. rewrite Hempty, lookup_empty.
    split; [intros H; inversion H | intros [? H]; discriminate H].
  - exact (keeps_keys_handle_update u env st IH).
Qed.

(** The entries of the tracker follow its keys. *)
Lemma orders_of_sublist c (tracker : gmap string order) (ids : list string) :
  (orders_of c (omap (fun order_id => (fun o => (order_id, o)) <$> tracker !! order_id)
                  ids)).*1
  `sublist_of` ids.
Proof.
  unfold orders_of.
  induction ids as [|id ids IH]; [constructor|].
  cbn [omap list_omap]. destruct (tracker !! id) as [o|]; cbn [fmap option_fmap option_map].
  - rewrite filter_cons. destruct (decide (chat_id (id, o).2 = c)).
    + cbn. apply sublist_skip, IH.
    + apply sublist_cons, IH.
  - apply sublist_cons, IH.
Qed.

Lemma elem_of_orders_of c st order_id o :
  keys_ok st ->
  (order_id, o) ∈ orders_of c (order_items st)
  <-> order_tracking st !! order_id = Some o /\ chat_id o = c.
Proof.
  intros [_ Hkeys]. unfold orders_of, order_items.
  rewrite list_elem_of_filter, list_elem_of_omap. cbn [snd]. split.
  - intros (Hc & id & _ & Hid). split; [|exact Hc].
    destruct (order_tracking st !! id) as [o'|] eqn:Ho'; [|discriminate Hid].
    cbn in Hid. injection Hid as -> ->. exact Ho'.
  - intros [Ho Hc]. split; [exact Hc|]. exists order_id.
    split; [apply Hkeys; eauto|]. rewrite Ho. reflexivity.
Qed.

Lemma mapM_track_row (entries : list (string * order)) :
  Forall (fun entry => formattable (total entry.2)) entries ->
  mapM track_row entries = Some (track_block <$> entries).
Proof.
  intros H. apply mapM_Some. induction H as [|entry entries [text Htext] _ IH]; cbn.
  - constructor.
  - constructor; [|exact IH]. unfold track_row. rewrite Htext. reflexivity.
Qed.

(** X23. Track Order, in every state that the loop can reach.  The orders
    of the sender are the records of the tracker with the sender's chat id,
    each once and in the order in which their ids were first stored.  A
    sender without orders is told so; any other is sent the listing of the
    last five of them (of all, when there are no more than five), each with
    its id, its present status, its total and its date.  The totals format,
    so the branch never ends in the error notice. *)
Theorem track_order_lists_last_five st c env :
  reachable st ->
  (forall order_id o,
     (order_id, o) ∈ orders_of c (order_items st)
     <-> order_tracking st !! order_id = Some o /\ chat_id o = c)
  /\ NoDup (orders_of c (order_items st)).*1
  /\ (orders_of c (order_items st)).*1 `sublist_of` order_ids st
  /\ (exists older,
        orders_of c (order_items st) = older ++ last_five (orders_of c (order_items st)))
  /\ length (last_five (orders_of c (order_items st)))
     = (length (orders_of c (order_items st)) `min` 5)%nat
  /\ handle_update (upd_text c TRACK_ORDER) env st
     = Return tt
         (sent (chat_int c)
            (match orders_of c (order_items st) with
             | [] => msg_no_orders
             | _ :: _ =>
                 msg_your_orders (track_block <$> last_five (orders_of c (order_items st)))
             end)
            (set_log (log st ++ [(INFO, log_message_from c TRACK_ORDER)]) st)).
Proof.
  intros Hreach.
  pose proof (reachable_keys_ok st Hreach) as Hkeys.
  pose proof (reachable_totals_format st Hreach) as Htotals.
  assert (Hsub : (orders_of c (order_items st)).*1 `sublist_of` order_ids st)
    by apply orders_of_sublist.
  split; [intros order_id o; apply elem_of_orders_of, Hkeys|].
  split; [exact (sublist_NoDup _ _ (proj1 Hkeys) Hsub)|].
  split; [exact Hsub|].
  split; [eexists; unfold last_five; symmetry; apply take_drop|].
  split; [unfold last_five; rewrite length_drop; lia|].
  cbn [handle_update]. simpl_m.
  set (st0 := set_log (log st ++ [(INFO, log_message_from c TRACK_ORDER)]) st).
  change (order_items st) with (order_items st0).
  unfold handle_message.
  rewrite (bool_decide_eq_false_2 (TRACK_ORDER = "/start")) by discriminate.
  rewrite (bool_decide_eq_false_2 (TRACK_ORDER = SHOP_GROCERIES)) by discriminate.
  rewrite (bool_decide_eq_false_2 (TRACK_ORDER = MY_CART)) by discriminate.
  rewrite (bool_decide_eq_true_2 (TRACK_ORDER = TRACK_ORDER)) by reflexivity.
  apply try_except_return. simpl_m.
  destruct (orders_of c (order_items st0)) as [|entry entries] eqn:Hmine;
    [rewrite send_message_eq; reflexivity|].
  rewrite mapM_track_row; [rewrite send_message_eq; reflexivity|].
  apply Forall_forall. intros [order_id o] Hin.
  apply subseteq_drop in Hin. rewrite <- Hmine in Hin.
  apply (elem_of_orders_of c st order_id o Hkeys) in Hin as [Ho _].
  exact (Htotals order_id o Ho).
Qed.

Lemma track_order_lists_last_five_witness :
  reachable six_orders_state
  /\ (orders_of 7 (order_items six_orders_state)).*1
     = [ "ORD1700000000"; "ORD1700000001"; "ORD1700000002"; "ORD1700000003";
         "ORD1700000004"; "ORD1700000005" ]
  /\ exists track_text,
       handle_update (upd_text 7 TRACK_ORDER) example_event_env six_orders_state
       = Return tt
           (sent (chat_int 7) (msg_your_orders track_text)
              (set_log (log six_orders_state ++ [(INFO, log_message_from 7 TRACK_ORDER)])
                 six_orders_state))
       /\ (fun block => block.1.1.1) <$> track_text
          = [ "ORD1700000001"; "ORD1700000002"; "ORD1700000003"; "ORD1700000004";
              "ORD1700000005" ].
Proof.
  assert (H : reachable six_orders_state).
  { unfold six_orders_state, order_round, run_updates. cbn [fold_left].
    repeat apply reachable_update. apply reachable_initial.
    repeat split. }
  split; [exact H|]. split; [vm_compute; reflexivity|].
  destruct (track_order_lists_last_five six_orders_state 7 example_event_env H)
    as (_ & _ & _ & _ & _ & Hrun).
  assert (Hmine : exists e1 e2 e3 e4 e5 e6,
            orders_of 7 (order_items six_orders_state) = [e1; e2; e3; e4; e5; e6]
            /\ (fun e => e.1) <$> [e2; e3; e4; e5; e6]
               = [ "ORD1700000001"; "ORD1700000002"; "ORD1700000003"; "ORD1700000004";
                   "ORD1700000005" ])
    by (vm_compute; eauto 10).
  destruct Hmine as (e1 & e2 & e3 & e4 & e5 & e6 & Hmine & Hids).
  rewrite Hmine in Hrun.
  exists (track_block <$> [e2; e3; e4; e5; e6]). split; [exact Hrun|].
  rewrite <- Hids. reflexivity.
Defined.

(** *** More on the checkout *)

(** X21. When the last step of the checkout cannot price the cart or read
    the clock, the customer is sent the error notice and nothing is placed:
    the tracker, the cart, the sheet and the session are as they were, so
    the session still waits for the instructions. *)
Theorem failed_checkout_keeps_the_step c text env now sheet_answers st n p a d :
  free_text text = true ->
  user_sessions st !! c = Some (awaiting_instructions n p a) ->
  user_carts st !! c = Some d ->
  ~ Forall convertible (cart_values st d) \/ Py.int_of_float (time_time env) = None ->
  exists st',
    handle_message c text env now sheet_answers st = Return tt st'
    /\ outbox st' = outbox st ++ [(chat_int c, msg_order_error)]
    /\ order_tracking st' = order_tracking st
    /\ user_carts st' = user_carts st
    /\ dicts st' = dicts st /\ lines st' = lines st
    /\ sheet st' = sheet st
    /\ user_sessions st' = user_sessions st.
Proof.
  intros Hfree Hs Hd Hfail.
  rewrite (handle_message_awaiting_instructions c text env now sheet_answers st n p a d
             Hfree Hs Hd).
  rewrite process_cash_on_delivery_fails by exact Hfail.
  eexists. split; [reflexivity|]. cbn. auto 10.
Qed.

Lemma failed_checkout_keeps_the_step_witness :
  free_text "None" = true
  /\ exists st',
       handle_message 7 "None"
         (CheckoutEnv "2023-11-14 22:13:20" S754_nan "2023-11-14 22:13:20"
            "2023-11-14 22:13:20" "2023-11-14 22:13:20" true)
         "2023-11-15 09:00:00" true instructions_asked_state = Return tt st'
       /\ outbox st' = outbox instructions_asked_state ++ [(chat_int 7, msg_order_error)]
       /\ user_sessions st' = user_sessions instructions_asked_state.
Proof.
  assert (H1 : free_text "None" = true) by (vm_compute; reflexivity).
  split; [exact H1|].
  destruct (failed_checkout_keeps_the_step 7 "None"
              (CheckoutEnv "2023-11-14 22:13:20" S754_nan "2023-11-14 22:13:20"
                 "2023-11-14 22:13:20" "2023-11-14 22:13:20" true)
              "2023-11-15 09:00:00" true instructions_asked_state
              "Ann" "555-0100" "1 Main St" 0%nat H1)
    as (st' & R & O & _ & _ & _ & _ & _ & S).
  - vm_compute. reflexivity.
  - vm_compute. reflexivity.
  - right. vm_compute. reflexivity.
  - exists st'. auto.
Defined.

(** X22. Two checkouts whose clock readings fall in different seconds get
    different order ids, and the tracker holds both orders afterwards. *)
Theorem different_seconds_keep_both_orders c1 n1 p1 a1 d1 i1 env1 c2 n2 p2 a2 d2 i2 env2
    st st1 s1 s2 :
  Py.int_of_float (time_time env1) = Some s1 ->
  Py.int_of_float (time_time env2) = Some s2 ->
  s1 <> s2 ->
  process_cash_on_delivery c1 n1 p1 a1 d1 i1 env1 st = Return true st1 ->
  Forall convertible (cart_values st1 d2) ->
  exists st2 o1 o2,
    process_cash_on_delivery c2 n2 p2 a2 d2 i2 env2 st1 = Return true st2
    /\ "ORD" +:+ Py.str s1 <> "ORD" +:+ Py.str s2
    /\ order_tracking st2 !! ("ORD" +:+ Py.str s1) = Some o1
    /\ chat_id o1 = c1 /\ customer_name o1 = n1
    /\ order_tracking st2 !! ("ORD" +:+ Py.str s2) = Some o2
    /\ chat_id o2 = c2 /\ customer_name o2 = n2.
Proof.
  intros Hs1 Hs2 Hne Hrun1 Hconv2.
  destruct (process_cash_on_delivery_true_inv _ _ _ _ _ _ _ _ _ Hrun1) as [Hconv1 _].
  destruct (process_cash_on_delivery_completes c1 n1 p1 a1 d1 i1 env1 st s1 Hconv1 Hs1)
    as (summary1 & total1 & st1' & _ & Hrun1' & Htrack1 & _).
  assert (st1' = st1) as -> by congruence.
  destruct (process_cash_on_delivery_completes c2 n2 p2 a2 d2 i2 env2 st1 s2 Hconv2 Hs2)
    as (summary2 & total2 & st2 & _ & Hrun2 & Htrack2 & _).
  assert (Hids : "ORD" +:+ Py.str s1 <> "ORD" +:+ Py.str s2).
  { intros Heq. apply Hne. injection Heq as Heq. apply (inj pretty). exact Heq. }
  exists st2. eexists _, _. split; [exact Hrun2|]. split; [exact Hids|].
  rewrite Htrack2, Htrack1.
  rewrite lookup_insert_ne by congruence. rewrite !lookup_insert_eq.
  repeat split.
Qed.

Lemma different_seconds_keep_both_orders_witness :
  exists st1 st2 o1 o2,
    process_cash_on_delivery 7 "Ann" "555-0100" "1 Main St" 0%nat ""
      (example_env quarter_past true) two_shoppers_state = Return true st1
    /\ process_cash_on_delivery 8 "Bob" "555-0101" "2 Side St" 1%nat ""
         (example_env next_second true) st1 = Return true st2
    /\ order_tracking st2 !! "ORD1700000000" = Some o1 /\ chat_id o1 = 7
    /\ order_tracking st2 !! "ORD1700000001" = Some o2 /\ chat_id o2 = 8.
Proof.
  assert (H1 : Py.int_of_float (time_time (example_env quarter_past true))
               = Some 1700000000) by (vm_compute; reflexivity).
  assert (H2 : Py.int_of_float (time_time (example_env next_second true))
               = Some 1700000001) by (vm_compute; reflexivity).
  assert (H3 : (1700000000 : Z) <> 1700000001) by lia.
  set (st1 := final_state
                (process_cash_on_delivery 7 "Ann" "555-0100" "1 Main St" 0%nat ""
                   (example_env quarter_past true) two_shoppers_state)).
  assert (H4 : process_cash_on_delivery 7 "Ann" "555-0100" "1 Main St" 0%nat ""
                 (example_env quarter_past true) two_shoppers_state = Return true st1)
    by (vm_compute; reflexivity).
  assert (H5 : Forall convertible (cart_values st1 1)).
  { apply (bool_decide_eq_true_1 (Forall convertible _)). vm_compute. reflexivity. }
  destruct (different_seconds_keep_both_orders 7 "Ann" "555-0100" "1 Main St" 0%nat ""
              (example_env quarter_past true) 8 "Bob" "555-0101" "2 Side St" 1%nat ""
              (example_env next_second true) two_shoppers_state st1 1700000000 1700000001
              H1 H2 H3 H4 H5)
    as (st2 & o1 & o2 & R & _ & O1 & C1 & _ & O2 & C2 & _).
  exists st1, st2, o1, o2. auto 10.
Defined.

Lemma max_update_id_elem (u : Z * update) (updates : list (Z * update)) :
  max_update_id u updates ∈ (u :: updates).*1.
Proof.
  unfold max_update_id. rewrite fmap_cons. generalize (u.1) as a.
  induction (updates.*1) as [|x l IH]; intros a; cbn [fold_left]; [left|].
  specialize (IH (Z.max a x)). apply elem_of_cons in IH as [IH|IH].
  - rewrite IH. destruct (Z.max_spec a x) as [[_ ->]|[_ ->]]; [right; left | left].
  - do 2 right. exact IH.
Qed.

(** X24. [get_updates] never raises, and changes nothing but the log.  When
    it returns a batch, the batch is not empty and the new
    [last_update_id] is the highest id in it; in every other case (the
    request raised, a status other than 200, a body that is not JSON,
    [ok] false, an empty result) it returns [None] and [last_update_id] is
    as it was. *)
Theorem get_updates_tracks_highest_id offset last_update_id requests_get st :
  exists new_last result st',
    get_updates offset last_update_id requests_get st = Return (new_last, result) st'
    /\ frame st st' /\ outbox st' = outbox st /\ user_sessions st' = user_sessions st
    /\ match result with
       | None => new_last = last_update_id
       | Some updates =>
           requests_get (offset_param offset last_update_id)
           = get_answered 200 (Some (true, updates))
           /\ new_last ∈ updates.*1
           /\ Forall (fun u : Z * update => u.1 <= new_last) updates
       end.
Proof.
  unfold get_updates.
  destruct (requests_get (offset_param offset last_update_id))
    as [|status_code body] eqn:Hget.
  { simpl_m. eexists _, _, _. split; [reflexivity|].
    split; [frame_solve|]. repeat split. }
  destruct (status_code =? 200) eqn:H200.
  - apply Z.eqb_eq in H200 as ->. destruct body as [[[] [|u updates]]|].
    all: simpl_m; eexists _, _, _; split; [reflexivity|].
    all: split; [frame_solve|]; split; [reflexivity|]; split; [reflexivity|].
    all: try reflexivity.
    split; [reflexivity|]. split; [apply max_update_id_elem | apply max_update_id_ge].
  - destruct (status_code =? 409).
    all: simpl_m; eexists _, _, _; split; [reflexivity|].
    all: split; [frame_solve|]; repeat split.
Qed.

(** X25. When no step is pending, a text that is none of the ten labels
    tested first and no category name gets the contact details if it is the
    Contact Store label, the store information if it is the Store Info
    label (with the line about the sheet when it is connected), and the
    welcome message with the session at the main menu in every other
    case. *)
Theorem free_text_outside_a_step c text env now sheet_answers st :
  free_text text = true ->
  no_step_pending st c ->
  handle_message c text env now sheet_answers st
  = Return tt
      (if bool_decide (text = CONTACT_STORE) then sent (chat_int c) msg_contact st
       else if bool_decide (text = STORE_INFO) then
         sent (chat_int c) (msg_store_info (bool_decide (is_Some (sheet st)))) st
       else with_session c main_menu (sent (chat_int c) msg_welcome st)).
Proof.
  intros Hfree Hstep. free_text_dispatch Hfree. unfold no_step_pending in Hstep.
  apply try_except_return.
  destruct (user_sessions st !! c) as [[| | | | | |]|]; try contradiction.
  all: destruct (bool_decide (text = CONTACT_STORE));
         [simpl_m; rewrite send_message_eq; reflexivity|].
  all: destruct (bool_decide (text = STORE_INFO));
         [simpl_m; rewrite send_message_eq; reflexivity|].
  all: apply handle_start_eq.
Qed.

Lemma free_text_outside_a_step_witness :
  free_text "hello" = true
  /\ no_step_pending fresh_state 7
  /\ handle_message 7 "hello" (example_env quarter_past true) "2023-11-15 09:00:00" true
       fresh_state
     = Return tt (with_session 7 main_menu (sent (chat_int 7) msg_welcome fresh_state)).
Proof.
  assert (H1 : free_text "hello" = true) by (vm_compute; reflexivity).
  assert (H2 : no_step_pending fresh_state 7) by (vm_compute; exact I).
  split; [exact H1|]. split; [exact H2|].
  exact (free_text_outside_a_step 7 "hello" (example_env quarter_past true)
           "2023-11-15 09:00:00" true fresh_state H1 H2).
Defined.

